(** * time-series-prediction-subnet: validator orchestration and market-data fetch

    A shallow embedding of [neurons/validator.py] and of
    [data_generator/financial_markets_generator/bybit_data.py].

    Python values are modelled functionally: exceptions as a sum type,
    dictionaries as insertion-ordered association lists, statements as state
    passing with exceptions.  What lives outside the two modules (network,
    disk, clock and dice, scoring, scaling) is a record of collaborators, and
    the calls made to them are recorded in a trace. *)

From Stdlib Require Import List String DecimalString ZArith Bool Arith Lia.
From Equations Require Import Equations.
Import ListNotations.
Open Scope string_scope.

Set Implicit Arguments.

(** ** The Python runtime pieces the two modules rely on *)

Module Py.

(** The exception classes that occur in, or may cross, the modelled code.
    [SystemExit] and [KeyboardInterrupt] derive from [BaseException] only. *)
Inductive exn : Type :=
| Exception_          (* a bare [Exception(...)] *)
| RuntimeError
| ConnectionError     (* OSError subclass *)
| OSError
| FileNotFoundError   (* OSError subclass *)
| IsADirectoryError   (* OSError subclass *)
| PermissionError     (* OSError subclass *)
| KeyError
| IndexError
| ValueError
| AttributeError
| SystemExit
| KeyboardInterrupt.

(** [isinstance(e, Exception)] *)
Definition isinstance_Exception (e : exn) : bool :=
  match e with
  | SystemExit | KeyboardInterrupt => false
  | _ => true
  end.

(** [isinstance(e, RuntimeError)] *)
Definition isinstance_RuntimeError (e : exn) : bool :=
  match e with
  | RuntimeError => true
  | _ => false
  end.

(** [isinstance(e, OSError)] *)
Definition isinstance_OSError (e : exn) : bool :=
  match e with
  | ConnectionError | OSError | FileNotFoundError | IsADirectoryError
  | PermissionError => true
  | _ => false
  end.

(** Why the operating system refuses to remove a path that exists: it is a
    directory, the process may not remove it, or another [OSError]. *)
Inductive refusal : Type :=
| is_a_directory
| permission_denied
| other_os_error.

Definition refusal_exn (r : refusal) : exn :=
  match r with
  | is_a_directory => IsADirectoryError
  | permission_denied => PermissionError
  | other_os_error => OSError
  end.

Inductive result (A : Type) : Type :=
| Ok (a : A)
| Raise (e : exn).
Arguments Ok {A} a.
Arguments Raise {A} e.

Definition is_ok {A} (r : result A) : bool :=
  match r with Ok _ => true | Raise _ => false end.

(** *** Dictionaries: insertion-ordered, keyed by strings *)
Section Dict.
Variable V : Type.

Definition dict := list (string * V).

Fixpoint dict_get (k : string) (d : dict) : option V :=
  match d with
  | [] => None
  | (k', v) :: d' => if String.eqb k k' then Some v else dict_get k d'
  end.

(** [d[k] = v]: an existing key keeps its position, a new key goes last. *)
Fixpoint dict_set (k : string) (v : V) (d : dict) : dict :=
  match d with
  | [] => [(k, v)]
  | (k', v') :: d' =>
      if String.eqb k k' then (k', v) :: d' else (k', v') :: dict_set k v d'
  end.

(** [d[k]] as an expression: [KeyError] on a missing key. *)
Definition dict_index (k : string) (d : dict) : result V :=
  match dict_get k d with
  | Some v => Ok v
  | None => Raise KeyError
  end.

(** [{k: v for (k, v) in l}] *)
Definition dict_of_pairs (l : list (string * V)) : dict :=
  fold_left (fun d kv => dict_set (fst kv) (snd kv) d) l [].

Definition keys (d : dict) : list string := map fst d.
End Dict.

(** *** [sorted(items, key=lambda x: x[1], reverse=True)]

    The sort is stable, also with [reverse=True]: items with equal keys keep
    their input order.  [ltb] is the comparison of the keys and is taken to
    order them, as [<] orders the floats other than NaN; for keys that do not
    compare Python promises no particular order, and none is modelled. *)
Section Sorted.
Variables (A K : Type) (key : A -> K) (ltb : K -> K -> bool).

Fixpoint insert_desc (x : A) (l : list A) : list A :=
  match l with
  | [] => [x]
  | y :: l' => if ltb (key y) (key x) then x :: y :: l' else y :: insert_desc x l'
  end.

Definition sorted_reverse (l : list A) : list A :=
  fold_left (fun acc x => insert_desc x acc) l [].
End Sorted.

End Py.
Import Py.

(** ** bybit_data.py *)

Module ByBitData.

(** One row of the [result.list] array of a kline answer. *)
Definition kline := list string.

(** The query string of one request. *)
Record query : Type := mkQuery {
  q_symbol : string;
  q_interval : Z;
  q_start : option Z;
  q_end : option Z;
  q_limit : Z
}.

(** What [requests.get(url)] followed by the body of the [try] yields.
    [json_result_list] stands for [response.json()["result"]["list"]], which
    may itself raise (bad JSON, missing key). *)
Inductive http : Type :=
| Unreachable (e : exn)
| Response (status_code : Z) (json_result_list : result (list kline)).

(** The network as seen by this process: the requests issued so far, most
    recent last, and the seconds slept. *)
Record net : Type := mkNet {
  issued : list query;
  slept : list nat
}.

Definition net0 : net := mkNet [] [].

Section GetData.
(** The exchange: its answer to the [n]-th request of this process. *)
Variable exchange : nat -> query -> http.

Definition requests_get (q : query) (w : net) : http * net :=
  (exchange (List.length (issued w)) q, mkNet (issued w ++ [q]) (slept w)).

Definition time_sleep (s : nat) (w : net) : net :=
  mkNet (issued w) (slept w ++ [s]).

(** The body of the [try]. *)
Definition try_body (status_code : Z) (json_result_list : result (list kline))
  : result (list kline) :=
  if (status_code =? 200)%Z then json_result_list else Raise Exception_.

(** [get_data(symbol, interval, start, end, retries, limit)].  The value is
    [Some rows] for a returned list and [None] for Python's [None]. *)
Equations? get_data (symbol : string) (interval : Z) (start end_ : option Z)
  (retries : nat) (limit : Z) (w : net)
  : result (option (list kline)) * net by wf (5 - retries) lt :=
  get_data symbol interval start end_ retries limit w
    with requests_get (mkQuery symbol interval start end_ limit) w := {
    | (Unreachable e, w1) => (Raise e, w1)
    | (Response status_code body, w1) with try_body status_code body := {
      | Ok rows => (Ok (Some rows), w1)
      | Raise e with isinstance_Exception e := {
        | false => (Raise e, w1)
        | true with lt_dec retries 5 := {
          | left _ =>
              (* the value of the recursive call is dropped: the function
                 falls off its end *)
              match get_data symbol interval start end_ (S retries) 1000%Z
                      (time_sleep retries w1) with
              | (Ok _, w2) => (Ok None, w2)
              | (Raise e', w2) => (Raise e', w2)
              end
          | right _ => (Raise ConnectionError, w1) } } } }.
Proof. do 5 (destruct retries as [|retries]; [lia|]). lia. Qed.

End GetData.

End ByBitData.

(** [ByBitData.get_data_and_structure_data_points]: the fetch followed by the
    conversion of the base class. *)

Module ByBitStructure.
Import ByBitData.

Section Structure.
Variable exchange : nat -> query -> http.

(** [ValiConfig.STANDARD_TF], the default of [interval]. *)
Variable STANDARD_TF : Z.

(** The structure that is filled: columns of samples, of whatever the base
    class stores. *)
Variable sample : Type.

(** [BaseFinancialMarketsGenerator.convert_output_to_data_points(data_structure,
    bd, order)], which is not part of the sources: it fills the structure in
    place (the filled structure is the value here) or raises. *)
Variable convert_output_to_data_points :
  list (list sample) -> option (list kline) -> list nat -> result (list (list sample)).

Definition get_data_and_structure_data_points (symbol : string)
  (data_structure : list (list sample)) (ts_range : Z * Z) (w : net)
  : result (list (list sample)) * net :=
  match get_data exchange symbol STANDARD_TF (Some (fst ts_range)) (Some (snd ts_range))
          0 1000 w with
  | (Ok bd, w1) => (convert_output_to_data_points data_structure bd [1; 2; 3; 5], w1)
  | (Raise e, w1) => (Raise e, w1)
  end.

End Structure.
End ByBitStructure.

(** ** The collaborators of validator.py *)

(** Python floats, as far as validator.py touches them: the literal [0], the
    test [x != 0], the comparison used by [sorted], and the addition behind
    [CMWMiner.add_win_value].  Nothing is assumed of the operations. *)
Record Float : Type := mkFloat {
  float :> Type;
  float_zero : float;
  float_add : float -> float -> float;
  float_ne : float -> float -> bool;
  float_lt : float -> float -> bool
}.

(** *** vali_objects.cmw: the ledger objects *)

Module CMW.
Section Objects.
Variable F : Float.

(** Modelled from the spec: [CMWMiner] of vali_objects/cmw/cmw_objects is
    not part of the sources; section 3 gives a miner entry a score history,
    a win count and a win value total, and section 4.6 says a score is
    appended, the win count incremented and the win value added. *)
Record CMWMiner : Type := mkMiner {
  miner_id : string;
  wins : Z;
  win_value : F;
  scores : list F
}.

Definition add_score (s : F) (m : CMWMiner) : CMWMiner :=
  mkMiner (miner_id m) (wins m) (win_value m) (scores m ++ [s]).

Definition add_win_value (v : F) (m : CMWMiner) : CMWMiner :=
  mkMiner (miner_id m) (wins m) (float_add F (win_value m) v) (scores m).

Definition add_win (m : CMWMiner) : CMWMiner :=
  mkMiner (miner_id m) (wins m + 1) (win_value m) (scores m).

(** Modelled from the spec: [CMWStreamType] is not part of the sources; a
    stream is keyed by its stream id and maps miner ids to miner entries,
    created lazily. *)
Record CMWStreamType : Type := mkStream {
  stream_id : Z;
  topic_id : Z;
  miners : list CMWMiner
}.

Definition get_miner (uid : string) (st : CMWStreamType) : option CMWMiner :=
  find (fun m => String.eqb uid (miner_id m)) (miners st).

Definition add_miner (m : CMWMiner) (st : CMWStreamType) : CMWStreamType :=
  mkStream (stream_id st) (topic_id st) (miners st ++ [m]).

(** A method call on the object that [get_miner uid] handed out: the first
    entry with that id is the one that changes. *)
Fixpoint on_first (uid : string) (f : CMWMiner -> CMWMiner) (l : list CMWMiner)
  : list CMWMiner :=
  match l with
  | [] => []
  | m :: l' => if String.eqb uid (miner_id m) then f m :: l' else m :: on_first uid f l'
  end.

Definition on_miner (uid : string) (f : CMWMiner -> CMWMiner) (st : CMWStreamType)
  : CMWStreamType :=
  mkStream (stream_id st) (topic_id st) (on_first uid f (miners st)).

(** Modelled from the spec: [CMWClient] is not part of the sources; a client
    maps stream ids to streams, created lazily. *)
Record CMWClient : Type := mkClient {
  client_uuid : string;
  streams : list CMWStreamType
}.

Definition get_stream (sid : Z) (c : CMWClient) : option CMWStreamType :=
  find (fun st => Z.eqb sid (stream_id st)) (streams c).

Definition add_stream (st : CMWStreamType) (c : CMWClient) : CMWClient :=
  mkClient (client_uuid c) (streams c ++ [st]).

Fixpoint put_stream (st : CMWStreamType) (l : list CMWStreamType) : list CMWStreamType :=
  match l with
  | [] => []
  | s :: l' => if Z.eqb (stream_id st) (stream_id s) then st :: l' else s :: put_stream st l'
  end.

(** Modelled from the spec: the ledger object [CMW] is not part of the
    sources; it maps client ids to clients. *)
Record CMW : Type := mkCMW {
  clients : list CMWClient
}.

Definition get_client (cid : string) (vm : CMW) : option CMWClient :=
  find (fun c => String.eqb cid (client_uuid c)) (clients vm).

Definition add_client (c : CMWClient) (vm : CMW) : CMW :=
  mkCMW (clients vm ++ [c]).

Fixpoint put_client (c : CMWClient) (l : list CMWClient) : list CMWClient :=
  match l with
  | [] => []
  | c' :: l' =>
      if String.eqb (client_uuid c) (client_uuid c') then c :: l' else c' :: put_client c l'
  end.

(** The ledger after the stream object reached through
    [vm.get_client(cid).get_stream(sid)] has been mutated into [st]. *)
Definition with_stream (cid : string) (st : CMWStreamType) (vm : CMW) : CMW :=
  match get_client cid vm with
  | Some c => mkCMW (put_client (mkClient (client_uuid c) (put_stream st (streams c)))
                       (clients vm))
  | None => vm
  end.

(** The ledger after [client.add_stream(st)] on the object that
    [vm.get_client(cid)] handed out. *)
Definition with_client (c : CMWClient) (vm : CMW) : CMW :=
  mkCMW (put_client c (clients vm)).
End Objects.
End CMW.
Import CMW.

(** ** validator.py *)

Module Validator.
Section Model.
Variable F : Float.

(** The standardized data structure: one column of samples per feature. *)
Definition data_structure := list (list F).

(** *** Request dataclasses (fields as validator.py reads them) *)

Record TrainingRequest : Type := mkTrainingRequest {
  tr_stream_type : string;
  tr_topic_id : Z;
  tr_feature_ids : list Z;
  tr_schema_id : Z;
  tr_prediction_size : nat
}.

Record ClientRequest : Type := mkClientRequest {
  cr_client_uuid : option string;
  cr_stream_type : string;
  cr_topic_id : Z;
  cr_feature_ids : list Z;
  cr_schema_id : Z;
  cr_prediction_size : nat
}.

Record PredictionDataFile : Type := mkPredictionDataFile {
  pdf_client_uuid : string;
  pdf_stream_type : string;
  pdf_stream_id : Z;
  pdf_topic_id : Z;
  pdf_request_uuid : string;
  pdf_miner_uid : string;
  pdf_start : Z;
  pdf_end : Z;
  pdf_vmins : list F;
  pdf_vmaxs : list F;
  pdf_decimal_places : list Z;
  pdf_predictions : list F
}.

Record PredictionRequest : Type := mkPredictionRequest {
  pr_df : PredictionDataFile;
  pr_files : list string;
  pr_predictions : dict (list F)
}.

Inductive BaseRequestDataClass : Type :=
| Training (r : TrainingRequest)
| Client (r : ClientRequest)
| Prediction (r : PredictionRequest).

(** *** template.protocol: the four synapses, with the keyword arguments
    validator.py constructs them from *)
Inductive synapse : Type :=
| TrainingForward (request_uuid : string) (stream_id : Z) (samples : data_structure)
    (topic_id : Z) (feature_ids : list Z) (schema_id : Z) (prediction_size : nat)
| TrainingBackward (request_uuid : string) (stream_id : Z) (samples : list F)
    (topic_id : Z)
| LiveForward (request_uuid : string) (stream_id : Z) (samples : data_structure)
    (topic_id : Z) (feature_ids : list Z) (schema_id : Z) (prediction_size : nat)
| LiveBackward (request_uuid : string) (stream_id : Z) (samples : list F)
    (topic_id : Z).

Definition synapse_request_uuid (s : synapse) : string :=
  match s with
  | TrainingForward u _ _ _ _ _ _ => u
  | TrainingBackward u _ _ _ => u
  | LiveForward u _ _ _ _ _ _ => u
  | LiveBackward u _ _ _ => u
  end.

(** *** What the set-up part of [run_time_series_validation] builds:
    the parsed config, the wallet and the metagraph. *)
Record setup : Type := mkSetup {
  netuid : Z;
  test_only_historical : Z;
  ss58_address : string;          (* wallet.hotkey.ss58_address *)
  hotkeys : list string;          (* metagraph.hotkeys *)
  axons : list string;            (* metagraph.axons, each by its hotkey *)
  uids : list Z                   (* metagraph.uids *)
}.

(** *** Calls that leave the module, in the order they are made *)
Inductive call : Type :=
| Uuid4 (value : string)
| RandomizeDays (historical : bool)
| GetDataAndStructureDataPoints (symbol : string) (ts_range : Z * Z)
| DendriteQuery (targets : list string) (message : synapse)
| GetValiRecords
| SetValiMemoryAndBkp (vm : CMW F)
| SavePredictionsRequest (output_uuid : string) (pdf : PredictionDataFile)
| ScoreResponse (predictions ground_truth : list F)
| SetWeights (uids : list Z) (weights : list F)
| OsRemove (file : string)
| GetAllFilesInDir
| GetPredictionsToComplete
| RandInt (lo hi : Z).

(** The state outside the process: the calls made so far (most recent
    last), the persisted ledger and the paths that exist on disk. *)
Record world : Type := mkWorld {
  trace : list call;
  bkp : CMW F;
  disk : list string
}.

Definition now (w : world) : nat := List.length (trace w).

Definition log (c : call) (w : world) : world :=
  mkWorld (trace w ++ [c]) (bkp w) (disk w).

(** Everything validator.py imports from elsewhere in the repository or
    from third parties.  The first argument of a collaborator that talks
    to the outside is the number of calls made before it, so that its
    answer may change from call to call. *)
Record collaborators : Type := mkCollaborators {
  uuid4 : nat -> string;
  hash : string -> Z;
  STANDARD_TF : Z;                                       (* ValiConfig *)
  timestamp_to_millis : Z -> Z;                          (* TimeUtil *)
  minute_in_millis : Z -> Z;
  randomize_days : nat -> bool -> Z * Z * list (Z * Z);  (* ValiUtils *)
  get_standardized_ds : data_structure;
  generate_standard_client_request : ClientRequest;
  generate_standard_training_request : TrainingRequest;
  get_predictions_to_complete : nat -> list PredictionRequest;
  get_vali_records_fault : nat -> option exn;
  set_vali_memory_and_bkp_fault : nat -> option exn;
  save_predictions_request :      (* the directory listing after the write *)
    nat -> string -> PredictionDataFile -> list string -> result (list string);
  get_data_and_structure_data_points :                   (* BinanceData *)
    nat -> string -> data_structure -> Z * Z -> result data_structure;
  scale_data_structure :                                 (* Scaling *)
    data_structure -> result (list F * list F * list Z * data_structure);
  scale_values : list F -> F -> F -> result (F * F * list F);
  score_response : list F -> list F -> result F;         (* Scoring *)
  simple_scale_scores : dict F -> result (dict F);
  weigh_miner_scores : list (string * F) -> result (list (string * F));
  dendrite_query :                                       (* bittensor *)
    nat -> list string -> synapse -> result (list (option (list F)));
  set_weights_fault : nat -> option exn;
  os_remove_refused : nat -> string -> option refusal;   (* os *)
  randint : nat -> Z
}.

(** *** Statements: state passing with exceptions *)
Definition M (A : Type) : Type := world -> result A * world.

Definition ret {A} (a : A) : M A := fun w => (Ok a, w).

Definition raise {A} (e : exn) : M A := fun w => (Raise e, w).

Definition bind {A B} (m : M A) (k : A -> M B) : M B :=
  fun w =>
    match m w with
    | (Ok a, w') => k a w'
    | (Raise e, w') => (Raise e, w')
    end.

Definition lift {A} (r : result A) : M A := fun w => (r, w).

(** [try: body / except cls: handler] *)
Definition try_except {A} (body : M A) (cls : exn -> bool) (handler : exn -> M A)
  : M A :=
  fun w =>
    match body w with
    | (Ok a, w') => (Ok a, w')
    | (Raise e, w') => if cls e then handler e w' else (Raise e, w')
    end.

(** [try: body / except cls: handler / else: orelse] *)
Definition try_except_else {A B} (body : M A) (cls : exn -> bool)
  (handler : exn -> M B) (orelse : A -> M B) : M B :=
  fun w =>
    match body w with
    | (Ok a, w') => orelse a w'
    | (Raise e, w') => if cls e then handler e w' else (Raise e, w')
    end.

(** [for x in l: body x] *)
Fixpoint for_each {X} (l : list X) (body : X -> M unit) : M unit :=
  match l with
  | [] => ret tt
  | x :: l' => bind (body x) (fun _ => for_each l' body)
  end.

(** A [for] loop that updates one local variable. *)
Fixpoint for_fold {X S} (l : list X) (body : S -> X -> M S) (s : S) : M S :=
  match l with
  | [] => ret s
  | x :: l' => bind (body s x) (for_fold l' body)
  end.

(** [l[i]] *)
Definition index {A} (l : list A) (i : nat) : result A :=
  match nth_error l i with
  | Some a => Ok a
  | None => Raise IndexError
  end.

(** [enumerate(l)] *)
Definition enumerate {A} (l : list A) : list (nat * A) :=
  combine (seq 0 (List.length l)) l.

Declare Scope py_scope.
Delimit Scope py_scope with py.
Notation "x <- m ;; k" := (bind m (fun x => k))
  (at level 61, m at next level, right associativity) : py_scope.
Notation "' p <- m ;; k" := (bind m (fun x => match x with p => k end))
  (at level 61, p pattern, m at next level, right associativity) : py_scope.
Notation "m ;; k" := (bind m (fun _ => k))
  (at level 61, right associativity) : py_scope.
Local Open Scope py_scope.

Variable E : collaborators.
Variable C : setup.

(** *** The calls that leave the module *)

Definition str_uuid4 : M string :=
  fun w => let u := uuid4 E (now w) in (Ok u, log (Uuid4 u) w).

Definition ValiUtils_randomize_days (historical : bool) : M (Z * Z * list (Z * Z)) :=
  fun w => (Ok (randomize_days E (now w) historical), log (RandomizeDays historical) w).

(** [BinanceData.get_data_and_structure_data_points(symbol, ds, ts_range)]
    fills [ds] in place; the filled structure is the value here. *)
Definition BinanceData_get (symbol : string) (ds : data_structure) (ts_range : Z * Z)
  : M data_structure :=
  fun w => (get_data_and_structure_data_points E (now w) symbol ds ts_range,
            log (GetDataAndStructureDataPoints symbol ts_range) w).

(** [dendrite.query(metagraph.axons, message, deserialize=True)] *)
Definition dendrite_query_axons (message : synapse) : M (list (option (list F))) :=
  fun w => (dendrite_query E (now w) (axons C) message,
            log (DendriteQuery (axons C) message) w).

(** Modelled from the spec: [ValiUtils.get_vali_records] is not part of the
    sources; section 3 has the whole ledger read from durable storage. *)
Definition ValiUtils_get_vali_records : M (CMW F) :=
  fun w =>
    match get_vali_records_fault E (now w) with
    | Some e => (Raise e, log GetValiRecords w)
    | None => (Ok (bkp w), log GetValiRecords w)
    end.

(** Modelled from the spec: [ValiUtils.set_vali_memory_and_bkp] and
    [CMWUtil.dump_cmw] are not part of the sources; section 4.6 has the
    whole ledger written back as one unit, the serialization being
    lossless. *)
Definition ValiUtils_set_vali_memory_and_bkp (vm : CMW F) : M unit :=
  fun w =>
    match set_vali_memory_and_bkp_fault E (now w) with
    | Some e => (Raise e, log (SetValiMemoryAndBkp vm) w)
    | None => (Ok tt, mkWorld (trace w ++ [SetValiMemoryAndBkp vm]) vm (disk w))
    end.

(** Modelled from the spec: [ValiUtils.save_predictions_request] is not part
    of the sources.  Section 6 has a durable file store of PredictionRecord
    blobs keyed by the id that is handed to it (validator.py draws that id
    "for file name", line 270): a write under a key that is there replaces the
    blob, a write under a new key adds a file.  [write_keyed key d] is the
    listing of the directory [d] after a write under [key]. *)
Definition write_keyed (key : string) (d : list string) : list string :=
  if existsb (String.eqb key) d then d else (d ++ [key])%list.

(** The store of the collaborators [E] is that keyed store. *)
Definition keyed_store : Prop :=
  forall n key pdf d, save_predictions_request E n key pdf d = Ok (write_keyed key d).

Definition ValiUtils_save_predictions_request (output_uuid : string)
  (pdf : PredictionDataFile) : M unit :=
  fun w =>
    match save_predictions_request E (now w) output_uuid pdf (disk w) with
    | Raise e => (Raise e, log (SavePredictionsRequest output_uuid pdf) w)
    | Ok d => (Ok tt, mkWorld (trace w ++ [SavePredictionsRequest output_uuid pdf])
                        (bkp w) d)
    end.

Definition Scoring_score_response (predictions ground_truth : list F) : M F :=
  fun w => (score_response E predictions ground_truth,
            log (ScoreResponse predictions ground_truth) w).

Definition subtensor_set_weights (converted_uids : list Z) (weights : list F) : M unit :=
  fun w =>
    match set_weights_fault E (now w) with
    | Some e => (Raise e, log (SetWeights converted_uids weights) w)
    | None => (Ok tt, log (SetWeights converted_uids weights) w)
    end.

Fixpoint remove_file (file : string) (d : list string) : list string :=
  match d with
  | [] => []
  | f :: d' => if String.eqb file f then d' else f :: remove_file file d'
  end.

(** [os.remove(file)]: a path that does not exist gives [FileNotFoundError];
    one that exists is removed unless the operating system refuses, and a
    refused path stays where it is. *)
Definition os_remove (file : string) : M unit :=
  fun w =>
    if existsb (String.eqb file) (disk w)
    then match os_remove_refused E (now w) file with
         | Some r => (Raise (refusal_exn r), log (OsRemove file) w)
         | None =>
             (Ok tt,
              mkWorld (trace w ++ [OsRemove file]) (bkp w) (remove_file file (disk w)))
         end
    else (Raise FileNotFoundError, log (OsRemove file) w).

(** [hash(str(stream_type) + wallet.hotkey.ss58_address)] *)
Definition stream_hash (stream_type : string) : Z :=
  hash E (stream_type ++ ss58_address C).

(** [TimeUtil.timestamp_to_millis(end_dt)] and
    [... + TimeUtil.minute_in_millis(prediction_size * ValiConfig.STANDARD_TF)] *)
Definition results_window (end_dt : Z) (prediction_size : nat) : Z * Z :=
  (timestamp_to_millis E end_dt,
   (timestamp_to_millis E end_dt
    + minute_in_millis E (Z.of_nat prediction_size * STANDARD_TF E))%Z).

(** [for ts_range in ts_ranges: BinanceData.get_data_and_structure_data_points(...)] *)
Definition fill (symbol : string) (ts_ranges : list (Z * Z)) (ds : data_structure)
  : M data_structure :=
  for_fold ts_ranges (fun ds ts_range => BinanceData_get symbol ds ts_range) ds.

(** *** [isinstance(vali_request, TrainingRequest)] *)

Definition training_request (request_uuid : string) (vali_request : TrainingRequest)
  : M unit :=
  let stream_type := stream_hash (tr_stream_type vali_request) in
  '(start_dt, end_dt, ts_ranges) <- ValiUtils_randomize_days true ;;
  ds <- fill (tr_stream_type vali_request) ts_ranges (get_standardized_ds E) ;;
  '(vmins, vmaxs, dps, sds) <- lift (scale_data_structure E ds) ;;
  let training_proto :=
    TrainingForward request_uuid stream_type sds (tr_topic_id vali_request)
      (tr_feature_ids vali_request) (tr_schema_id vali_request)
      (tr_prediction_size vali_request) in
  try_except
    (responses <- dendrite_query_axons training_proto ;;
     (* the loop over the responses only writes debug lines *)
     results_ds <- BinanceData_get (tr_stream_type vali_request) (get_standardized_ds E)
                     (results_window end_dt (tr_prediction_size vali_request)) ;;
     column <- lift (index results_ds 0) ;;
     vmin <- lift (index vmins 0) ;;
     vmax <- lift (index vmaxs 0) ;;
     '(results_vmin, results_vmax, results_scaled) <-
        lift (scale_values E column vmin vmax) ;;
     _ <- dendrite_query_axons
            (TrainingBackward request_uuid stream_type results_scaled
               (tr_topic_id vali_request)) ;;
     ret tt)
    isinstance_RuntimeError
    (fun e => ret tt).

(** *** [isinstance(vali_request, ClientRequest)] *)

(** The registration of the client and stream in the ledger. *)
Definition register_stream (client_uuid : string) (stream_type topic_id : Z) : M unit :=
  vm <- ValiUtils_get_vali_records ;;
  let vm' :=
    match get_client client_uuid vm with
    | None =>
        add_client (add_stream (mkStream stream_type topic_id [])
                      (mkClient client_uuid []))
                   vm
    | Some client =>
        match get_stream stream_type client with
        | None => with_client (add_stream (mkStream stream_type topic_id []) client) vm
        | Some _ => vm
        end
    end in
  ValiUtils_set_vali_memory_and_bkp vm'.

(** [resp_i is not None and len(resp_i.numpy()) == vali_request.prediction_size] *)
Definition proper_response (prediction_size : nat) (resp_i : option (list F)) : bool :=
  match resp_i with
  | Some numpy => Nat.eqb (List.length numpy) prediction_size
  | None => false
  end.

(** The body of the loop that stores the responses (lines 273-293). *)
Definition store_response (request_uuid output_uuid client_uuid : string)
  (stream_type end_dt : Z) (vmins vmaxs : list F) (dps : list Z)
  (vali_request : ClientRequest) (i_resp : nat * option (list F)) : M unit :=
  let '(i, resp_i) := i_resp in
  match resp_i with
  | Some numpy =>
      if Nat.eqb (List.length numpy) (cr_prediction_size vali_request) then
        hotkey <- lift (index (axons C) i) ;;
        let window := results_window end_dt (cr_prediction_size vali_request) in
        ValiUtils_save_predictions_request output_uuid
          (mkPredictionDataFile client_uuid (cr_stream_type vali_request) stream_type
             (cr_topic_id vali_request) request_uuid hotkey (fst window) (snd window)
             vmins vmaxs dps numpy)
      else ret tt
  | None => ret tt
  end.

Definition store_responses (request_uuid output_uuid client_uuid : string)
  (stream_type end_dt : Z) (vmins vmaxs : list F) (dps : list Z)
  (vali_request : ClientRequest) (responses : list (option (list F))) : M unit :=
  for_each (enumerate responses)
    (store_response request_uuid output_uuid client_uuid stream_type end_dt
       vmins vmaxs dps vali_request).

Definition client_request (request_uuid : string) (vali_request : ClientRequest)
  : M unit :=
  let stream_type := stream_hash (cr_stream_type vali_request) in
  let client_uuid :=
    match cr_client_uuid vali_request with
    | None => ss58_address C
    | Some c => c
    end in
  '(start_dt, end_dt, ts_ranges) <-
     ValiUtils_randomize_days (Z.eqb (test_only_historical C) 1) ;;
  ds <- fill (cr_stream_type vali_request) ts_ranges (get_standardized_ds E) ;;
  '(vmins, vmaxs, dps, sds) <- lift (scale_data_structure E ds) ;;
  let live_proto :=
    LiveForward request_uuid stream_type sds (cr_topic_id vali_request)
      (cr_feature_ids vali_request) (cr_schema_id vali_request)
      (cr_prediction_size vali_request) in
  try_except
    (register_stream client_uuid stream_type (cr_topic_id vali_request))
    isinstance_Exception
    (fun e => ret tt) ;;
  try_except
    (responses <- dendrite_query_axons live_proto ;;
     (* the first loop over the responses only writes debug lines *)
     output_uuid <- str_uuid4 ;;
     store_responses request_uuid output_uuid client_uuid stream_type end_dt
       vmins vmaxs dps vali_request responses)
    isinstance_RuntimeError
    (fun e => ret tt).

(** *** [isinstance(vali_request, PredictionRequest)] *)

(** [for miner_uid, miner_preds in vali_request.predictions.items():
       scores[miner_uid] = Scoring.score_response(miner_preds, data_structure[0])] *)
Definition score_predictions (predictions : dict (list F)) (ds : data_structure)
  : M (dict F) :=
  for_fold predictions
    (fun scores item =>
       let '(miner_uid, miner_preds) := item in
       column <- lift (index ds 0) ;;
       score <- Scoring_score_response miner_preds column ;;
       ret (dict_set miner_uid score scores))
    [].

(** One round of the loop that adds the results to the ledger (lines
    366-378); [stream_type] is the stream object, [None] when
    [get_stream] found none. *)
Definition add_result (weighed_winning_scores_dict : dict F)
  (stream_type : option (CMWStreamType F)) (item : string * F)
  : result (option (CMWStreamType F)) :=
  let '(miner_uid, scaled_score) := item in
  match stream_type with
  | None => Raise AttributeError
  | Some st =>
      let st :=
        match get_miner miner_uid st with
        | None => add_miner (mkMiner F miner_uid 0 (float_zero F) []) st
        | Some _ => st
        end in
      let st := on_miner miner_uid (add_score scaled_score) st in
      match dict_index miner_uid weighed_winning_scores_dict with
      | Raise e => Raise e
      | Ok weight =>
          if float_ne F weight (float_zero F) then
            match dict_index miner_uid weighed_winning_scores_dict with
            | Raise e => Raise e
            | Ok weight =>
                Ok (Some (on_miner miner_uid
                            (fun m => add_win (add_win_value weight m)) st))
            end
          else Ok (Some st)
      end
  end.

Fixpoint add_results (weighed_winning_scores_dict : dict F)
  (stream_type : option (CMWStreamType F)) (items : list (string * F))
  : result (option (CMWStreamType F)) :=
  match items with
  | [] => Ok stream_type
  | item :: items' =>
      match add_result weighed_winning_scores_dict stream_type item with
      | Raise e => Raise e
      | Ok stream_type' => add_results weighed_winning_scores_dict stream_type' items'
      end
  end.

(** The inner [try] (lines 364-383): the ledger update. *)
Definition store_results (vm : CMW F) (client_uuid : string)
  (stream_type : option (CMWStreamType F)) (scaled_scores : dict F)
  (weighed_winning_scores_dict : dict F) : M unit :=
  try_except
    (stream_type' <- lift (add_results weighed_winning_scores_dict stream_type
                             scaled_scores) ;;
     ValiUtils_set_vali_memory_and_bkp
       match stream_type' with
       | Some st => with_stream client_uuid st vm
       | None => vm
       end)
    isinstance_Exception
    (fun e => ret tt).

(** [metagraph.hotkeys.index(hotkey)] *)
Fixpoint list_index (hotkey : string) (l : list string) : result nat :=
  match l with
  | [] => Raise ValueError
  | h :: l' =>
      if String.eqb hotkey h then Ok 0
      else match list_index hotkey l' with
           | Ok n => Ok (S n)
           | Raise e => Raise e
           end
  end.

(** [[metagraph.uids[metagraph.hotkeys.index(h[0])] for h in weighed_winning_scores]] *)
Fixpoint convert_uids (weighed_winning_scores : list (string * F)) : result (list Z) :=
  match weighed_winning_scores with
  | [] => Ok []
  | miner_hotkey :: rest =>
      match list_index (fst miner_hotkey) (hotkeys C) with
      | Raise e => Raise e
      | Ok i =>
          match index (uids C) i with
          | Raise e => Raise e
          | Ok uid =>
              match convert_uids rest with
              | Raise e => Raise e
              | Ok l => Ok (uid :: l)
              end
          end
      end
  end.

(** The outer [try] (lines 307-400). *)
Definition prediction_try (request_uuid : string) (stream_type : Z)
  (vali_request : PredictionRequest) : M unit :=
  let request_df := pr_df vali_request in
  vm <- ValiUtils_get_vali_records ;;
  data_structure <- BinanceData_get (pdf_stream_type request_df) (get_standardized_ds E)
                      (pdf_start request_df, pdf_end request_df) ;;
  column <- lift (index data_structure 0) ;;
  vmin <- lift (index (pdf_vmins request_df) 0) ;;
  vmax <- lift (index (pdf_vmaxs request_df) 0) ;;
  '(results_vmin, results_vmax, results_scaled) <-
     lift (scale_values E column vmin vmax) ;;
  _ <- dendrite_query_axons
         (LiveBackward request_uuid stream_type results_scaled (pdf_topic_id request_df)) ;;
  scores <- score_predictions (pr_predictions vali_request) data_structure ;;
  scaled_scores <- lift (simple_scale_scores E scores) ;;
  client <- lift match get_client (pdf_client_uuid request_df) vm with
                 | Some c => Ok c
                 | None => Raise AttributeError
                 end ;;
  let stream_type := get_stream (pdf_stream_id request_df) client in
  let sorted_scores := sorted_reverse (@snd string F) (float_lt F) scaled_scores in
  let winning_scores := firstn 10 sorted_scores in
  weighed_scores <- lift (weigh_miner_scores E winning_scores) ;;
  let weighed_winning_scores := firstn 10 weighed_scores in
  let weighed_winning_scores_dict := dict_of_pairs weighed_winning_scores in
  store_results vm (pdf_client_uuid request_df) stream_type scaled_scores
    weighed_winning_scores_dict ;;
  let weights := map snd weighed_winning_scores in
  converted_uids <- lift (convert_uids weighed_winning_scores) ;;
  subtensor_set_weights converted_uids weights.

(** The outer [try] cut at the ledger update.  [grade] is the part before it
    (lines 307-362) and yields what the rest uses: the ledger read, the stream
    of the record, the scaled scores and the weighed winning scores;
    [commit_weights] is the part after it (lines 385-399). *)
Definition grade (request_uuid : string) (stream_type : Z)
  (vali_request : PredictionRequest)
  : M (CMW F * option (CMWStreamType F) * dict F * list (string * F)) :=
  let request_df := pr_df vali_request in
  vm <- ValiUtils_get_vali_records ;;
  data_structure <- BinanceData_get (pdf_stream_type request_df) (get_standardized_ds E)
                      (pdf_start request_df, pdf_end request_df) ;;
  column <- lift (index data_structure 0) ;;
  vmin <- lift (index (pdf_vmins request_df) 0) ;;
  vmax <- lift (index (pdf_vmaxs request_df) 0) ;;
  '(results_vmin, results_vmax, results_scaled) <-
     lift (scale_values E column vmin vmax) ;;
  _ <- dendrite_query_axons
         (LiveBackward request_uuid stream_type results_scaled (pdf_topic_id request_df)) ;;
  scores <- score_predictions (pr_predictions vali_request) data_structure ;;
  scaled_scores <- lift (simple_scale_scores E scores) ;;
  client <- lift match get_client (pdf_client_uuid request_df) vm with
                 | Some c => Ok c
                 | None => Raise AttributeError
                 end ;;
  let stream_type := get_stream (pdf_stream_id request_df) client in
  let sorted_scores := sorted_reverse (@snd string F) (float_lt F) scaled_scores in
  let winning_scores := firstn 10 sorted_scores in
  weighed_scores <- lift (weigh_miner_scores E winning_scores) ;;
  let weighed_winning_scores := firstn 10 weighed_scores in
  ret (vm, stream_type, scaled_scores, weighed_winning_scores).

Definition commit_weights (weighed_winning_scores : list (string * F)) : M unit :=
  let weights := map snd weighed_winning_scores in
  converted_uids <- lift (convert_uids weighed_winning_scores) ;;
  subtensor_set_weights converted_uids weights.

Definition prediction_request (request_uuid : string) (vali_request : PredictionRequest)
  : M unit :=
  let stream_type := stream_hash (pdf_stream_type (pr_df vali_request)) in
  try_except_else
    (prediction_try request_uuid stream_type vali_request)
    isinstance_RuntimeError
    (fun e => ret tt)
    (fun _ => for_each (pr_files vali_request) os_remove).

(** *** [run_time_series_validation] *)

(** One round of [for vali_request in vali_requests]. *)
Definition validate (vali_request : BaseRequestDataClass) : M unit :=
  request_uuid <- str_uuid4 ;;
  match vali_request with
  | Training r => training_request request_uuid r
  | Client r => client_request request_uuid r
  | Prediction r => prediction_request request_uuid r
  end.

Definition run_time_series_validation (vali_requests : list BaseRequestDataClass)
  : M unit :=
  if existsb (String.eqb (ss58_address C)) (hotkeys C)
  then for_each vali_requests validate
  else raise SystemExit (* exit() *).

(** *** The main loop: one round at second [second] of the current minute *)

Definition get_all_files_in_dir : M (list string) :=
  fun w => (Ok (disk w), log GetAllFilesInDir w).

Definition ValiUtils_get_predictions_to_complete : M (list PredictionRequest) :=
  fun w => (Ok (get_predictions_to_complete E (now w)), log GetPredictionsToComplete w).

Definition random_randint (lo hi : Z) : M Z :=
  fun w => (Ok (randint E (now w)), log (RandInt lo hi) w).

(** The list [requests] handed to [run_time_series_validation]
    (lines 418-431). *)
Definition scheduled_requests (second : nat) : M (list BaseRequestDataClass) :=
  let requests := [] in
  requests <-
    (if Nat.eqb (second mod 59) 0 then
       all_files <- get_all_files_in_dir ;;
       if Nat.eqb (List.length all_files) 0
       then ret (requests ++ [Client (generate_standard_client_request E)])%list
       else ret requests
     else ret requests) ;;
  ready <- ValiUtils_get_predictions_to_complete ;;
  let requests := (requests ++ map Prediction ready)%list in
  if Nat.eqb (List.length requests) 0 then
    dice <- random_randint 0 10 ;;
    if Z.eqb dice 1
    then ret (requests ++ [Training (generate_standard_training_request E)])%list
    else ret requests
  else ret requests.

Definition main_round (second : nat) : M unit :=
  if Nat.eqb (second mod 5) 0 then
    requests <- scheduled_requests second ;;
    run_time_series_validation requests
  else ret tt.

End Model.

Arguments Training {F} r.
Arguments Client {F} r.
Arguments TrainingBackward {F} request_uuid stream_id samples topic_id.
Arguments LiveBackward {F} request_uuid stream_id samples topic_id.
Arguments Uuid4 {F} value.
Arguments RandomizeDays {F} historical.
Arguments GetDataAndStructureDataPoints {F} symbol ts_range.
Arguments GetValiRecords {F}.
Arguments ScoreResponse {F} predictions ground_truth.
Arguments SetWeights {F} uids weights.
Arguments OsRemove {F} file.
Arguments GetAllFilesInDir {F}.
Arguments GetPredictionsToComplete {F}.
Arguments RandInt {F} lo hi.
Arguments proper_response {F} prediction_size resp_i.
Arguments mkPredictionDataFile {F}.
End Validator.

(** ** Concrete collaborators, for running the model

    Integers stand in for floats, and the scoring and scaling functions are
    the simplest ones of the right shape. *)

Module Demo.
Import Validator.

Definition Zfloat : Float :=
  @mkFloat Z 0%Z Z.add (fun x y => negb (Z.eqb x y)) Z.ltb.

Definition uuid_of (n : nat) : string :=
  "uuid-" ++ NilEmpty.string_of_uint (Nat.to_uint n).

Definition candles : data_structure Zfloat :=
  [[100; 110; 120]; [105; 115; 125]; [95; 105; 115]; [101; 111; 121]; [7; 8; 9]]%Z.

(** [market] is what every market-data fetch yields (the candles are appended
    to the columns of the structure), [bkp_fault] the outcome of every ledger
    write, [replies] the answers of the miners, [ready] what is ready to be
    scored, [dice] the value of [random.randint(0, 10)]. *)
Definition collab (market : result (data_structure Zfloat)) (bkp_fault : option exn)
  (replies : list (option (list Z))) (ready : list (PredictionRequest Zfloat)) (dice : Z)
  : collaborators Zfloat :=
  {| uuid4 := uuid_of;
     hash := fun s => Z.of_nat (String.length s);
     STANDARD_TF := 5%Z;
     timestamp_to_millis := fun t => (t * 1000)%Z;
     minute_in_millis := fun m => (m * 60000)%Z;
     randomize_days := fun _ _ => (0, 60, [(0, 30); (30, 60)])%Z;
     get_standardized_ds := [[]; []; []; []; []];
     generate_standard_client_request :=
       mkClientRequest None "BTCUSD" 1%Z [1; 2; 3; 4; 5]%Z 1%Z 3;
     generate_standard_training_request :=
       mkTrainingRequest "BTCUSD" 1%Z [1; 2; 3; 4; 5]%Z 1%Z 3;
     get_predictions_to_complete := fun _ => ready;
     get_vali_records_fault := fun _ => None;
     set_vali_memory_and_bkp_fault := fun _ => bkp_fault;
     save_predictions_request :=
       fun _ output_uuid pdf d =>
         Ok (List.app d [String.append output_uuid (String.append "-" (pdf_miner_uid pdf))]);
     get_data_and_structure_data_points :=
       fun _ _ ds _ =>
         match market with
         | Ok columns => Ok (map (fun dc => List.app (fst dc) (snd dc)) (combine ds columns))
         | Raise e => Raise e
         end;
     scale_data_structure := fun ds => Ok ([90], [200], [0], ds)%Z;
     scale_values := fun column vmin vmax => Ok (vmin, vmax, map (fun x => x - vmin)%Z column);
     score_response := fun p t => Ok (hd 0%Z p);
     simple_scale_scores := fun d => Ok d;
     weigh_miner_scores := fun l => Ok l;
     dendrite_query := fun _ _ _ => Ok replies;
     set_weights_fault := fun _ => None;
     os_remove_refused := fun _ _ => None;
     randint := fun _ => dice |}.

Definition miner_names : list string :=
  ["m01"; "m02"; "m03"; "m04"; "m05"; "m06"; "m07"; "m08"; "m09"; "m10"; "m11"].

Definition chain (n : nat) : setup :=
  mkSetup 1 0 "validator" ("validator" :: firstn n miner_names) (firstn n miner_names)
    (map Z.of_nat (seq 0 (S n))).

(** The ledger once the client and stream of [record] are registered. *)
Definition ledger0 : CMW Zfloat :=
  mkCMW [mkClient "validator" [mkStream 15 1 []]].

Definition record (miner : string) (request_uuid : string) : PredictionDataFile Zfloat :=
  mkPredictionDataFile (F:=Zfloat) "validator" "BTCUSD" 15 1 request_uuid miner 60000 960000
    [90]%Z [200]%Z [0]%Z [100; 111; 121]%Z.

(** A request to score the answers of the first [n] miners to the live
    request [request_uuid], stored under [output_uuid]. *)
Definition scoring_of (request_uuid output_uuid : string) (n : nat)
  : PredictionRequest Zfloat :=
  mkPredictionRequest (record "m01" request_uuid)
    (map (fun m => output_uuid ++ "-" ++ m) (firstn n miner_names))
    (map (fun im => (snd im, [Z.of_nat (fst im) + 100; 111; 121]%Z))
       (combine (seq 0 n) (firstn n miner_names))).

Definition scoring (n : nat) : PredictionRequest Zfloat := scoring_of "uuid-0" "uuid-7" n.

Definition world0 (n : nat) : world Zfloat :=
  mkWorld [] ledger0 (pr_files (scoring n)).

(** A ledger with a second stream that already has a scored miner, and a
    world on it. *)
Definition busy_ledger : CMW Zfloat :=
  mkCMW [mkClient "validator"
           [mkStream 15 1 []; mkStream 16 1 [mkMiner Zfloat "m01" 1 7%Z [7%Z]]]].

Definition busy_world (n : nat) : world Zfloat :=
  mkWorld [] busy_ledger (pr_files (scoring n)).



(** An exchange that answers the first [failures] requests with HTTP 500 and
    every later one with HTTP 200 and [rows]. *)
Definition flaky (failures : nat) (rows : list ByBitData.kline) (n : nat)
  (q : ByBitData.query) : ByBitData.http :=
  if Nat.ltb n failures
  then ByBitData.Response 500 (Raise ValueError)
  else ByBitData.Response 200 (Ok rows).

Definition btc (limit : Z) : ByBitData.query :=
  ByBitData.mkQuery "BTCUSD" 5 (Some 0%Z) (Some 300000%Z) limit.

Definition sample_rows : list ByBitData.kline := [["0"; "100"; "110"; "95"; "105"; "7"]].

(** A set-up in which the validator's hotkey is not in the metagraph. *)
Definition stranger : setup :=
  mkSetup 1 0 "stranger" miner_names miner_names (map Z.of_nat (seq 0 11)).

(** An exchange that refuses every request. *)
Definition down (n : nat) (q : ByBitData.query) : ByBitData.http :=
  ByBitData.Response 503 (Raise ValueError).

(** An exchange that cannot be reached at all. *)
Definition unplugged (n : nat) (q : ByBitData.query) : ByBitData.http :=
  ByBitData.Unreachable OSError.

(** [E] with another market-data fetch, another store of prediction records
    and another behaviour of [os.remove]. *)
Definition tuned (E : collaborators Zfloat)
  (fetch : nat -> string -> data_structure Zfloat -> Z * Z ->
           result (data_structure Zfloat))
  (store : nat -> string -> PredictionDataFile Zfloat -> list string ->
           result (list string))
  (refused : nat -> string -> option refusal) : collaborators Zfloat :=
  {| uuid4 := uuid4 E;
     hash := hash E;
     STANDARD_TF := STANDARD_TF E;
     timestamp_to_millis := timestamp_to_millis E;
     minute_in_millis := minute_in_millis E;
     randomize_days := randomize_days E;
     get_standardized_ds := get_standardized_ds E;
     generate_standard_client_request := generate_standard_client_request E;
     generate_standard_training_request := generate_standard_training_request E;
     get_predictions_to_complete := get_predictions_to_complete E;
     get_vali_records_fault := get_vali_records_fault E;
     set_vali_memory_and_bkp_fault := set_vali_memory_and_bkp_fault E;
     save_predictions_request := store;
     get_data_and_structure_data_points := fetch;
     scale_data_structure := scale_data_structure E;
     scale_values := scale_values E;
     score_response := score_response E;
     simple_scale_scores := simple_scale_scores E;
     weigh_miner_scores := weigh_miner_scores E;
     dendrite_query := dendrite_query E;
     set_weights_fault := set_weights_fault E;
     os_remove_refused := refused;
     randint := randint E |}.

(** The fetch of [collab] with candles. *)
Definition candles_fetch (n : nat) (symbol : string) (ds : data_structure Zfloat)
  (ts_range : Z * Z) : result (data_structure Zfloat) :=
  Ok (map (fun dc => List.app (fst dc) (snd dc)) (combine ds candles)).



(** The store of [collab]: one file for each miner of an output uuid. *)
Definition named_by_miner (n : nat) (output_uuid : string) (pdf : PredictionDataFile Zfloat)
  (d : list string) : result (list string) :=
  Ok (List.app d [String.append output_uuid (String.append "-" (pdf_miner_uid pdf))]).

(** The store of section 6 of the spec: one blob for each key. *)
Definition keyed (n : nat) (key : string) (pdf : PredictionDataFile Zfloat)
  (d : list string) : result (list string) :=
  Ok (write_keyed key d).

(** Four miners of which the first and the last answer with three values. *)
Definition four_replies : list (option (list Z)) :=
  [Some [1; 2; 3]; None; Some [1]; Some [4; 5; 6]]%Z.

(** [os.remove] never refuses. *)
Definition removable (n : nat) (file : string) : option refusal := None.

(** The path [path] is a directory. *)
Definition is_directory (path : string) (n : nat) (file : string) : option refusal :=
  if String.eqb file path then Some is_a_directory else None.

(** A conversion that appends, to each column, the field of every row at the
    index of that column; it cannot convert [None]. *)
Definition append_fields (ds : list (list string)) (bd : option (list ByBitData.kline))
  (order : list nat) : result (list (list string)) :=
  match bd with
  | None => Raise AttributeError
  | Some rows =>
      Ok (map (fun ci => List.app (fst ci) (map (fun row => nth (snd ci) row "") rows))
            (combine ds order))
  end.

End Demo.

(** * The vocabulary of the statements *)

Section Vocabulary.
Import Validator.
Variable F : Float.

(** [keeps R m]: whatever [m] does and however it ends, the world it leaves
    is related by [R] to the one it started in. *)
Definition keeps (R : world F -> world F -> Prop) {A} (m : M F A) : Prop :=
  forall w, R w (snd (m w)).

(** The calls made from [w] to [w'] all satisfy [P]. *)
Definition emits (P : call F -> Prop) (w w' : world F) : Prop :=
  exists calls, trace w' = (trace w ++ calls)%list /\ Forall P calls.

Definition same_bkp (w w' : world F) : Prop := bkp w' = bkp w.

Definition same_disk (w w' : world F) : Prop := disk w' = disk w.

(** The calls that read or write the persisted ledger. *)
Definition ledger_call (c : call F) : bool :=
  match c with
  | GetValiRecords | SetValiMemoryAndBkp _ => true
  | _ => false
  end.

(** From [w] to [w'] the persisted ledger was neither read nor written. *)
Definition ledger_untouched (w w' : world F) : Prop :=
  bkp w' = bkp w /\ emits (fun c => ledger_call c = false) w w'.

(** The replies that count, each with the hotkey of the axon it came from:
    those that are present and have [prediction_size] values. *)
Definition valid_replies (prediction_size : nat) (targets : list string)
  (responses : list (option (list F))) : list (string * list F) :=
  flat_map (fun ar => match snd ar with
                      | Some numpy =>
                          if Nat.eqb (List.length numpy) prediction_size
                          then [(fst ar, numpy)] else []
                      | None => []
                      end)
    (combine targets responses).

(** The record that a reply [numpy] of the miner [hotkey] is stored as. *)
Definition prediction_record (E : collaborators F) (request_uuid client_uuid : string)
  (stream_type end_dt : Z) (vmins vmaxs : list F) (dps : list Z)
  (vali_request : ClientRequest) (reply : string * list F) : PredictionDataFile F :=
  let window := results_window E end_dt (cr_prediction_size vali_request) in
  mkPredictionDataFile client_uuid (cr_stream_type vali_request) stream_type
    (cr_topic_id vali_request) request_uuid (fst reply) (fst window) (snd window)
    vmins vmaxs dps (snd reply).

(** The records handed to the store, in order: the key, the miner and the
    predictions of each. *)
Definition saved (calls : list (call F)) : list (string * string * list F) :=
  flat_map (fun c => match c with
                     | SavePredictionsRequest key pdf =>
                         [(key, pdf_miner_uid pdf, pdf_predictions pdf)]
                     | _ => []
                     end) calls.

(** What the scoring function was asked, in order: the predictions and the
    ground truth of each call. *)
Definition scorings (calls : list (call F)) : list (list F * list F) :=
  flat_map (fun c => match c with
                     | ScoreResponse predictions ground_truth =>
                         [(predictions, ground_truth)]
                     | _ => []
                     end) calls.

Definition not_a_score (c : call F) : Prop :=
  match c with
  | ScoreResponse _ _ => False
  | _ => True
  end.

(** The messages sent to the miners, in order. *)
Definition messages (calls : list (call F)) : list (synapse F) :=
  flat_map (fun c => match c with
                     | DendriteQuery _ message => [message]
                     | _ => []
                     end) calls.

(** What a call of one grading round has to look like, [fetched] being the
    outcome of the market-data fetch of that round: a scoring call compares
    the predictions of one of the miners with the first column exactly as it
    was fetched, and the LiveBackward message carries that column rescaled
    with the bounds kept in the prediction record. *)
Definition graded_against_raw (E : collaborators F) (vali_request : PredictionRequest F)
  (fetched : result (data_structure F)) (c : call F) : Prop :=
  match c with
  | ScoreResponse predictions ground_truth =>
      (exists miner_uid, In (miner_uid, predictions) (pr_predictions vali_request)) /\
      exists ds, fetched = Ok ds /\ index ds 0 = Ok ground_truth
  | DendriteQuery _ (LiveBackward _ _ samples _) =>
      exists ds column vmin vmax lo hi,
        fetched = Ok ds /\ index ds 0 = Ok column /\
        index (pdf_vmins (pr_df vali_request)) 0 = Ok vmin /\
        index (pdf_vmaxs (pr_df vali_request)) 0 = Ok vmax /\
        scale_values E column vmin vmax = Ok (lo, hi, samples)
  | DendriteQuery _ _ => False
  | _ => True
  end.

End Vocabulary.

Arguments valid_replies {F} prediction_size targets responses.

(** ** More vocabulary *)

Section MoreVocabulary.
Import Validator.
Variable F : Float.

(** The calls of the scheduler. *)
Definition scheduler_call (c : call F) : Prop :=
  match c with
  | GetAllFilesInDir | GetPredictionsToComplete | RandInt _ _ => True
  | _ => False
  end.

(** A call of a training round: days are drawn, candles fetched, and the two
    training messages sent, both under the request uuid [drawn]. *)
Definition training_call (drawn : string) (c : call F) : Prop :=
  match c with
  | Uuid4 u => u = drawn
  | RandomizeDays historical => historical = true
  | GetDataAndStructureDataPoints _ _ => True
  | DendriteQuery _ (TrainingForward u _ _ _ _ _ _) => u = drawn
  | DendriteQuery _ (TrainingBackward u _ _ _) => u = drawn
  | _ => False
  end.

(** A call of the round of the ClientRequest [r]: besides drawing days and a
    uuid, fetching and registering, only the LiveForward message under the
    request uuid [drawn] and the storing of records that carry that uuid, the
    client, the stream, a hotkey of the metagraph and as many predictions as
    were asked for. *)
Definition client_call (E : collaborators F) (C : setup) (drawn : string)
  (r : ClientRequest) (c : call F) : Prop :=
  match c with
  | Uuid4 _ | GetDataAndStructureDataPoints _ _ | GetValiRecords
  | SetValiMemoryAndBkp _ => True
  | RandomizeDays historical => historical = Z.eqb (test_only_historical C) 1
  | DendriteQuery targets (LiveForward u sid _ tid fids scid size) =>
      targets = axons C /\ u = drawn /\ sid = stream_hash E C (cr_stream_type r) /\
      tid = cr_topic_id r /\ fids = cr_feature_ids r /\ scid = cr_schema_id r /\
      size = cr_prediction_size r
  | SavePredictionsRequest _ pdf =>
      pdf_request_uuid pdf = drawn /\
      pdf_client_uuid pdf = match cr_client_uuid r with
                            | Some c => c
                            | None => ss58_address C
                            end /\
      pdf_stream_type pdf = cr_stream_type r /\
      pdf_stream_id pdf = stream_hash E C (cr_stream_type r) /\
      pdf_topic_id pdf = cr_topic_id r /\
      In (pdf_miner_uid pdf) (axons C) /\
      List.length (pdf_predictions pdf) = cr_prediction_size r
  | _ => False
  end.

(** The records stored by a call all go under the uuid [output_uuid]. *)
Definition stored_under (output_uuid : string) (c : call F) : Prop :=
  match c with
  | SavePredictionsRequest o _ => o = output_uuid
  | _ => True
  end.

Definition stores_nothing (c : call F) : Prop :=
  match c with
  | SavePredictionsRequest _ _ => False
  | _ => True
  end.

(** A call of a grading round as far as the chain and the files go: weights
    are committed only for a record whose client is in the ledger [vm] that
    the round read; the weights are at most ten, one for each uid, and the
    uids are uids of the metagraph; only files of the request are removed;
    nothing is stored, no days are drawn. *)
Definition commit_call (C : setup) (vm : CMW F) (r : PredictionRequest F) (c : call F)
  : Prop :=
  match c with
  | SetWeights us weights =>
      get_client (pdf_client_uuid (pr_df r)) vm <> None /\
      List.length us = List.length weights /\ List.length weights <= 10 /\
      incl us (uids C)
  | OsRemove file => In file (pr_files r)
  | SavePredictionsRequest _ _ | RandomizeDays _ | GetAllFilesInDir
  | GetPredictionsToComplete | RandInt _ _ => False
  | _ => True
  end.

(** The files of other requests stay, and no file appears. *)
Definition only_removes (files : list string) (w w' : world F) : Prop :=
  incl (disk w') (disk w) /\
  forall file, In file (disk w) -> ~ In file files -> In file (disk w').




(** The entry of a miner before its first score. *)
Definition fresh_miner (miner_uid : string) : CMWMiner F :=
  mkMiner F miner_uid 0 (float_zero F) [].

(** What one round of the ledger loop does to the entry of its miner. *)
Definition credited (scaled_score weight : F) (m : CMWMiner F) : CMWMiner F :=
  let m := add_score scaled_score m in
  if float_ne F weight (float_zero F) then add_win (add_win_value weight m) else m.

(** [vm.get_client(cid).get_stream(sid)], [None] when either is missing. *)
Definition lookup_stream (cid : string) (sid : Z) (vm : CMW F) : option (CMWStreamType F) :=
  match get_client cid vm with
  | Some c => get_stream sid c
  | None => None
  end.

(** No stream that could be looked up in the ledger is lost or altered. *)
Definition keeps_streams (w w' : world F) : Prop :=
  forall cid sid st,
    lookup_stream cid sid (bkp w) = Some st -> lookup_stream cid sid (bkp w') = Some st.

(** Away from the stream [sid] of the client [cid], the ledger of [w] looks
    like [vm]. *)
Definition elsewhere_as (cid : string) (sid : Z) (vm : CMW F) (w : world F) : Prop :=
  forall cid' sid',
    cid' <> cid \/ sid' <> sid ->
    lookup_stream cid' sid' (bkp w) = lookup_stream cid' sid' vm.

(** A statement that starts with the ledger looking like [vm] away from that
    stream leaves it so. *)
Definition stays_elsewhere (cid : string) (sid : Z) (vm : CMW F) (w w' : world F) : Prop :=
  elsewhere_as cid sid vm w -> elsewhere_as cid sid vm w'.

(** The entry of a miner in a stream, the fresh one when it has none. *)
Definition entry_of (miner_uid : string) (st : CMWStreamType F) : CMWMiner F :=
  match get_miner miner_uid st with
  | Some m => m
  | None => fresh_miner miner_uid
  end.

End MoreVocabulary.

Section Conjunction.
Import Validator.
Variable F : Float.
Variables R1 R2 : world F -> world F -> Prop.

(** Two relations hold together. *)
Definition both (w w' : world F) : Prop := R1 w w' /\ R2 w w'.
End Conjunction.

(** * Properties *)

(** ** The Python runtime *)

(** [sorted(..., reverse=True)] keeps the input order of equal scores. *)
Example sorted_reverse_stable :
  sorted_reverse (@snd string nat) Nat.ltb [("a", 1); ("b", 3); ("c", 3); ("d", 2)]
  = [("b", 3); ("c", 3); ("d", 2); ("a", 1)].
Proof. reflexivity. Qed.

(** ** How a statement moves the world *)

Section Keeps.
Import Validator.
Variable F : Float.
Variable R : world F -> world F -> Prop.
Hypothesis R_refl : forall w, R w w.
Hypothesis R_trans : forall w1 w2 w3, R w1 w2 -> R w2 w3 -> R w1 w3.



Lemma keeps_ret {A} (a : A) : keeps R (ret a).
Proof. intro w. apply R_refl. Qed.

Lemma keeps_raise {A} (e : exn) : keeps R (@raise F A e).
Proof. intro w. apply R_refl. Qed.

Lemma keeps_lift {A} (r : result A) : keeps R (@lift F A r).
Proof. intro w. apply R_refl. Qed.

(** The pointwise rule: the continuation is only looked at where the first
    statement really ended. *)
Lemma bind_from {A B} (m : M F A) (k : A -> M F B) (w : world F) :
  R w (snd (m w)) ->
  (forall a w1, m w = (Ok a, w1) -> R w1 (snd (k a w1))) ->
  R w (snd (bind m k w)).
Proof.
  unfold bind. destruct (m w) as [[a | e] w1] eqn:Hm; simpl; intros H1 H2.
  - eapply R_trans; [exact H1 | apply H2; reflexivity].
  - exact H1.
Qed.

Lemma keeps_bind {A B} (m : M F A) (k : A -> M F B) :
  keeps R m -> (forall a, keeps R (k a)) -> keeps R (bind m k).
Proof. intros Hm Hk w. apply bind_from; [apply Hm | intros a w1 _; apply Hk]. Qed.

(** The continuation may rely on what the first statement guarantees of its
    value. *)
Lemma keeps_bind_post {A B} (Q : A -> Prop) (m : M F A) (k : A -> M F B) :
  (forall w a w1, m w = (Ok a, w1) -> Q a) ->
  keeps R m -> (forall a, Q a -> keeps R (k a)) -> keeps R (bind m k).
Proof.
  intros Hpost Hm Hk w. apply bind_from; [apply Hm |].
  intros a w1 H. apply Hk. eapply Hpost. exact H.
Qed.

Lemma keeps_try_except {A} (body : M F A) cls (handler : exn -> M F A) :
  keeps R body -> (forall e, keeps R (handler e)) -> keeps R (try_except body cls handler).
Proof.
  intros Hb Hh w. unfold try_except. specialize (Hb w).
  destruct (body w) as [[a | e] w1]; simpl in *; [exact Hb |].
  destruct (cls e); simpl; [| exact Hb].
  eapply R_trans; [exact Hb | apply Hh].
Qed.

Lemma keeps_try_except_else {A B} (body : M F A) cls (handler : exn -> M F B)
  (orelse : A -> M F B) :
  keeps R body -> (forall e, keeps R (handler e)) -> (forall a, keeps R (orelse a)) ->
  keeps R (try_except_else body cls handler orelse).
Proof.
  intros Hb Hh Ho w. unfold try_except_else. specialize (Hb w).
  destruct (body w) as [[a | e] w1]; simpl in *.
  - eapply R_trans; [exact Hb | apply Ho].
  - destruct (cls e); simpl; [| exact Hb].
    eapply R_trans; [exact Hb | apply Hh].
Qed.

(** After [lift r] the continuation only runs on the value of [r]. *)
Lemma keeps_bind_lift {A B} (r : result A) (k : A -> M F B) :
  (forall a, r = Ok a -> keeps R (k a)) -> keeps R (bind (lift r) k).
Proof.
  intros Hk w. unfold bind, lift. destruct r as [a | e]; simpl.
  - apply Hk. reflexivity.
  - apply R_refl.
Qed.

Lemma try_except_else_from {A B} (body : M F A) cls (handler : exn -> M F B)
  (orelse : A -> M F B) (w : world F) :
  R w (snd (body w)) -> (forall e, keeps R (handler e)) -> (forall a, keeps R (orelse a)) ->
  R w (snd (try_except_else body cls handler orelse w)).
Proof.
  intros Hb Hh Ho. unfold try_except_else.
  destruct (body w) as [[a | e] w1]; simpl in *.
  - eapply R_trans; [exact Hb | apply Ho].
  - destruct (cls e); simpl; [| exact Hb].
    eapply R_trans; [exact Hb | apply Hh].
Qed.

Lemma keeps_for_each {X} (body : X -> M F unit) (l : list X) :
  (forall x, In x l -> keeps R (body x)) -> keeps R (for_each l body).
Proof.
  induction l as [| x l IH]; intro Hb; simpl.
  - apply keeps_ret.
  - apply keeps_bind; [apply Hb; left; reflexivity |].
    intros _. apply IH. intros y Hy. apply Hb. right. exact Hy.
Qed.

Lemma keeps_for_fold {X S} (body : S -> X -> M F S) (l : list X) :
  (forall s x, In x l -> keeps R (body s x)) -> forall s, keeps R (for_fold l body s).
Proof.
  induction l as [| x l IH]; intros Hb s; simpl.
  - apply keeps_ret.
  - apply keeps_bind; [apply Hb; left; reflexivity |].
    intro s'. apply IH. intros s'' y Hy. apply Hb. right. exact Hy.
Qed.
End Keeps.

(** Breaks a compound statement into its primitive calls. *)
Ltac keeps_split :=
  repeat first
    [ apply keeps_ret; assumption
    | apply keeps_lift; assumption
    | apply keeps_raise; assumption
    | apply keeps_bind_lift; [assumption .. | intros ? ?]
    | apply keeps_bind; [assumption .. | idtac | intros ?]
    | apply keeps_try_except; [assumption .. | idtac | intros ?]
    | apply keeps_try_except_else; [assumption .. | idtac | intros ? | intros ?]
    | apply keeps_for_each; [assumption .. | intros ? ?]
    | apply keeps_for_fold; [assumption .. | intros ? ? ?]
    | match goal with
      | |- keeps _ (match ?x with _ => _ end) => destruct x
      | |- keeps _ (if ?b then _ else _) => destruct b
      end ].

(** ** Relations between the world before and after *)

Section Relations.
Import Validator.
Variable F : Float.
Implicit Types (w : world F) (P : call F -> Prop).

Lemma emits_refl P w : emits P w w.
Proof. exists []. split; [symmetry; apply app_nil_r | constructor]. Qed.

Lemma emits_trans P w1 w2 w3 : emits P w1 w2 -> emits P w2 w3 -> emits P w1 w3.
Proof.
  intros [c1 [H1 F1]] [c2 [H2 F2]]. exists (c1 ++ c2)%list. split.
  - rewrite H2, H1. symmetry. apply app_assoc.
  - apply Forall_app. split; assumption.
Qed.

Lemma emits_log P c w t d :
  P c -> emits P w (mkWorld (trace w ++ [c]) t d).
Proof. intro H. exists [c]. split; [reflexivity | repeat constructor; exact H]. Qed.

Lemma emits_impl (P Q : call F -> Prop) w w' :
  (forall c, P c -> Q c) -> emits P w w' -> emits Q w w'.
Proof.
  intros H [calls [Ht Hc]]. exists calls. split; [exact Ht |].
  eapply Forall_impl; [exact H | exact Hc].
Qed.

Lemma same_bkp_refl w : same_bkp w w.
Proof. reflexivity. Qed.

Lemma same_bkp_trans w1 w2 w3 : same_bkp w1 w2 -> same_bkp w2 w3 -> same_bkp w1 w3.
Proof. unfold same_bkp. congruence. Qed.

Lemma same_disk_refl w : same_disk w w.
Proof. reflexivity. Qed.

Lemma same_disk_trans w1 w2 w3 : same_disk w1 w2 -> same_disk w2 w3 -> same_disk w1 w3.
Proof. unfold same_disk. congruence. Qed.

Lemma ledger_untouched_refl w : ledger_untouched w w.
Proof. split; [reflexivity | apply emits_refl]. Qed.

Lemma ledger_untouched_trans w1 w2 w3 :
  ledger_untouched w1 w2 -> ledger_untouched w2 w3 -> ledger_untouched w1 w3.
Proof.
  intros [B1 T1] [B2 T2]. split; [congruence | eapply emits_trans; eassumption].
Qed.

Lemma now_log (c : call F) w : now (log c w) = S (now w).
Proof. unfold now, log. simpl. rewrite length_app. simpl. apply Nat.add_1_r. Qed.
End Relations.

Section Training.
Import Validator.
Variables (F : Float) (E : collaborators F) (C : setup).

Let quiet {A} (m : M F A) : Prop := keeps (@ledger_untouched F) m.

Lemma quiet_uuid4 : quiet (str_uuid4 E).
Proof. intro w. split; [reflexivity | apply emits_log; reflexivity]. Qed.

Lemma quiet_randomize_days h : quiet (ValiUtils_randomize_days E h).
Proof. intro w. split; [reflexivity | apply emits_log; reflexivity]. Qed.

Lemma quiet_BinanceData_get s ds t : quiet (BinanceData_get E s ds t).
Proof. intro w. split; [reflexivity | apply emits_log; reflexivity]. Qed.

Lemma quiet_dendrite_query msg : quiet (dendrite_query_axons E C msg).
Proof. intro w. split; [reflexivity | apply emits_log; reflexivity]. Qed.

Lemma quiet_training_request u r : quiet (training_request E C u r).
Proof.
  unfold quiet, training_request, fill.
  pose proof (@ledger_untouched_refl F) as Hr.
  pose proof (@ledger_untouched_trans F) as Ht.
  keeps_split;
    first [ apply quiet_randomize_days | apply quiet_BinanceData_get
          | apply quiet_dendrite_query ].
Qed.
End Training.

(** C9. Processing a TrainingRequest (the round of the loop of
    [run_time_series_validation] that handles it, from the draw of its request
    uuid on) leaves the persisted ledger as it was, and none of the calls it
    makes reads or writes the ledger: this holds for every behaviour of the
    collaborators, whether the round ends normally or with an exception. *)
Theorem training_request_leaves_ledger :
  forall (F : Float) (E : Validator.collaborators F) (C : Validator.setup)
         (r : Validator.TrainingRequest) (w : Validator.world F),
    let w' := snd (Validator.validate E C (Validator.Training r) w) in
    Validator.bkp w' = Validator.bkp w /\
    exists calls,
      Validator.trace w' = (Validator.trace w ++ calls)%list /\
      Forall (fun c => match c with
                       | Validator.GetValiRecords => False
                       | Validator.SetValiMemoryAndBkp _ => False
                       | _ => True
                       end) calls.
Proof.
  intros F E C r w w'.
  assert (H : ledger_untouched w w').
  { subst w'. unfold Validator.validate.
    apply bind_from.
    - apply ledger_untouched_trans.
    - apply quiet_uuid4.
    - intros u w1 _. apply quiet_training_request. }
  destruct H as [Hb [calls [Ht Hc]]]. split; [exact Hb |].
  exists calls. split; [exact Ht |].
  eapply Forall_impl; [| exact Hc].
  intros c Hl. destruct c; simpl in Hl; try discriminate; exact I.
Qed.

(** ** bybit_data.py: retries *)

Module ByBitFacts.
Import ByBitData Demo.



Section Retries.
Variable exchange : nat -> query -> http.

Lemma try_body_ok code body rows :
  try_body code body = Ok rows -> code = 200%Z /\ body = Ok rows.
Proof.
  unfold try_body. destruct (Z.eqb_spec code 200); [auto | discriminate].
Qed.

(** Rows come back only when the very first request of the call is
    answered with them: whatever a retry fetched is dropped. *)
Lemma get_data_rows_only_at_once symbol interval start end_ retries limit w rows :
  fst (get_data exchange symbol interval start end_ retries limit w) = Ok (Some rows) ->
  exchange (List.length (issued w)) (mkQuery symbol interval start end_ limit)
    = Response 200 (Ok rows).
Proof.
  funelim (get_data exchange symbol interval start end_ retries limit w);
    simpl; try discriminate.
  - intro Hr. injection Hr as ->.
    match goal with
    | Ht : try_body _ _ = Ok _ |- _ => apply try_body_ok in Ht; destruct Ht as [-> ->]
    end.
    assumption.
  - destruct (get_data _ _ _ _ _ _ _ _) as [[v | e'] w2]; simpl; discriminate.
Qed.

(** When every request is refused, the call ends in [ConnectionError]. *)
Lemma get_data_exhausted symbol interval start end_ retries limit w :
  (forall n q, exists code body e,
      exchange n q = Response code body /\ try_body code body = Raise e /\
      isinstance_Exception e = true) ->
  fst (get_data exchange symbol interval start end_ retries limit w)
    = Raise ConnectionError.
Proof.
  intro Hx.
  funelim (get_data exchange symbol interval start end_ retries limit w); simpl;
    match goal with
    | Hq : exchange ?n ?q = _ |- _ =>
        destruct (Hx n q) as [code' [body' [e' [Hq' [Hb' He']]]]];
        rewrite Hq in Hq'; try discriminate; injection Hq' as <- <-
    end; try congruence.
  match goal with
  | IH : _ -> fst (get_data _ _ _ _ _ _ _ _) = _ |- _ => specialize (IH Hx)
  end.
  destruct (get_data _ _ _ _ _ _ _ _) as [[v | e''] w2]; simpl in *;
    [discriminate | congruence].
Qed.
End Retries.

(** C2. Four refused requests and then an accepted one: [get_data], called
    with [retries = 0], issues five requests, sleeps 0, 1, 2 and 3 seconds,
    and returns [None], not the rows of the fifth answer; with six refused
    requests in a row it raises [ConnectionError]. *)
Theorem get_data_loses_the_fifth_answer :
  get_data (flaky 4 sample_rows) "BTCUSD" 5 (Some 0%Z) (Some 300000%Z) 0 1000 net0
    = (Ok None, mkNet (repeat (btc 1000) 5) [0; 1; 2; 3]) /\
  flaky 4 sample_rows 4 (btc 1000) = Response 200 (Ok sample_rows) /\
  fst (get_data (flaky 6 sample_rows) "BTCUSD" 5 (Some 0%Z) (Some 300000%Z) 0 1000 net0)
    = Raise ConnectionError.
Proof. repeat split; vm_compute; reflexivity. Qed.

End ByBitFacts.

(** ** The scheduler *)

Section Scheduler.
Import Validator.
Variables (F : Float) (E : collaborators F).

(** What the round finds ready to be scored, whether or not it listed the
    directory first. *)
Lemma scheduled_requests_unfold second w :
  fst (scheduled_requests E second w) =
  Ok (let opening :=
        if Nat.eqb (second mod 59) 0 && Nat.eqb (List.length (disk w)) 0
        then [Client (generate_standard_client_request E)] else [] in
      let at_ready := if Nat.eqb (second mod 59) 0 then S (now w) else now w in
      let requests :=
        (opening ++ map (@Prediction F) (get_predictions_to_complete E at_ready))%list in
      if Nat.eqb (List.length requests) 0 && Z.eqb (randint E (S at_ready)) 1
      then (requests ++ [Training (generate_standard_training_request E)])%list
      else requests).
Proof.
  unfold scheduled_requests, bind, get_all_files_in_dir,
    ValiUtils_get_predictions_to_complete, random_randint, ret, now, log.
  destruct (Nat.eqb (second mod 59) 0); simpl.
  - destruct (Nat.eqb (List.length (disk w)) 0); simpl;
      rewrite ?length_app; simpl; rewrite ?Nat.add_1_r;
      destruct (get_predictions_to_complete E (S (List.length (trace w)))); simpl;
      rewrite ?length_app; simpl; rewrite ?Nat.add_1_r;
      try destruct (Z.eqb _ 1); reflexivity.
  - destruct (get_predictions_to_complete E (List.length (trace w))); simpl;
      rewrite ?length_app; simpl; rewrite ?Nat.add_1_r;
      try destruct (Z.eqb _ 1); reflexivity.
Qed.
End Scheduler.

(** C7. When exactly one record is ready to be scored (its file is in the
    predictions directory, so the directory is not empty), the round hands
    [run_time_series_validation] exactly one PredictionRequest, and neither a
    ClientRequest nor a TrainingRequest, at every second and whatever the
    dice show. *)
Theorem one_ready_record_one_prediction_request :
  forall (F : Float) (E : Validator.collaborators F) (second : nat)
         (w : Validator.world F) (p : Validator.PredictionRequest F),
    (forall n, Validator.get_predictions_to_complete E n = [p]) ->
    Validator.disk w <> [] ->
    fst (Validator.scheduled_requests E second w) = Ok [Validator.Prediction p].
Proof.
  intros F E second w p Hready Hdisk.
  rewrite scheduled_requests_unfold. cbv zeta. rewrite Hready.
  destruct (Validator.disk w) as [| f d]; [contradiction |].
  simpl. rewrite Bool.andb_false_r. reflexivity.
Qed.

Lemma one_ready_record_one_prediction_request_witness :
  fst (Validator.scheduled_requests
         (Demo.collab (Ok Demo.candles) None [] [Demo.scoring 1] 1) 0 (Demo.world0 1))
  = Ok [Validator.Prediction (Demo.scoring 1)].
Proof.
  apply one_ready_record_one_prediction_request.
  - intro n. reflexivity.
  - simpl. discriminate.
Defined.

(** C8, as stated, fails: at second 5 of the minute the round runs (5 is a
    multiple of 5), nothing is ready, the predictions directory is empty, and
    yet no ClientRequest is scheduled: the list of requests is empty. *)
Lemma idle_round_without_client_request :
  Nat.eqb (5 mod 5) 0 = true /\
  Validator.disk (Validator.mkWorld [] Demo.ledger0 []) = [] /\
  Validator.get_predictions_to_complete (Demo.collab (Ok Demo.candles) None [] [] 0) 1 = [] /\
  fst (Validator.scheduled_requests (Demo.collab (Ok Demo.candles) None [] [] 0) 5
         (Validator.mkWorld [] Demo.ledger0 []))
  = Ok [].
Proof. repeat split. Qed.

(** C8, amended. In a round whose second of the minute is a multiple of 59
    (with the gate on multiples of 5 that is second 0), when nothing is ready
    to be scored and the predictions directory is empty, exactly one
    ClientRequest is scheduled. *)
Theorem idle_round_on_the_minute_schedules_client_request :
  forall (F : Float) (E : Validator.collaborators F) (second : nat)
         (w : Validator.world F),
    second mod 59 = 0 ->
    Validator.disk w = [] ->
    (forall n, Validator.get_predictions_to_complete E n = []) ->
    fst (Validator.scheduled_requests E second w)
    = Ok [Validator.Client (Validator.generate_standard_client_request E)].
Proof.
  intros F E second w Hsec Hdisk Hready.
  rewrite scheduled_requests_unfold. cbv zeta.
  rewrite Hready, Hsec, Hdisk. reflexivity.
Qed.

Lemma idle_round_on_the_minute_schedules_client_request_witness :
  fst (Validator.scheduled_requests (Demo.collab (Ok Demo.candles) None [] [] 1) 0
         (Validator.mkWorld [] Demo.ledger0 []))
  = Ok [Validator.Client
          (Validator.generate_standard_client_request
             (Demo.collab (Ok Demo.candles) None [] [] 1))].
Proof.
  apply idle_round_on_the_minute_schedules_client_request.
  - reflexivity.
  - reflexivity.
  - intro n. reflexivity.
Defined.

(** ** Storing the responses to a ClientRequest *)

Section StoreResponses.
Import Validator.
Variables (F : Float) (E : collaborators F) (C : setup).
Variables (request_uuid output_uuid client_uuid : string) (stream_type end_dt : Z).
Variables (vmins vmaxs : list F) (dps : list Z) (vali_request : ClientRequest).

Let size := cr_prediction_size vali_request.
Let store := store_response E C request_uuid output_uuid client_uuid stream_type end_dt
               vmins vmaxs dps vali_request.
Let stored (reply : string * list F) : call F :=
  SavePredictionsRequest output_uuid
    (prediction_record E request_uuid client_uuid stream_type end_dt vmins vmaxs dps
       vali_request reply).

Lemma proper_response_iff (resp : option (list F)) :
  proper_response size resp = true <->
  exists numpy, resp = Some numpy /\ List.length numpy = size.
Proof.
  destruct resp as [numpy |]; simpl; split.
  - intro H. exists numpy. split; [reflexivity | apply Nat.eqb_eq; exact H].
  - intros [numpy' [Heq Hlen]]. injection Heq as <-. apply Nat.eqb_eq. exact Hlen.
  - discriminate.
  - intros [numpy [Heq _]]. discriminate.
Qed.

Lemma skipn_cons {A} (k : nat) (l : list A) a l' :
  skipn k l = a :: l' -> nth_error l k = Some a /\ skipn (S k) l = l'.
Proof.
  revert l. induction k as [| k IH]; intros [| x l]; simpl; try discriminate.
  - intro H. injection H as -> ->. split; reflexivity.
  - intro H. apply IH in H. exact H.
Qed.

Lemma valid_replies_length targets (responses : list (option (list F))) :
  List.length responses <= List.length targets ->
  List.length (valid_replies size targets responses)
  = List.length (filter (proper_response size) responses).
Proof.
  revert targets. induction responses as [| r rs IH]; intros [| a targets] Hlen;
    simpl in *; try reflexivity; try lia.
  unfold valid_replies in *. simpl. rewrite length_app, IH by lia.
  destruct r as [numpy |]; simpl; [| reflexivity].
  destruct (Nat.eqb (List.length numpy) size); reflexivity.
Qed.

(** The loop from position [k] on, against the axons from position [k] on. *)
Lemma store_from (responses : list (option (list F))) :
  (forall n u p d, is_ok (save_predictions_request E n u p d) = true) ->
  forall k targets w,
    skipn k (axons C) = targets ->
    List.length responses <= List.length targets ->
    exists w',
      for_each (combine (seq k (List.length responses)) responses) store w = (Ok tt, w') /\
      trace w' = (trace w ++ map stored (valid_replies size targets responses))%list /\
      bkp w' = bkp w.
Proof.
  intro Hsave. induction responses as [| r rs IH]; intros k targets w Hk Hlen.
  - exists w. simpl. unfold valid_replies. rewrite combine_nil. simpl.
    rewrite app_nil_r. auto.
  - destruct targets as [| a targets]; [simpl in Hlen; lia |].
    destruct (skipn_cons _ _ Hk) as [Hnth Hskip].
    assert (Hrest : List.length rs <= List.length targets) by (simpl in Hlen; lia).
    simpl. unfold bind, valid_replies. simpl.
    fold (valid_replies size targets rs).
    destruct r as [numpy |]; simpl.
    + fold size. destruct (Nat.eqb (List.length numpy) size); simpl.
      * unfold bind, lift, index. rewrite Hnth.
        unfold ValiUtils_save_predictions_request.
        specialize (Hsave (now w) output_uuid
                      (prediction_record E request_uuid client_uuid stream_type end_dt
                         vmins vmaxs dps vali_request (a, numpy)) (disk w)).
        unfold prediction_record in Hsave. simpl in Hsave.
        destruct (save_predictions_request E _ _ _ _) as [d | e]; [| discriminate].
        match goal with
        | |- context [for_each _ _ ?w1] =>
            destruct (IH (S k) targets w1 Hskip Hrest) as [w' [Hrun [Htr Hb]]]
        end.
        exists w'. rewrite Hrun. simpl in Htr, Hb.
        split; [reflexivity |]. split; [| exact Hb].
        rewrite Htr, <- app_assoc. reflexivity.
      * unfold ret. apply IH; assumption.
    + unfold ret. apply IH; assumption.
Qed.

(** With no valid reply the loop does nothing at all. *)
Lemma store_nothing (responses : list (option (list F))) :
  filter (proper_response size) responses = [] ->
  forall k w, for_each (combine (seq k (List.length responses)) responses) store w = (Ok tt, w).
Proof.
  induction responses as [| r rs IH]; intros Hnone k w; [reflexivity |].
  simpl in *. unfold bind. simpl.
  destruct r as [numpy |]; simpl in *.
  - fold size. destruct (Nat.eqb (List.length numpy) size); [discriminate |].
    unfold ret. apply IH. exact Hnone.
  - unfold ret. apply IH. exact Hnone.
Qed.
End StoreResponses.

(** Of the N responses to a ClientRequest (one per axon), a response
    counts when it is present and has [prediction_size] values; the K that
    count are handed to [save_predictions_request], one call each, in order,
    with the hotkey of the answering axon and the values it sent; the others
    cause no call at all (nothing is asked again); and with no valid response
    the loop ends normally without having done anything. *)
Theorem valid_responses_are_stored_one_each :
  forall (F : Float) (E : Validator.collaborators F) (C : Validator.setup)
         (request_uuid output_uuid client_uuid : string) (stream_type end_dt : Z)
         (vmins vmaxs : list F) (dps : list Z) (vali_request : Validator.ClientRequest)
         (responses : list (option (list F))) (w : Validator.world F),
    List.length responses = List.length (Validator.axons C) ->
    let size := Validator.cr_prediction_size vali_request in
    let valid := valid_replies size (Validator.axons C) responses in
    let run := Validator.store_responses E C request_uuid output_uuid client_uuid
                 stream_type end_dt vmins vmaxs dps vali_request responses w in
    (forall resp : option (list F),
        Validator.proper_response size resp = true <->
        exists numpy, resp = Some numpy /\ List.length numpy = size) /\
    List.length valid = List.length (filter (Validator.proper_response size) responses) /\
    ((forall n u p d, is_ok (Validator.save_predictions_request E n u p d) = true) ->
     fst run = Ok tt /\
     Validator.trace (snd run)
     = (Validator.trace w
        ++ map (fun reply =>
                  Validator.SavePredictionsRequest output_uuid
                    (prediction_record E request_uuid client_uuid stream_type end_dt
                       vmins vmaxs dps vali_request reply))
             valid)%list) /\
    (filter (Validator.proper_response size) responses = [] -> run = (Ok tt, w)).
Proof.
  intros F E C request_uuid output_uuid client_uuid stream_type end_dt vmins vmaxs dps
    vali_request responses w Hlen size valid run.
  split; [intro resp; apply proper_response_iff |].
  split; [apply valid_replies_length; lia |].
  split.
  - intro Hsave.
    destruct (store_from E C request_uuid output_uuid client_uuid stream_type end_dt
                vmins vmaxs dps vali_request responses Hsave 0 w
                (eq_refl : skipn 0 (Validator.axons C) = Validator.axons C))
      as [w' [Hrun [Htr _]]]; [lia |].
    subst run. unfold Validator.store_responses, Validator.enumerate.
    rewrite Hrun. split; [reflexivity | exact Htr].
  - intro Hnone. subst run. unfold Validator.store_responses, Validator.enumerate.
    apply store_nothing. exact Hnone.
Qed.

Lemma valid_responses_are_stored_one_each_witness :
  let E := Demo.collab (Ok Demo.candles) None [] [] 0 in
  let replies := [Some [1; 2; 3]; None; Some [1]; Some [4; 5; 6]]%Z in
  let run := Validator.store_responses E (Demo.chain 4) "uuid-0" "uuid-6" "validator"
               15 60 [0%Z] [200%Z] [0%Z] (Validator.generate_standard_client_request E)
               replies (Validator.mkWorld [] Demo.ledger0 []) in
  fst run = Ok tt /\
  map (fun c => match c with
                | Validator.SavePredictionsRequest _ pdf =>
                    (Validator.pdf_miner_uid pdf, Validator.pdf_predictions pdf)
                | _ => ("", [])
                end) (Validator.trace (snd run))
  = [("m01", [1; 2; 3]%Z); ("m04", [4; 5; 6]%Z)].
Proof.
  intros E replies run.
  destruct (valid_responses_are_stored_one_each E (Demo.chain 4) "uuid-0" "uuid-6"
              "validator" 15 60 [0%Z] [200%Z] [0%Z]
              (Validator.generate_standard_client_request E) replies
              (Validator.mkWorld [] Demo.ledger0 []) eq_refl)
    as [_ [_ [Hrun _]]].
  destruct (Hrun (fun _ _ _ _ => eq_refl)) as [Hok Htr].
  split; [exact Hok |].
  fold run in Htr. rewrite Htr. reflexivity.
Defined.

(** ** Storing the responses: what is left on disk *)

Section KeyedStore.
Import Validator.
Variables (F : Float) (E : collaborators F) (C : setup).
Variables (request_uuid output_uuid client_uuid : string) (stream_type end_dt : Z).
Variables (vmins vmaxs : list F) (dps : list Z) (vali_request : ClientRequest).

Let size := cr_prediction_size vali_request.
Let store := store_response E C request_uuid output_uuid client_uuid stream_type end_dt
               vmins vmaxs dps vali_request.

Lemma write_keyed_twice (key : string) (d : list string) :
  write_keyed key (write_keyed key d) = write_keyed key d.
Proof.
  unfold write_keyed. destruct (existsb (String.eqb key) d) eqn:Hd.
  - rewrite Hd. reflexivity.
  - rewrite existsb_app. simpl. rewrite String.eqb_refl, Bool.orb_true_r. reflexivity.
Qed.

Lemma write_keyed_length (key : string) (d : list string) :
  List.length (write_keyed key d) <= S (List.length d).
Proof.
  unfold write_keyed. destruct (existsb _ d); [lia |].
  rewrite length_app. simpl. lia.
Qed.

(** On a keyed store all the valid replies of one round end up in one file:
    each write after the first replaces what the one before it wrote. *)
Lemma store_responses_on_keyed_store (responses : list (option (list F))) :
  keyed_store E ->
  forall k targets w,
    skipn k (axons C) = targets ->
    List.length responses <= List.length targets ->
    disk (snd (for_each (combine (seq k (List.length responses)) responses) store w))
    = match valid_replies size targets responses with
      | [] => disk w
      | _ :: _ => write_keyed output_uuid (disk w)
      end.
Proof.
  intro Hkeyed. induction responses as [| r rs IH]; intros k targets w Hk Hlen.
  - simpl. unfold valid_replies. rewrite combine_nil. reflexivity.
  - destruct targets as [| a targets]; [simpl in Hlen; lia |].
    destruct (skipn_cons _ _ Hk) as [Hnth Hskip].
    assert (Hrest : List.length rs <= List.length targets) by (simpl in Hlen; lia).
    simpl. unfold bind, valid_replies. simpl.
    fold (valid_replies size targets rs).
    destruct r as [numpy |]; simpl.
    + fold size. destruct (Nat.eqb (List.length numpy) size); simpl.
      * unfold bind, lift, index. rewrite Hnth.
        unfold ValiUtils_save_predictions_request. rewrite Hkeyed.
        rewrite (IH (S k) targets _ Hskip Hrest). simpl.
        destruct (valid_replies size targets rs);
          [reflexivity | apply write_keyed_twice].
      * unfold ret. apply IH; assumption.
    + unfold ret. apply IH; assumption.
Qed.
End KeyedStore.

(** C6. Four miners are asked for three predictions; the first and the last
    answer with three values, the second not at all, the third with one
    value.  The two valid answers, and only they, are handed to the store with
    the hotkey of their miner, and the round ends normally; but both go under
    the one uuid drawn before the loop, so that on the keyed store of the spec
    the second record replaces the first: one file is left for two valid
    responders. *)
Theorem two_valid_responses_leave_one_record :
  let E := Demo.tuned (Demo.collab (Ok Demo.candles) None Demo.four_replies [] 0)
             Demo.candles_fetch Demo.keyed Demo.removable in
  let request := Validator.generate_standard_client_request E in
  let run := Validator.validate E (Demo.chain 4) (Validator.Client request)
               (Validator.mkWorld [] (mkCMW (F:=Demo.Zfloat) []) []) in
  Validator.keyed_store E /\
  Validator.cr_prediction_size request = 3 /\
  map (@Validator.proper_response Demo.Zfloat 3) Demo.four_replies
  = [true; false; false; true] /\
  fst run = Ok tt /\
  saved (Validator.trace (snd run))
  = [("uuid-7", "m01", [1; 2; 3]%Z); ("uuid-7", "m04", [4; 5; 6]%Z)] /\
  Validator.disk (snd run) = ["uuid-7"].
Proof.
  split; [intros n key pdf d; reflexivity |].
  repeat split.
Qed.

(** ** Grading a PredictionRequest: what is compared with what *)

(** A primitive call moves the world by one logged call. *)
Ltac one_call :=
  let w := fresh "w" in
  intro w;
  unfold Validator.str_uuid4, Validator.ValiUtils_randomize_days, Validator.BinanceData_get,
    Validator.dendrite_query_axons, Validator.ValiUtils_get_vali_records,
    Validator.ValiUtils_set_vali_memory_and_bkp, Validator.Scoring_score_response,
    Validator.subtensor_set_weights, Validator.os_remove,
    Validator.ValiUtils_save_predictions_request, Validator.log;
  repeat match goal with
         | |- context [match ?x with _ => _ end] => destruct x
         end;
  simpl.

Section Grading.
Import Validator.
Variables (F : Float) (E : collaborators F) (C : setup).
Variable vali_request : PredictionRequest F.
Variable fetched : result (data_structure F).

Let P := graded_against_raw E vali_request fetched.
Let graded {A} (m : M F A) : Prop := keeps (emits P) m.

Lemma graded_get_vali_records : graded (ValiUtils_get_vali_records E).
Proof. one_call; apply emits_log; exact I. Qed.

Lemma graded_BinanceData_get s ds t : graded (BinanceData_get E s ds t).
Proof. one_call; apply emits_log; exact I. Qed.

Lemma graded_set_vali_memory_and_bkp vm : graded (ValiUtils_set_vali_memory_and_bkp E vm).
Proof. one_call; apply emits_log; exact I. Qed.

Lemma graded_set_weights us ws : graded (subtensor_set_weights E us ws).
Proof. one_call; apply emits_log; exact I. Qed.

Lemma graded_os_remove file : graded (os_remove E file).
Proof. one_call; apply emits_log; exact I. Qed.

Lemma graded_uuid4 : graded (str_uuid4 E).
Proof. one_call; apply emits_log; exact I. Qed.

Lemma graded_score_response miner_uid predictions ds column :
  In (miner_uid, predictions) (pr_predictions vali_request) ->
  fetched = Ok ds -> index ds 0 = Ok column ->
  graded (Scoring_score_response E predictions column).
Proof.
  intros Hin Hf Hc. one_call; apply emits_log; split; eauto.
Qed.

Lemma graded_live_backward u sid tid ds column vmin vmax lo hi samples :
  fetched = Ok ds -> index ds 0 = Ok column ->
  index (pdf_vmins (pr_df vali_request)) 0 = Ok vmin ->
  index (pdf_vmaxs (pr_df vali_request)) 0 = Ok vmax ->
  scale_values E column vmin vmax = Ok (lo, hi, samples) ->
  graded (dendrite_query_axons E C (LiveBackward u sid samples tid)).
Proof.
  intros Hf Hc Hlo Hhi Hs. one_call; apply emits_log; simpl.
  exists ds, column, vmin, vmax, lo, hi. repeat split; assumption.
Qed.

Lemma prediction_try_graded u sid w :
  fetched = get_data_and_structure_data_points E (S (now w))
              (pdf_stream_type (pr_df vali_request)) (get_standardized_ds E)
              (pdf_start (pr_df vali_request), pdf_end (pr_df vali_request)) ->
  emits P w (snd (prediction_try E C u sid vali_request w)).
Proof.
  intro Hf. unfold prediction_try.
  apply bind_from; [apply emits_trans | apply graded_get_vali_records |].
  intros vm w1 H1.
  assert (Hn : now w1 = S (now w)).
  { unfold ValiUtils_get_vali_records in H1.
    destruct (get_vali_records_fault E (now w)); inversion H1; apply now_log. }
  apply bind_from; [apply emits_trans | apply graded_BinanceData_get |].
  intros ds w2 H2.
  assert (Hds : fetched = Ok ds).
  { unfold BinanceData_get in H2. injection H2 as H2 _. rewrite Hf, <- Hn. exact H2. }
  clear H1 H2 Hn Hf. revert w2.
  match goal with
  | |- forall w2, emits P w2 (snd (?m w2)) => change (keeps (emits P) m)
  end.
  unfold score_predictions, store_results.
  pose proof (@emits_refl F P) as Hr.
  pose proof (@emits_trans F P) as Ht.
  keeps_split.
  - eapply graded_live_backward; eassumption.
  - eapply graded_score_response; eassumption.
  - apply graded_set_vali_memory_and_bkp.
  - apply graded_set_weights.
Qed.

Lemma validate_prediction_graded w :
  fetched = get_data_and_structure_data_points E (S (S (now w)))
              (pdf_stream_type (pr_df vali_request)) (get_standardized_ds E)
              (pdf_start (pr_df vali_request), pdf_end (pr_df vali_request)) ->
  emits P w (snd (validate E C (Prediction vali_request) w)).
Proof.
  intro Hf. unfold validate.
  apply bind_from; [apply emits_trans | apply graded_uuid4 |].
  intros u w1 H1.
  assert (Hn : now w1 = S (now w)).
  { unfold str_uuid4 in H1. injection H1 as _ <-. apply now_log. }
  unfold prediction_request.
  apply try_except_else_from; [apply emits_trans | | |].
  - apply prediction_try_graded. rewrite Hn. exact Hf.
  - intro e. apply keeps_ret. apply emits_refl.
  - intros _. apply keeps_for_each; [apply emits_refl | apply emits_trans |].
    intros file _. apply graded_os_remove.
Qed.
End Grading.

Section Scored.
Import Validator.
Variables (F : Float) (E : collaborators F) (C : setup).
Variable r : PredictionRequest F.

Lemma scorings_app (a b : list (call F)) : scorings (a ++ b) = (scorings a ++ scorings b)%list.
Proof. unfold scorings. apply flat_map_app. Qed.

Lemma scorings_none (calls : list (call F)) :
  Forall (@not_a_score F) calls -> scorings calls = [].
Proof.
  induction 1 as [| c calls Hc _ IH]; [reflexivity |].
  simpl. rewrite IH. destruct c; simpl in *; try reflexivity; contradiction.
Qed.

Lemma scorings_scores (column : list F) (l : list (string * list F)) :
  scorings (map (fun mp => ScoreResponse (snd mp) column) l)
  = map (fun mp => (snd mp, column)) l.
Proof. induction l as [| mp l IH]; simpl; [reflexivity | rewrite IH; reflexivity]. Qed.

Let scoring ds (scores : dict F) (item : string * list F) : M F (dict F) :=
  let '(miner_uid, miner_preds) := item in
  bind (lift (index ds 0))
    (fun column => bind (Scoring_score_response E miner_preds column)
                     (fun score => ret (dict_set miner_uid score scores))).

Lemma scoring_step ds column scores miner_uid miner_preds (w : world F) :
  index ds 0 = Ok column ->
  scoring ds scores (miner_uid, miner_preds) w
  = (match score_response E miner_preds column with
     | Ok score => Ok (dict_set miner_uid score scores)
     | Raise e => Raise e
     end, log (ScoreResponse miner_preds column) w).
Proof.
  intro Hc. unfold scoring, bind, lift, Scoring_score_response, ret. rewrite Hc.
  destruct (score_response E miner_preds column); reflexivity.
Qed.

Lemma scoring_loop_calls ds column :
  index ds 0 = Ok column ->
  forall (predictions : dict (list F)) (scores : dict F) (w : world F),
    exists k,
      trace (snd (for_fold predictions (scoring ds) scores w))
      = (trace w ++ map (fun mp => ScoreResponse (snd mp) column) (firstn k predictions))%list /\
      (is_ok (fst (for_fold predictions (scoring ds) scores w)) = true ->
       firstn k predictions = predictions).
Proof.
  intro Hc. induction predictions as [| [miner_uid miner_preds] predictions IH];
    intros scores w.
  - exists 0. simpl. rewrite app_nil_r. auto.
  - cbn [for_fold]. unfold bind. rewrite (@scoring_step ds column scores miner_uid miner_preds w Hc).
    destruct (score_response E miner_preds column) as [score | e].
    + destruct (IH (dict_set miner_uid score scores)
                  (log (ScoreResponse miner_preds column) w)) as [k [Ht Hk]].
      exists (S k). rewrite Ht. unfold log. cbn [trace firstn map snd].
      rewrite <- app_assoc. split; [reflexivity |].
      intro Hok. rewrite (Hk Hok). reflexivity.
    + exists 1. unfold log. cbn [trace firstn map snd fst is_ok].
      split; [reflexivity | discriminate].
Qed.

Lemma score_predictions_calls ds column predictions (w : world F) :
  index ds 0 = Ok column ->
  exists k,
    trace (snd (score_predictions E predictions ds w))
    = (trace w ++ map (fun mp => ScoreResponse (snd mp) column) (firstn k predictions))%list /\
    (is_ok (fst (score_predictions E predictions ds w)) = true ->
     firstn k predictions = predictions).
Proof. intro Hc. apply (@scoring_loop_calls ds column Hc). Qed.

(** After the scoring loop no score is asked for. *)
Lemma prediction_try_scores u sid (w : world F) :
  let fetched :=
    get_data_and_structure_data_points E (S (now w)) (pdf_stream_type (pr_df r))
      (get_standardized_ds E) (pdf_start (pr_df r), pdf_end (pr_df r)) in
  let run := prediction_try E C u sid r w in
  exists calls k,
    trace (snd run) = (trace w ++ calls)%list /\
    (forall ds column, fetched = Ok ds -> index ds 0 = Ok column ->
       scorings calls = map (fun mp => (snd mp, column)) (firstn k (pr_predictions r))) /\
    (is_ok (fst run) = true ->
     exists ds column,
       fetched = Ok ds /\ index ds 0 = Ok column /\
       scorings calls = map (fun mp => (snd mp, column)) (pr_predictions r)).
Proof.
  intros fetched run.
  pose (fetch_call := GetDataAndStructureDataPoints (F:=F) (pdf_stream_type (pr_df r))
                        (pdf_start (pr_df r), pdf_end (pr_df r))).
  assert (Hrun : run = prediction_try E C u sid r w) by reflexivity.
  clearbody run. unfold prediction_try in Hrun.
  unfold bind at 1, ValiUtils_get_vali_records in Hrun.
  destruct (get_vali_records_fault E (now w)) as [e |].
  { subst run. exists [GetValiRecords], 0. split; [reflexivity |].
    split; [intros; reflexivity | discriminate]. }
  unfold bind at 1, BinanceData_get in Hrun. rewrite now_log in Hrun. fold fetched in Hrun.
  assert (Hstop : forall e w1,
             run = (Raise e, w1) ->
             trace w1 = (trace w ++ [GetValiRecords; fetch_call])%list ->
             exists calls k,
               trace (snd run) = (trace w ++ calls)%list /\
               (forall ds column, fetched = Ok ds -> index ds 0 = Ok column ->
                  scorings calls
                  = map (fun mp => (snd mp, column)) (firstn k (pr_predictions r))) /\
               (is_ok (fst run) = true ->
                exists ds column,
                  fetched = Ok ds /\ index ds 0 = Ok column /\
                  scorings calls = map (fun mp => (snd mp, column)) (pr_predictions r))).
  { intros e w1 -> Ht. exists [GetValiRecords; fetch_call], 0.
    split; [exact Ht |]. split; [intros; reflexivity | discriminate]. }
  assert (Ht2 : trace (log fetch_call (log GetValiRecords w))
                = (trace w ++ [GetValiRecords; fetch_call])%list).
  { unfold log. cbn [trace]. rewrite <- app_assoc. reflexivity. }
  fold fetch_call in Hrun.
  destruct fetched as [ds | e] eqn:Hf; [| eapply Hstop; [exact Hrun | exact Ht2]].
  unfold bind at 1, lift at 1 in Hrun.
  destruct (index ds 0) as [column | e] eqn:Hc; [| eapply Hstop; [exact Hrun | exact Ht2]].
  unfold bind at 1, lift at 1 in Hrun.
  destruct (index (pdf_vmins (pr_df r)) 0) as [vmin | e];
    [| eapply Hstop; [exact Hrun | exact Ht2]].
  unfold bind at 1, lift at 1 in Hrun.
  destruct (index (pdf_vmaxs (pr_df r)) 0) as [vmax | e];
    [| eapply Hstop; [exact Hrun | exact Ht2]].
  unfold bind at 1, lift at 1 in Hrun.
  destruct (scale_values E column vmin vmax) as [[[lo hi] samples] | e];
    [| eapply Hstop; [exact Hrun | exact Ht2]].
  clear Hstop.
  unfold bind at 1, dendrite_query_axons in Hrun.
  set (query := DendriteQuery (axons C) (LiveBackward u sid samples (pdf_topic_id (pr_df r))))
    in Hrun.
  destruct (dendrite_query E _ _ _) as [replies | e].
  2:{ subst run. exists [GetValiRecords; fetch_call; query], 0.
      split; [| split; [intros; reflexivity | discriminate]].
      cbn [snd]. unfold log at 1. cbn [trace]. rewrite Ht2, <- app_assoc. reflexivity. }
  unfold bind at 1 in Hrun.
  destruct (@score_predictions_calls ds column (pr_predictions r)
              (log query (log fetch_call (log GetValiRecords w))) Hc) as [k [Hk Hall]].
  assert (Ht3 : trace (snd (score_predictions E (pr_predictions r) ds
                              (log query (log fetch_call (log GetValiRecords w)))))
                = (trace w ++ [GetValiRecords; fetch_call; query]
                   ++ map (fun mp => ScoreResponse (snd mp) column)
                        (firstn k (pr_predictions r)))%list).
  { rewrite Hk. unfold log at 1. cbn [trace]. rewrite Ht2, <- !app_assoc. reflexivity. }
  clear Hk.
  destruct (score_predictions E (pr_predictions r) ds _) as [[scores | e] w4].
  2:{ subst run. eexists. exists k. split; [exact Ht3 |].
      split; [| discriminate].
      intros ds' column' Hds' Hc'. injection Hds' as <-. rewrite Hc in Hc'.
      injection Hc' as <-. apply scorings_scores. }
  cbn [fst snd is_ok] in Hall, Ht3. rewrite (Hall eq_refl) in Ht3.
  match type of Hrun with
  | run = ?rest w4 =>
      assert (Hrest : keeps (emits (@not_a_score F)) rest)
  end.
  { unfold store_results.
    pose proof (@emits_refl F (@not_a_score F)) as Hr.
    pose proof (@emits_trans F (@not_a_score F)) as Ht.
    keeps_split; one_call; apply emits_log; exact I. }
  destruct (Hrest w4) as [calls [Ht4 Hquiet]]. rewrite <- Hrun in Ht4.
  eexists. exists (List.length (pr_predictions r)).
  split; [rewrite Ht4, Ht3, <- app_assoc; reflexivity |].
  assert (Hscored : scorings (([GetValiRecords; fetch_call; query]
                                ++ map (fun mp => ScoreResponse (snd mp) column)
                                     (pr_predictions r)) ++ calls)
                    = map (fun mp => (snd mp, column)) (pr_predictions r)).
  { rewrite !scorings_app, scorings_scores, (scorings_none Hquiet), app_nil_r.
    reflexivity. }
  split.
  - intros ds' column' Hds' Hc'. injection Hds' as <-. rewrite Hc in Hc'.
    injection Hc' as <-. rewrite firstn_all. exact Hscored.
  - intros _. exists ds, column.
    split; [reflexivity | split; [exact Hc | exact Hscored]].
Qed.

(** The last part of the round, the removal of the files, asks for no score. *)
Lemma removals_score_nothing u (w : world F) :
  let block := prediction_try E C u (stream_hash E C (pdf_stream_type (pr_df r))) r w in
  exists calls,
    trace (snd (prediction_request E C u r w)) = (trace (snd block) ++ calls)%list /\
    Forall (@not_a_score F) calls.
Proof.
  intro block. unfold prediction_request, try_except_else. fold block.
  destruct block as [[[] | e] w1]; cbn [snd].
  - assert (Hrm : keeps (emits (@not_a_score F)) (for_each (pr_files r) (os_remove E))).
    { apply keeps_for_each; [apply emits_refl | apply emits_trans |].
      intros file _. one_call; apply emits_log; exact I. }
    exact (Hrm w1).
  - exists []. split; [| constructor].
    destruct (isinstance_RuntimeError e); simpl; symmetry; apply app_nil_r.
Qed.
End Scored.


(** C10. In the round that grades a PredictionRequest, every call of the
    scoring function receives the predictions of one of the miners of the
    request and, as ground truth, the first column of the data structure
    exactly as the market-data fetch of that round filled it; the column
    rescaled with the bounds kept in the prediction record only travels in the
    LiveBackward message, which is the only message sent.  The miners are
    scored in the order of the request, one call each: what the scoring
    function was asked in the round is that for the first miners of the
    request, and for every miner of the request once the outer [try] block of
    the round has completed. *)
Theorem predictions_scored_against_raw_column :
  forall (F : Float) (E : Validator.collaborators F) (C : Validator.setup)
         (vali_request : Validator.PredictionRequest F) (w : Validator.world F),
    let request_df := Validator.pr_df vali_request in
    let fetched :=
      Validator.get_data_and_structure_data_points E (S (S (Validator.now w)))
        (Validator.pdf_stream_type request_df) (Validator.get_standardized_ds E)
        (Validator.pdf_start request_df, Validator.pdf_end request_df) in
    let request_uuid := Validator.uuid4 E (Validator.now w) in
    let block :=
      Validator.prediction_try E C request_uuid
        (Validator.stream_hash E C (Validator.pdf_stream_type request_df)) vali_request
        (Validator.log (Validator.Uuid4 request_uuid) w) in
    exists calls scored,
      Validator.trace (snd (Validator.validate E C (Validator.Prediction vali_request) w))
      = (Validator.trace w ++ calls)%list /\
      Forall (graded_against_raw E vali_request fetched) calls /\
      (forall ds column,
          fetched = Ok ds -> Validator.index ds 0 = Ok column ->
          scorings calls
          = map (fun miner => (snd miner, column))
              (firstn scored (Validator.pr_predictions vali_request))) /\
      (is_ok (fst block) = true ->
       exists ds column,
         fetched = Ok ds /\ Validator.index ds 0 = Ok column /\
         scorings calls
         = map (fun miner => (snd miner, column)) (Validator.pr_predictions vali_request)).
Proof.
  intros F E C vali_request w request_df fetched request_uuid block.
  destruct (validate_prediction_graded E C vali_request (fetched := fetched) w eq_refl)
    as [calls [Ht Hgraded]].
  destruct (prediction_try_scores E C vali_request request_uuid
              (Validator.stream_hash E C (Validator.pdf_stream_type request_df))
              (Validator.log (Validator.Uuid4 request_uuid) w))
    as [calls1 [scored [Ht1 [Hprefix Hall]]]].
  cbv zeta in Hprefix, Hall. rewrite now_log in Hprefix, Hall.
  fold request_df fetched block in Hprefix, Hall.
  destruct (removals_score_nothing E C vali_request request_uuid
              (Validator.log (Validator.Uuid4 request_uuid) w))
    as [calls2 [Ht2 Hquiet]].
  fold request_df block in Ht1, Ht2.
  assert (Hcalls : calls = (Validator.Uuid4 request_uuid :: calls1 ++ calls2)%list).
  { apply (app_inv_head (Validator.trace w)). rewrite <- Ht.
    unfold Validator.validate, Validator.bind, Validator.str_uuid4. fold request_uuid.
    rewrite Ht2, Ht1. unfold Validator.log. cbn [Validator.trace].
    rewrite <- !app_assoc. reflexivity. }
  assert (Hscored : scorings calls = scorings calls1).
  { rewrite Hcalls. change (Validator.Uuid4 request_uuid :: calls1 ++ calls2)%list
      with ([Validator.Uuid4 request_uuid] ++ calls1 ++ calls2)%list.
    rewrite !scorings_app, (scorings_none Hquiet), app_nil_r. reflexivity. }
  exists calls, scored. split; [exact Ht |]. split; [exact Hgraded |].
  rewrite Hscored. split; [exact Hprefix | exact Hall].
Qed.

Lemma predictions_scored_against_raw_column_witness :
  let E := Demo.collab (Ok Demo.candles) None [] [] 0 in
  let w' := snd (Validator.validate E (Demo.chain 2) (Validator.Prediction (Demo.scoring 2))
                   (Demo.world0 2)) in
  scorings (Validator.trace w')
  = [([100; 111; 121], [100; 110; 120]); ([101; 111; 121], [100; 110; 120])]%Z.
Proof.
  intros E w'.
  destruct (@predictions_scored_against_raw_column Demo.Zfloat E (Demo.chain 2)
              (Demo.scoring 2) (Demo.world0 2))
    as [calls [scored [Ht [_ [_ Hall]]]]].
  destruct (Hall eq_refl) as [ds [column [Hds [Hcolumn Hscored]]]].
  injection Hds as <-. injection Hcolumn as <-.
  subst w'. rewrite Ht. exact Hscored.
Defined.

(** A grading round of two miners, call by call: both predictions are
    compared with the fetched column [100; 110; 120], while the message to
    the miners carries that column rescaled from the stored minimum 90. *)
Example grading_round_calls :
  let E := Demo.collab (Ok Demo.candles) None [] [] 0 in
  let w' := snd (Validator.validate E (Demo.chain 2) (Validator.Prediction (Demo.scoring 2))
                   (Demo.world0 2)) in
  flat_map (fun c => match c with
                     | Validator.ScoreResponse p t => [(p, t)]
                     | _ => []
                     end) (Validator.trace w')
  = [([100; 111; 121], [100; 110; 120]); ([101; 111; 121], [100; 110; 120])]%Z /\
  messages (Validator.trace w')
  = [Validator.LiveBackward (F:=Demo.Zfloat) "uuid-0" 15 [10; 20; 30]%Z 1].
Proof. split; reflexivity. Qed.

(** ** Grading a PredictionRequest: when the files go *)

Section Files.
Import Validator.
Variables (F : Float) (E : collaborators F) (C : setup).

Lemma prediction_try_keeps_disk u sid r :
  keeps (@same_disk F) (prediction_try E C u sid r).
Proof.
  unfold prediction_try, score_predictions, store_results.
  pose proof (@same_disk_refl F) as Hr.
  pose proof (@same_disk_trans F) as Ht.
  keeps_split; one_call; reflexivity.
Qed.

Lemma existsb_eqb_In (f : string) (d : list string) :
  existsb (String.eqb f) d = true <-> In f d.
Proof.
  rewrite existsb_exists. split.
  - intros [x [Hin Heq]]. apply String.eqb_eq in Heq. subst x. exact Hin.
  - intro Hin. exists f. split; [exact Hin | apply String.eqb_refl].
Qed.

Lemma In_remove_file (f g : string) (d : list string) :
  NoDup d -> (In g (remove_file f d) <-> In g d /\ g <> f).
Proof.
  induction d as [| x d IH]; intro Hnd; simpl.
  - tauto.
  - inversion Hnd as [| ? ? Hx Hd]; subst.
    destruct (String.eqb_spec f x) as [-> | Hne]; simpl.
    + split.
      * intro Hg. split; [right; exact Hg |]. intros ->. contradiction.
      * intros [[-> | Hg] Hne]; [contradiction | exact Hg].
    + rewrite (IH Hd). split.
      * intros [-> | [Hg Hgf]]; [split; [left; reflexivity | congruence] | tauto].
      * intros [[-> | Hg] Hgf]; [left; reflexivity | right; tauto].
Qed.

Lemma NoDup_remove_file (f : string) (d : list string) :
  NoDup d -> NoDup (remove_file f d).
Proof.
  induction d as [| x d IH]; intro Hnd; simpl; [constructor |].
  inversion Hnd as [| ? ? Hx Hd]; subst.
  destruct (String.eqb f x); [exact Hd |].
  constructor; [| apply IH; exact Hd].
  intro Hin. apply In_remove_file in Hin; [| exact Hd]. tauto.
Qed.

(** The [else] branch: every file of the request is there and none is
    refused, so every [os.remove] succeeds and all of them are gone
    afterwards. *)
Lemma remove_files (files : list string) :
  NoDup files ->
  (forall n file, In file files -> os_remove_refused E n file = None) ->
  forall w : world F,
    NoDup (disk w) -> incl files (disk w) ->
    exists w',
      for_each files (os_remove E) w = (Ok tt, w') /\
      bkp w' = bkp w /\
      forall g, In g (disk w') <-> In g (disk w) /\ ~ In g files.
Proof.
  induction files as [| f files IH]; intros Hnd Hfree w Hdisk Hincl.
  - exists w. simpl. repeat split; tauto.
  - inversion Hnd as [| ? ? Hf Hfiles]; subst.
    simpl. unfold bind, os_remove at 1.
    assert (Hin : existsb (String.eqb f) (disk w) = true).
    { apply existsb_eqb_In. apply Hincl. left. reflexivity. }
    rewrite Hin, (Hfree (now w) f (or_introl eq_refl)).
    match goal with
    | |- context [for_each _ _ ?w1] =>
        destruct (IH Hfiles (fun n g Hg => Hfree n g (or_intror Hg)) w1)
          as [w' [Hrun [Hb Hd]]]
    end.
    + simpl. apply NoDup_remove_file. exact Hdisk.
    + intros g Hg. simpl. apply In_remove_file; [exact Hdisk |].
      split; [apply Hincl; right; exact Hg | intros ->; contradiction].
    + exists w'. rewrite Hrun. simpl in Hb, Hd.
      split; [reflexivity |]. split; [exact Hb |].
      intro g. rewrite Hd, In_remove_file by exact Hdisk. simpl.
      split; [intros [[Hg Hne] Hn] | intros [Hg Hn]].
      * split; [exact Hg |]. intros [-> | Hgf]; [congruence | contradiction].
      * repeat split; [exact Hg | intros ->; apply Hn; left; reflexivity |].
        intro Hgf. apply Hn. right. exact Hgf.
Qed.

(** The outer [try] is the grading, the ledger update and the weight
    commitment, in this order. *)
Lemma prediction_try_in_three u sid (r : PredictionRequest F) (w : world F) :
  prediction_try E C u sid r w
  = bind (grade E C u sid r)
      (fun graded =>
         let '(vm, stream, scaled_scores, weighed_winning_scores) := graded in
         bind (store_results E vm (pdf_client_uuid (pr_df r)) stream scaled_scores
                 (dict_of_pairs weighed_winning_scores))
           (fun _ => commit_weights E C weighed_winning_scores)) w.
Proof.
  unfold prediction_try, grade, commit_weights, bind, lift, ret.
  repeat match goal with
         | |- context [match ?x with _ => _ end] =>
             lazymatch x with
             | context [match _ with _ => _ end] => fail
             | _ => destruct x
             end
         end; reflexivity.
Qed.

Lemma grade_keeps_disk u sid r : keeps (@same_disk F) (grade E C u sid r).
Proof.
  unfold grade, score_predictions.
  pose proof (@same_disk_refl F) as Hr.
  pose proof (@same_disk_trans F) as Ht.
  keeps_split; one_call; reflexivity.
Qed.

Lemma add_results_raise_exception W items : forall (o : option (CMWStreamType F)) e,
  add_results W o items = Raise e -> isinstance_Exception e = true.
Proof.
  induction items as [| [uid score] items IH]; intros o e H; simpl in H; [discriminate |].
  destruct o as [st |]; [| injection H as <-; reflexivity].
  unfold dict_index in H.
  destruct (dict_get uid W) as [weight |]; [| injection H as <-; reflexivity].
  destruct (float_ne F weight (float_zero F)); eapply IH; exact H.
Qed.

(** The handler of the ledger update lets no [Exception] through. *)
Lemma store_results_swallows vm cid stream scaled_scores W (w : world F) e :
  fst (store_results E vm cid stream scaled_scores W w) = Raise e ->
  isinstance_Exception e = false.
Proof.
  unfold store_results, try_except.
  destruct (bind _ _ w) as [[[] | e'] w1]; simpl; [discriminate |].
  destruct (isinstance_Exception e') eqn:He; simpl; [discriminate |].
  intro H. injection H as <-. exact He.
Qed.

(** When the write of the ledger can only fail with an [Exception], the
    update ends normally whatever happened in it, and leaves the files. *)
Lemma store_results_ends_normally vm cid stream scaled_scores W (w : world F) :
  (forall e, set_vali_memory_and_bkp_fault E (now w) = Some e ->
             isinstance_Exception e = true) ->
  fst (store_results E vm cid stream scaled_scores W w) = Ok tt /\
  disk (snd (store_results E vm cid stream scaled_scores W w)) = disk w.
Proof.
  intro Hfault. unfold store_results, try_except, bind, lift.
  destruct (add_results W stream scaled_scores) as [stream' | e] eqn:Hadd.
  - unfold ValiUtils_set_vali_memory_and_bkp.
    destruct (set_vali_memory_and_bkp_fault E (now w)) as [e |] eqn:Hf; simpl.
    + rewrite (Hfault e eq_refl). split; reflexivity.
    + split; reflexivity.
  - rewrite (add_results_raise_exception _ _ _ Hadd). split; reflexivity.
Qed.
End Files.

(** C3, as stated, fails: the ledger write of this grading round raises
    [OSError] (the persisted ledger keeps no score of either miner), the round
    ends normally all the same, and both prediction files are deleted. *)
Lemma files_deleted_although_ledger_update_failed :
  let E := Demo.collab (Ok Demo.candles) (Some OSError) [] [] 0 in
  let w := Demo.world0 2 in
  let run := Validator.prediction_request E (Demo.chain 2) "uuid-5" (Demo.scoring 2) w in
  Validator.set_vali_memory_and_bkp_fault E 6 = Some OSError /\
  Validator.disk w = ["uuid-7-m01"; "uuid-7-m02"] /\
  fst run = Ok tt /\
  Validator.bkp (snd run) = Demo.ledger0 /\
  Validator.disk (snd run) = [].
Proof. repeat split. Qed.

(** C3, amended. The files of a PredictionRequest, all present in the
    predictions directory and none of them refused by [os.remove], are deleted
    if and only if the outer [try] block of the round -- ledger read,
    market-data fetch, LiveBackward dispatch, scoring, weighing, the ledger
    update with its own handler, weight commitment -- completes without
    raising.  When the block raises, whether the exception is caught or
    leaves the function, the directory is as it was.  A failure inside the
    ledger update does not count: no [Exception] leaves the update, and once
    the grading before it has succeeded and the weight commitment after it
    succeeds, the files are deleted whatever the update did, be it the loop
    over the scores or the write of the ledger that failed. *)
Theorem files_deleted_iff_try_block_completes :
  forall (F : Float) (E : Validator.collaborators F) (C : Validator.setup)
         (request_uuid : string) (vali_request : Validator.PredictionRequest F)
         (w : Validator.world F),
    NoDup (Validator.pr_files vali_request) ->
    NoDup (Validator.disk w) ->
    incl (Validator.pr_files vali_request) (Validator.disk w) ->
    (forall n file, In file (Validator.pr_files vali_request) ->
                    Validator.os_remove_refused E n file = None) ->
    let stream_type :=
      Validator.stream_hash E C (Validator.pdf_stream_type (Validator.pr_df vali_request)) in
    let block := Validator.prediction_try E C request_uuid stream_type vali_request w in
    let w' := snd (Validator.prediction_request E C request_uuid vali_request w) in
    (forall file, In file (Validator.pr_files vali_request) ->
                  (~ In file (Validator.disk w') <-> is_ok (fst block) = true)) /\
    (is_ok (fst block) = false -> Validator.disk w' = Validator.disk w) /\
    (forall vm cid stream scaled_scores weights w0 e,
        fst (Validator.store_results E vm cid stream scaled_scores weights w0) = Raise e ->
        isinstance_Exception e = false) /\
    (forall vm stream scaled_scores weighed_winning_scores w1,
        Validator.grade E C request_uuid stream_type vali_request w
        = (Ok (vm, stream, scaled_scores, weighed_winning_scores), w1) ->
        (forall e, Validator.set_vali_memory_and_bkp_fault E (Validator.now w1) = Some e ->
                   isinstance_Exception e = true) ->
        let update :=
          Validator.store_results E vm
            (Validator.pdf_client_uuid (Validator.pr_df vali_request)) stream scaled_scores
            (dict_of_pairs weighed_winning_scores) w1 in
        fst (Validator.commit_weights E C weighed_winning_scores (snd update)) = Ok tt ->
        forall file, In file (Validator.pr_files vali_request) ->
                     ~ In file (Validator.disk w')).
Proof.
  intros F E C request_uuid vali_request w Hfiles Hdisk Hincl Hfree stream_type block w'.
  pose proof (prediction_try_keeps_disk E C request_uuid stream_type vali_request w)
    as Hkeep.
  fold block in Hkeep. unfold same_disk in Hkeep.
  assert (Hiff : (forall file, In file (Validator.pr_files vali_request) ->
                    (~ In file (Validator.disk w') <-> is_ok (fst block) = true)) /\
                 (is_ok (fst block) = false -> Validator.disk w' = Validator.disk w)).
  { subst w'. unfold Validator.prediction_request, Validator.try_except_else.
    fold stream_type. fold block.
    destruct block as [[[] | e] w1] eqn:Hblock; simpl in *.
    - destruct (remove_files E Hfiles Hfree w1) as [w2 [Hrun [_ Hgone]]].
      + rewrite Hkeep. exact Hdisk.
      + rewrite Hkeep. exact Hincl.
      + rewrite Hrun. simpl. split; [| discriminate].
        intros file Hin. split; [reflexivity |].
        intros _ Hstill. apply Hgone in Hstill. tauto.
    - assert (Hsame : Validator.disk
                        (snd (if isinstance_RuntimeError e
                              then Validator.ret tt w1
                              else (Raise e, w1))) = Validator.disk w).
      { destruct (isinstance_RuntimeError e); simpl; exact Hkeep. }
      split; [| intros _; exact Hsame].
      intros file Hin. rewrite Hsame. split; [| discriminate].
      intro Hgone. exfalso. apply Hgone. apply Hincl. exact Hin. }
  destruct Hiff as [Hiff Hstay].
  split; [exact Hiff |]. split; [exact Hstay |].
  split; [intros vm cid stream scaled_scores weights w0 e; apply store_results_swallows |].
  intros vm stream scaled_scores weighed_winning_scores w1 Hgrade Hfault update Hcommit
    file Hin.
  apply (Hiff file Hin).
  subst block. rewrite prediction_try_in_three. unfold Validator.bind at 1.
  rewrite Hgrade. unfold Validator.bind. fold update.
  destruct (store_results_ends_normally E vm
              (Validator.pdf_client_uuid (Validator.pr_df vali_request)) stream
              scaled_scores (dict_of_pairs weighed_winning_scores) w1 Hfault) as [Hok _].
  fold update in Hok.
  destruct update as [[[] | e] w2]; simpl in *; [| discriminate].
  destruct (Validator.commit_weights E C weighed_winning_scores w2) as [[[] | e] w3];
    simpl in *; [reflexivity | discriminate].
Qed.

Lemma files_deleted_iff_try_block_completes_witness :
  let E := Demo.collab (Ok Demo.candles) (Some OSError) [] [] 0 in
  let w' := snd (Validator.prediction_request E (Demo.chain 2) "uuid-5" (Demo.scoring 2)
                   (Demo.world0 2)) in
  Validator.set_vali_memory_and_bkp_fault E 6 = Some OSError /\
  ~ In "uuid-7-m02" (Validator.disk w').
Proof.
  intros E w'. split; [reflexivity |].
  destruct (@files_deleted_iff_try_block_completes Demo.Zfloat E (Demo.chain 2) "uuid-5"
              (Demo.scoring 2) (Demo.world0 2)) as [_ [_ [_ Hupdate]]].
  - repeat constructor; simpl; intuition discriminate.
  - repeat constructor; simpl; intuition discriminate.
  - intros f Hf. exact Hf.
  - intros n file _. reflexivity.
  - eapply Hupdate.
    + reflexivity.
    + intros e He. injection He as <-. reflexivity.
    + reflexivity.
    + simpl. auto.
Defined.

(** ** A batch of requests and a market-data fetch that fails for good *)

Section Fatal.
Import Validator.
Variables (F : Float) (E : collaborators F) (C : setup).














End Fatal.



Section Batch.
Import Validator.
Variables (F : Float) (E : collaborators F) (C : setup).



End Batch.





(** ** The request uuid of the two phases of a live request *)

Section RequestUuid.
Import Validator.
Variables (F : Float) (E : collaborators F) (C : setup).
Variable drawn : string.

Let P (c : call F) : Prop :=
  match c with
  | DendriteQuery _ message => synapse_request_uuid message = drawn
  | _ => True
  end.

(** Whatever uuid the prediction record holds, the messages of the round that
    grades it carry the uuid drawn at the start of that round. *)
Lemma grading_round_uses_the_drawn_uuid (r : PredictionRequest F) (w : world F) :
  drawn = uuid4 E (now w) ->
  emits P w (snd (validate E C (Prediction r) w)).
Proof.
  intro Hd. unfold validate.
  apply bind_from;
    [apply emits_trans | unfold str_uuid4, log; simpl; apply emits_log; exact I |].
  intros u w1 H1.
  assert (Hu : u = drawn).
  { unfold str_uuid4 in H1. injection H1 as <- _. symmetry. exact Hd. }
  subst u. clear H1. revert w1.
  match goal with
  | |- forall w1, emits P w1 (snd (?m w1)) => change (keeps (emits P) m)
  end.
  unfold prediction_request, prediction_try, score_predictions, store_results.
  pose proof (@emits_refl F P) as Hr.
  pose proof (@emits_trans F P) as Ht.
  keeps_split; one_call; apply emits_log; simpl; auto.
Qed.
End RequestUuid.

(** C5. A ClientRequest is processed in one round and the record it left is
    graded in a later one.  The LiveForward message and the stored record
    carry the uuid drawn in the first round, "uuid-0"; the LiveBackward
    message sent when the record is graded carries "uuid-9", the uuid drawn
    at the start of the grading round. *)
Theorem live_backward_carries_another_uuid :
  let E := Demo.collab (Ok Demo.candles) None [Some [100; 111; 121]%Z] [] 0 in
  let C := Demo.chain 1 in
  let w0 := Validator.mkWorld [] (mkCMW (F:=Demo.Zfloat) []) [] in
  let w1 := snd (Validator.validate E C
                   (Validator.Client (Validator.generate_standard_client_request E)) w0) in
  let w2 := snd (Validator.validate E C (Validator.Prediction (Demo.scoring 1)) w1) in
  In (Validator.SavePredictionsRequest "uuid-7" (Validator.pr_df (Demo.scoring 1)))
     (Validator.trace w1) /\
  Validator.pdf_request_uuid (Validator.pr_df (Demo.scoring 1)) = "uuid-0" /\
  Validator.disk w1 = Validator.pr_files (Demo.scoring 1) /\
  messages (Validator.trace w1)
  = [Validator.LiveForward "uuid-0" 15 (map (fun c => c ++ c)%list Demo.candles) 1
       [1; 2; 3; 4; 5]%Z 1 3] /\
  messages (Validator.trace w2)
  = [Validator.LiveForward "uuid-0" 15 (map (fun c => c ++ c)%list Demo.candles) 1
       [1; 2; 3; 4; 5]%Z 1 3;
     Validator.LiveBackward (F:=Demo.Zfloat) "uuid-9" 15 [10; 20; 30]%Z 1].
Proof.
  repeat split. vm_compute. tauto.
Qed.

(** ** Grading a PredictionRequest: more miners than weights *)

Section LedgerUpdate.
Import Validator.
Variables (F : Float) (E : collaborators F).

Lemma dict_get_keys {V} (k : string) (d : dict V) (v : V) :
  dict_get k d = Some v -> In k (keys d).
Proof.
  induction d as [| [k' v'] d IH]; simpl; [discriminate |].
  destruct (String.eqb_spec k k') as [-> | Hne]; [left; reflexivity |].
  intro H. right. apply IH. exact H.
Qed.

Lemma dict_set_length {V} (k : string) (v : V) (d : dict V) :
  List.length (dict_set k v d) <= S (List.length d).
Proof.
  induction d as [| [k' v'] d IH]; simpl; [lia |].
  destruct (String.eqb k k'); simpl; lia.
Qed.

Lemma dict_of_pairs_length {V} (l : list (string * V)) :
  List.length (dict_of_pairs l) <= List.length l.
Proof.
  unfold dict_of_pairs.
  assert (H : forall d : dict V,
             List.length (fold_left (fun d kv => dict_set (fst kv) (snd kv) d) l d)
             <= List.length d + List.length l).
  { induction l as [| kv l IH]; intro d; simpl; [lia |].
    specialize (IH (dict_set (fst kv) (snd kv) d)).
    pose proof (dict_set_length (fst kv) (snd kv) d). lia. }
  apply (H []).
Qed.

(** A round of the loop passes only for a miner that has a weight. *)
Implicit Types (W : dict F) (st : option (CMWStreamType F)) (item : string * F).

Lemma add_result_ok W st item st' :
  add_result W st item = Ok st' -> In (fst item) (keys W) /\ st' <> None.
Proof.
  destruct item as [miner_uid scaled_score]. unfold add_result, dict_index.
  destruct st as [st |]; [| discriminate].
  destruct (dict_get miner_uid W) as [weight |] eqn:Hget; [| discriminate].
  intro H. split; [eapply dict_get_keys; exact Hget |].
  destruct (float_ne F weight (float_zero F)); injection H as <-; discriminate.
Qed.

Lemma add_results_ok W (items : list (string * F)) : forall st st',
  add_results W st items = Ok st' -> incl (keys items) (keys W).
Proof.
  induction items as [| item items IH]; intros st st' H; simpl in *.
  - intros k [].
  - destruct (add_result W st item) as [st1 |] eqn:H1; [| discriminate].
    apply add_result_ok in H1. destruct H1 as [Hin _].
    intros k [<- | Hk]; [exact Hin | eapply IH; eassumption].
Qed.

Lemma add_result_raises W st item e :
  add_result W st item = Raise e -> isinstance_Exception e = true.
Proof.
  destruct item as [miner_uid scaled_score]. unfold add_result, dict_index.
  destruct st as [st |]; [| intro H; injection H as <-; reflexivity].
  destruct (dict_get miner_uid W) as [weight |];
    [| intro H; injection H as <-; reflexivity].
  destruct (float_ne F weight (float_zero F)); discriminate.
Qed.

Lemma add_results_raises W (items : list (string * F)) : forall st e,
  add_results W st items = Raise e -> isinstance_Exception e = true.
Proof.
  induction items as [| item items IH]; intros st e H; simpl in *; [discriminate |].
  destruct (add_result W st item) as [st1 |] eqn:H1.
  - eapply IH; exact H.
  - injection H as <-. eapply add_result_raises; exact H1.
Qed.

(** With more than ten scaled scores the weights, at most ten, cannot cover
    every miner: the loop cannot run to its end. *)
Lemma add_results_over_ten st st' (scaled_scores : dict F)
  (weighed_winning_scores : list (string * F)) :
  NoDup (keys scaled_scores) ->
  10 < List.length scaled_scores ->
  List.length weighed_winning_scores <= 10 ->
  add_results (dict_of_pairs weighed_winning_scores) st scaled_scores <> Ok st'.
Proof.
  intros Hnd Hmany Hfew Hloop.
  apply add_results_ok in Hloop.
  pose proof (NoDup_incl_length Hnd Hloop) as Hlen.
  pose proof (dict_of_pairs_length weighed_winning_scores) as Hd.
  unfold keys in Hlen. rewrite !length_map in Hlen. lia.
Qed.

(** So the loop raises, the handler swallows the exception, and the ledger is
    not written. *)
Lemma store_results_over_ten vm client_uuid st (scaled_scores : dict F)
  (weighed_winning_scores : list (string * F)) (w : world F) :
  NoDup (keys scaled_scores) ->
  10 < List.length scaled_scores ->
  List.length weighed_winning_scores <= 10 ->
  store_results E vm client_uuid st scaled_scores (dict_of_pairs weighed_winning_scores) w
  = (Ok tt, w).
Proof.
  intros Hnd Hmany Hfew.
  unfold store_results, try_except, bind, lift.
  destruct (add_results _ st scaled_scores) as [st' | e] eqn:Hloop.
  - exfalso. eapply add_results_over_ten; eassumption.
  - apply add_results_raises in Hloop. rewrite Hloop. reflexivity.
Qed.

Lemma keys_dict_set_new {V} (k : string) (v : V) (d : dict V) :
  ~ In k (keys d) -> keys (dict_set k v d) = (keys d ++ [k])%list.
Proof.
  induction d as [| [k' v'] d IH]; simpl; intro Hk; [reflexivity |].
  destruct (String.eqb_spec k k') as [-> | Hne]; [tauto |].
  simpl. rewrite IH; [reflexivity | tauto].
Qed.

(** The scores that the scoring loop yields are those of the miners of the
    request, in their order. *)
Lemma score_predictions_keys ds : forall (predictions : dict (list F)) (scores0 : dict F)
    (w : world F) scores w',
  for_fold predictions
    (fun (scores : dict F) (item : string * list F) =>
       let '(miner_uid, miner_preds) := item in
       bind (lift (index ds 0))
         (fun column => bind (Scoring_score_response E miner_preds column)
                          (fun score => ret (dict_set miner_uid score scores))))
    scores0 w = (Ok scores, w') ->
  NoDup (keys scores0 ++ keys predictions) ->
  keys scores = (keys scores0 ++ keys predictions)%list.
Proof.
  induction predictions as [| [miner_uid miner_preds] predictions IH];
    intros scores0 w scores w' Hrun Hnd.
  - simpl in Hrun. injection Hrun as <- _. simpl. symmetry. apply app_nil_r.
  - cbn [for_fold] in Hrun. unfold bind at 1 in Hrun.
    match type of Hrun with
    | match ?step with _ => _ end = _ => destruct step as [[scores1 | e] w1] eqn:Hstep
    end; [| discriminate Hrun].
    assert (Hscores1 : exists score, scores1 = dict_set miner_uid score scores0).
    { unfold bind, lift, Scoring_score_response, ret in Hstep.
      destruct (index ds 0); [| discriminate Hstep].
      destruct (score_response E miner_preds _) as [score |]; [| discriminate Hstep].
      injection Hstep as <- _. exists score. reflexivity. }
    destruct Hscores1 as [score ->].
    change (keys ((miner_uid, miner_preds) :: predictions))
      with (miner_uid :: keys predictions) in *.
    assert (Hnew : ~ In miner_uid (keys scores0)).
    { apply NoDup_remove_2 in Hnd. intro Hin. apply Hnd. apply in_or_app. left. exact Hin. }
    apply IH in Hrun.
    + rewrite Hrun. rewrite (@keys_dict_set_new _ miner_uid score scores0 Hnew),
        <- app_assoc. reflexivity.
    + rewrite (@keys_dict_set_new _ miner_uid score scores0 Hnew), <- app_assoc.
      exact Hnd.
Qed.

(** Whenever more than ten distinct miners are scored and scaling keeps the
    miners, the round that grades a PredictionRequest leaves the persisted
    ledger as it was. *)
Lemma over_ten_scores_never_reach_the_ledger (C : setup) u (r : PredictionRequest F) :
  (forall d d', simple_scale_scores E d = Ok d' -> keys d' = keys d) ->
  NoDup (keys (pr_predictions r)) ->
  10 < List.length (pr_predictions r) ->
  keeps (@same_bkp F) (prediction_request E C u r).
Proof.
  intros Hkeys Hnd Hmany.
  unfold prediction_request, prediction_try.
  pose proof (@same_bkp_refl F) as Hr.
  pose proof (@same_bkp_trans F) as Ht.
  apply keeps_try_except_else; [assumption .. | | intro; apply keeps_ret; assumption
                               | intro; apply keeps_for_each; [assumption .. |];
                                 intros file _; one_call; reflexivity].
  do 2 (apply keeps_bind; [assumption .. | one_call; reflexivity | intros ?]).
  do 4 (apply keeps_bind_lift; [assumption .. | intros ? ?]).
  repeat match goal with
         | |- keeps _ (match ?x with _ => _ end) => destruct x
         end.
  apply keeps_bind; [assumption .. | one_call; reflexivity | intros ?].
  apply keeps_bind_post with (Q := fun scores => keys scores = keys (pr_predictions r));
    [assumption | | |].
  - intros w scores w1 Hrun. unfold score_predictions in Hrun.
    apply score_predictions_keys in Hrun; [exact Hrun | exact Hnd].
  - unfold score_predictions. keeps_split; one_call; reflexivity.
  - intros scores Hscores.
    keeps_split; try (one_call; reflexivity).
    exfalso.
    match goal with
    | Hs : simple_scale_scores E _ = Ok ?scaled |- _ =>
        assert (Hscaled : keys scaled = keys (pr_predictions r))
          by (rewrite (Hkeys _ _ Hs); exact Hscores)
    end.
    eapply add_results_over_ten; [| | | eassumption].
    + rewrite Hscaled. exact Hnd.
    + apply (f_equal (@List.length string)) in Hscaled. unfold keys in Hscaled.
      rewrite !length_map in Hscaled. rewrite Hscaled. exact Hmany.
    + apply firstn_le_length.
Qed.
End LedgerUpdate.

(** C1. Eleven miners are scored in one round, against a ledger in which the
    client and the stream are registered and the miners have no entry yet.
    The round ends normally, ten weights are committed and the files are
    deleted, but the persisted ledger afterwards is the one from before the
    round: no score of any of the eleven miners has been appended.  With ten
    miners the same round stores one score for each of the ten. *)
Theorem eleven_miners_leave_no_score :
  let E := Demo.collab (Ok Demo.candles) None [] [] 0 in
  let run n := Validator.prediction_request E (Demo.chain n) "uuid-9" (Demo.scoring n)
                 (Demo.world0 n) in
  List.length (Validator.pr_predictions (Demo.scoring 11)) = 11 /\
  fst (run 11) = Ok tt /\
  Validator.bkp (snd (run 11)) = Demo.ledger0 /\
  Validator.disk (snd (run 11)) = [] /\
  flat_map (fun c => match c with
                     | Validator.SetWeights uids weights => [List.length weights]
                     | _ => []
                     end) (Validator.trace (snd (run 11))) = [10] /\
  map (fun c => map (fun st => map (fun m => (miner_id m, List.length (scores m)))
                                (miners st))
                 (streams c))
      (clients (Validator.bkp (snd (run 10))))
  = [[map (fun m => (m, 1)) (firstn 10 Demo.miner_names)]].
Proof. repeat split. Qed.

(** * Further properties *)

(** ** bybit_data.py *)

Module ByBitMore.
Import ByBitData ByBitStructure Demo.

Section Calls.
Variable exchange : nat -> query -> http.

(** What one call leaves behind: its first request, then [j] retries that
    all ask with the default limit, and the [j] sleeps before them. *)
Lemma get_data_shape symbol interval start end_ retries limit w :
  exists j,
    j <= 5 - retries /\
    issued (snd (get_data exchange symbol interval start end_ retries limit w))
    = (issued w ++ mkQuery symbol interval start end_ limit
                   :: repeat (mkQuery symbol interval start end_ 1000) j)%list /\
    slept (snd (get_data exchange symbol interval start end_ retries limit w))
    = (slept w ++ seq retries j)%list.
Proof.
  funelim (get_data exchange symbol interval start end_ retries limit w);
    try (exists 0; simpl; rewrite ?app_nil_r; repeat split; [lia | reflexivity ..]).
  match goal with
  | IH : exists j, _ |- _ => destruct IH as [j [Hj [Hi Hs]]]
  end.
  exists (S j). split; [lia |].
  destruct (get_data _ _ _ _ _ _ _ _) as [[v | e'] w2]; simpl in *;
    rewrite Hi, Hs, <- !app_assoc; split; reflexivity.
Qed.

(** A request that is answered with 200 and rows ends the call at once. *)
Lemma get_data_first_answer symbol interval start end_ retries limit w rows :
  exchange (List.length (issued w)) (mkQuery symbol interval start end_ limit)
    = Response 200 (Ok rows) ->
  get_data exchange symbol interval start end_ retries limit w
  = (Ok (Some rows),
     mkNet (issued w ++ [mkQuery symbol interval start end_ limit]) (slept w)).
Proof.
  intro Hx.
  funelim (get_data exchange symbol interval start end_ retries limit w);
    match goal with
    | Hq : exchange _ _ = _ |- _ => rewrite Hx in Hq; try discriminate; injection Hq as <- <-
    end;
    match goal with
    | Ht : try_body _ _ = _ |- _ => cbn in Ht; try discriminate; injection Ht as <-
    end.
  reflexivity.
Qed.

(** A request that [requests.get] itself fails on ends the call at once. *)
Lemma get_data_unreachable_now symbol interval start end_ retries limit w e :
  exchange (List.length (issued w)) (mkQuery symbol interval start end_ limit)
    = Unreachable e ->
  get_data exchange symbol interval start end_ retries limit w
  = (Raise e, mkNet (issued w ++ [mkQuery symbol interval start end_ limit]) (slept w)).
Proof.
  intro Hx.
  funelim (get_data exchange symbol interval start end_ retries limit w);
    match goal with
    | Hq : exchange _ _ = _ |- _ => rewrite Hx in Hq; try discriminate; injection Hq as <-
    end.
  reflexivity.
Qed.

(** When every request is refused the call uses up all the attempts that
    [retries] leaves. *)
Lemma get_data_exhausted_count symbol interval start end_ retries limit w :
  (forall n q, exists code body e,
      exchange n q = Response code body /\ try_body code body = Raise e /\
      isinstance_Exception e = true) ->
  fst (get_data exchange symbol interval start end_ retries limit w) = Raise ConnectionError /\
  List.length (issued (snd (get_data exchange symbol interval start end_ retries limit w)))
  = List.length (issued w) + 1 + (5 - retries).
Proof.
  intro Hx.
  funelim (get_data exchange symbol interval start end_ retries limit w);
    match goal with
    | Hq : exchange ?n ?q = _ |- _ =>
        destruct (Hx n q) as [code' [body' [e' [Hq' [Hb' He']]]]];
        rewrite Hq in Hq'; try discriminate; injection Hq' as <- <-
    end; try congruence.
  - match goal with
    | IH : _ -> _ /\ _ |- _ => destruct (IH Hx) as [IH1 IH2]
    end.
    destruct (get_data _ _ _ _ _ _ _ _) as [[v | e''] w2]; simpl fst in *; simpl snd in *;
      [discriminate |].
    split; [congruence |].
    rewrite IH2. unfold time_sleep. cbn [issued]. rewrite length_app.
    cbn [List.length]. lia.
  - split; [reflexivity |]. cbn [snd issued]. rewrite length_app.
    cbn [List.length]. lia.
Qed.
(** An exception of the call is decided by the answer to its last request. *)
Lemma get_data_raise_origin symbol interval start end_ retries limit w e :
  fst (get_data exchange symbol interval start end_ retries limit w) = Raise e ->
  exists pre q,
    issued (snd (get_data exchange symbol interval start end_ retries limit w))
    = (pre ++ [q])%list /\
    match exchange (List.length pre) q with
    | Unreachable e' => e = e'
    | Response status_code body =>
        exists e', try_body status_code body = Raise e' /\
                   if isinstance_Exception e'
                   then e = ConnectionError /\
                        List.length pre = List.length (issued w) + (5 - retries)
                   else e = e'
    end.
Proof.
  funelim (get_data exchange symbol interval start end_ retries limit w);
    cbn [fst snd]; intro He.
  - injection He as <-. eexists; eexists. split; [reflexivity |].
    cbn [issued]. rewrite H. reflexivity.
  - discriminate He.
  - injection He as <-. eexists; eexists. split; [reflexivity |].
    cbn [issued]. rewrite H. exists e. split; [assumption |].
    match goal with Hi : isinstance_Exception _ = false |- _ => rewrite Hi end.
    reflexivity.
  - destruct (get_data _ _ _ _ _ _ _ _) as [[v | e'] w2] eqn:Hrec;
      cbn [fst snd] in *; [discriminate He |].
    injection He as <-.
    match goal with
    | IH : forall e, Raise _ = Raise e -> _ |- _ =>
        destruct (IH e' eq_refl) as [pre [q [Hi Hq]]]
    end.
    exists pre, q. split; [exact Hi |].
    destruct (exchange (List.length pre) q) as [e1 | code1 body1]; [exact Hq |].
    destruct Hq as [e1 [Hb Hq]]. exists e1. split; [exact Hb |].
    destruct (isinstance_Exception e1); [| exact Hq].
    destruct Hq as [Hq1 Hq2]. split; [exact Hq1 |].
    rewrite Hq2. unfold time_sleep. cbn [issued]. rewrite length_app.
    cbn [List.length]. lia.
  - injection He as <-. eexists; eexists. split; [reflexivity |].
    cbn [issued]. rewrite H.
    match goal with Hb : try_body _ _ = Raise ?x |- _ => exists x; split; [exact Hb |] end.
    match goal with Hi : isinstance_Exception _ = true |- _ => rewrite Hi end.
    split; [reflexivity | lia].
Qed.
End Calls.

(** X1. [get_data] returns rows if and only if the very first request of the
    call is answered with status 200 and those rows; it then has issued that
    one request and has not slept. *)
Theorem get_data_rows_iff_first_request_succeeds :
  forall (exchange : nat -> query -> http) symbol interval start end_ retries limit
         (w : net) (rows : list kline),
    (fst (get_data exchange symbol interval start end_ retries limit w) = Ok (Some rows)
     <->
     exchange (List.length (issued w)) (mkQuery symbol interval start end_ limit)
     = Response 200 (Ok rows)) /\
    (fst (get_data exchange symbol interval start end_ retries limit w) = Ok (Some rows) ->
     snd (get_data exchange symbol interval start end_ retries limit w)
     = mkNet (issued w ++ [mkQuery symbol interval start end_ limit]) (slept w)).
Proof.
  intros. split; [split |].
  - apply ByBitFacts.get_data_rows_only_at_once.
  - intro Hx. rewrite (get_data_first_answer _ _ _ _ _ _ _ _ Hx). reflexivity.
  - intro Hf. apply ByBitFacts.get_data_rows_only_at_once in Hf.
    rewrite (get_data_first_answer _ _ _ _ _ _ _ _ Hf). reflexivity.
Qed.

(** X2. When the exchange refuses every request, [get_data] raises
    [ConnectionError] after [6 - retries] requests (one request when
    [retries] is already 5 or more). *)
Theorem get_data_gives_up_after_six_attempts :
  forall (exchange : nat -> query -> http) symbol interval start end_ retries limit
         (w : net),
    (forall n q, exists code body e,
        exchange n q = Response code body /\ try_body code body = Raise e /\
        isinstance_Exception e = true) ->
    fst (get_data exchange symbol interval start end_ retries limit w)
    = Raise ConnectionError /\
    List.length (issued (snd (get_data exchange symbol interval start end_ retries limit w)))
    = List.length (issued w) + 1 + (5 - retries).
Proof. intros. apply get_data_exhausted_count. assumption. Qed.

Lemma get_data_gives_up_after_six_attempts_witness :
  fst (get_data down "BTCUSD" 5 None None 0 1000 net0) = Raise ConnectionError /\
  List.length (issued (snd (get_data down "BTCUSD" 5 None None 0 1000 net0))) = 6.
Proof.
  apply (get_data_gives_up_after_six_attempts down "BTCUSD" 5 None None 0 1000 net0).
  intros n q. exists 503%Z, (Raise ValueError), Exception_. repeat split.
Defined.

(** X3. Whatever the exchange answers, one call of [get_data] issues its
    first request with the caller's limit, then at most [5 - retries] further
    requests, each with limit 1000 whatever limit the caller gave, and before
    them it sleeps [retries], [retries + 1], ... seconds. *)
Theorem get_data_requests_and_backoff :
  forall (exchange : nat -> query -> http) symbol interval start end_ retries limit
         (w : net),
    exists j,
      j <= 5 - retries /\
      issued (snd (get_data exchange symbol interval start end_ retries limit w))
      = (issued w ++ mkQuery symbol interval start end_ limit
                     :: repeat (mkQuery symbol interval start end_ 1000) j)%list /\
      slept (snd (get_data exchange symbol interval start end_ retries limit w))
      = (slept w ++ seq retries j)%list.
Proof. intros. apply get_data_shape. Qed.

(** X4. Where an exception of [get_data] comes from: it is decided by the
    answer to the last request the call made.  Either [requests.get] itself
    raised there, which is never retried; or the body of the [try] raised
    something that is no [Exception], which is passed on; or the request was
    refused, and then the exception is [ConnectionError] and the call has used
    up all the [6 - retries] attempts (one attempt when [retries] is 5 or
    more). *)
Theorem get_data_exception_comes_from_last_request :
  forall (exchange : nat -> query -> http) symbol interval start end_ retries limit
         (w : net) (e : exn),
    fst (get_data exchange symbol interval start end_ retries limit w) = Raise e ->
    exists pre q,
      issued (snd (get_data exchange symbol interval start end_ retries limit w))
      = (pre ++ [q])%list /\
      match exchange (List.length pre) q with
      | Unreachable e' => e = e'
      | Response status_code body =>
          exists e', try_body status_code body = Raise e' /\
                     if isinstance_Exception e'
                     then e = ConnectionError /\
                          List.length pre = List.length (issued w) + (5 - retries)
                     else e = e'
      end.
Proof. intros. apply get_data_raise_origin. assumption. Qed.

Lemma get_data_exception_comes_from_last_request_witness :
  exists pre q,
    issued (snd (get_data unplugged "BTCUSD" 5 None None 0 1000 net0)) = (pre ++ [q])%list /\
    match unplugged (List.length pre) q with
    | Unreachable e' => OSError = e'
    | Response status_code body =>
        exists e', try_body status_code body = Raise e' /\
                   if isinstance_Exception e'
                   then OSError = ConnectionError /\
                        List.length pre = List.length (issued net0) + (5 - 0)
                   else OSError = e'
    end.
Proof.
  apply (get_data_exception_comes_from_last_request unplugged "BTCUSD" 5 None None 0 1000
           net0).
  rewrite (get_data_unreachable_now unplugged "BTCUSD" 5 None None 0 1000 net0
             (e := OSError) eq_refl).
  reflexivity.
Defined.

(** X5. In [get_data_and_structure_data_points], once the first request is
    refused the rows of no later answer reach the conversion: either the
    fetch raises and so does the call, or the conversion is handed [None]
    with the column order 1, 2, 3, 5. *)
Theorem refused_first_request_converts_no_rows :
  forall (exchange : nat -> query -> http) (STANDARD_TF : Z) (sample : Type)
         (convert : list (list sample) -> option (list kline) -> list nat ->
                    result (list (list sample)))
         symbol (data_structure : list (list sample)) (ts_range : Z * Z) (w : net)
         code body e,
    exchange (List.length (issued w))
      (mkQuery symbol STANDARD_TF (Some (fst ts_range)) (Some (snd ts_range)) 1000)
    = Response code body ->
    try_body code body = Raise e ->
    let fetched := fst (get_data exchange symbol STANDARD_TF (Some (fst ts_range))
                          (Some (snd ts_range)) 0 1000 w) in
    let filled := fst (get_data_and_structure_data_points exchange STANDARD_TF convert
                         symbol data_structure ts_range w) in
    (fetched = Ok None /\ filled = convert data_structure None [1; 2; 3; 5]) \/
    (exists e', fetched = Raise e' /\ filled = Raise e').
Proof.
  intros exchange STANDARD_TF sample convert symbol data_structure ts_range w code body e
    Hx Hb fetched filled.
  subst fetched filled. unfold get_data_and_structure_data_points.
  destruct (get_data exchange symbol STANDARD_TF (Some (fst ts_range))
              (Some (snd ts_range)) 0 1000 w) as [[[rows |] | e'] w1] eqn:Hg; simpl.
  - exfalso.
    assert (Hf : fst (get_data exchange symbol STANDARD_TF (Some (fst ts_range))
                        (Some (snd ts_range)) 0 1000 w) = Ok (Some rows))
      by (rewrite Hg; reflexivity).
    apply ByBitFacts.get_data_rows_only_at_once in Hf.
    rewrite Hx in Hf. injection Hf as -> ->. cbn in Hb. discriminate.
  - left. split; reflexivity.
  - right. exists e'. split; reflexivity.
Qed.

Lemma refused_first_request_converts_no_rows_witness :
  fst (get_data_and_structure_data_points (flaky 1 sample_rows) 5 append_fields
         "BTCUSD" [[]; []; []; []] (0, 300000)%Z net0)
  = Raise AttributeError.
Proof.
  destruct (refused_first_request_converts_no_rows (flaky 1 sample_rows) 5 append_fields
              "BTCUSD" [[]; []; []; []] (0, 300000)%Z net0
              (code := 500%Z) (body := Raise ValueError) (e := Exception_)
              eq_refl eq_refl) as [[_ Hfill] | [e' [Hfetch _]]].
  - exact Hfill.
  - vm_compute in Hfetch. discriminate.
Defined.

End ByBitMore.

(** ** validator.py: the rounds of the three kinds of request *)

Section Both.
Import Validator.
Variable F : Float.
Variables R1 R2 : world F -> world F -> Prop.

Lemma both_refl :
  (forall w, R1 w w) -> (forall w, R2 w w) -> forall w, both R1 R2 w w.
Proof. intros H1 H2 w. split; auto. Qed.

Lemma both_trans :
  (forall a b c, R1 a b -> R1 b c -> R1 a c) ->
  (forall a b c, R2 a b -> R2 b c -> R2 a c) ->
  forall a b c, both R1 R2 a b -> both R1 R2 b c -> both R1 R2 a c.
Proof. intros H1 H2 a b c [A1 A2] [B1 B2]. split; eauto. Qed.
End Both.

Section TrainingRound.
Import Validator.
Variables (F : Float) (E : collaborators F) (C : setup).
Variable drawn : string.

Let R := both (@same_disk F) (emits (training_call (F:=F) drawn)).

Lemma training_request_calls r : keeps R (training_request E C drawn r).
Proof.
  unfold training_request, fill.
  pose proof (@both_refl F _ _ (@same_disk_refl F)
                (emits_refl (training_call drawn))) as Hr.
  pose proof (@both_trans F _ _ (@same_disk_trans F)
                (@emits_trans F (training_call drawn))) as Ht.
  fold R in Hr, Ht.
  keeps_split; one_call; (split; [reflexivity | apply emits_log; reflexivity]).
Qed.
End TrainingRound.

Section TrainingCalls.
Import Validator.
Variables (F : Float) (E : collaborators F) (C : setup).

(** The fetches of [fill], one for each time range, in order. *)
Lemma fill_calls symbol : forall (ts_ranges : list (Z * Z)) ds (w : world F),
  exists k,
    trace (snd (fill E symbol ts_ranges ds w))
    = (trace w ++ map (GetDataAndStructureDataPoints (F:=F) symbol)
                    (firstn k ts_ranges))%list /\
    (is_ok (fst (fill E symbol ts_ranges ds w)) = true -> firstn k ts_ranges = ts_ranges).
Proof.
  unfold fill. induction ts_ranges as [| t ts IH]; intros ds w.
  - exists 0. simpl. rewrite app_nil_r. auto.
  - cbn [for_fold]. unfold bind.
    change (BinanceData_get E symbol ds t w)
      with (get_data_and_structure_data_points E (now w) symbol ds t,
            log (GetDataAndStructureDataPoints symbol t) w).
    destruct (get_data_and_structure_data_points E (now w) symbol ds t) as [ds' | e].
    + destruct (IH ds' (log (GetDataAndStructureDataPoints symbol t) w)) as [k [Ht Hk]].
      exists (S k). rewrite Ht. unfold log. cbn [trace firstn map].
      rewrite <- app_assoc. split; [reflexivity |].
      intro Hok. rewrite (Hk Hok). reflexivity.
    + exists 1. unfold log. cbn [trace firstn map fst snd is_ok].
      split; [reflexivity | discriminate].
Qed.

Lemma index_raises {A} (l : list A) (i : nat) e :
  index l i = Raise e -> e = IndexError.
Proof.
  unfold index. destruct (nth_error l i); [discriminate |].
  intro H. injection H as <-. reflexivity.
Qed.

(** What a training round that ends normally has done. *)
Lemma training_request_made u (r : TrainingRequest) (w : world F) :
  fst (training_request E C u r w) = Ok tt ->
  let sid := stream_hash E C (tr_stream_type r) in
  let days := randomize_days E (now w) true in
  let results_fetch :=
    GetDataAndStructureDataPoints (F:=F) (tr_stream_type r)
      (results_window E (snd (fst days)) (tr_prediction_size r)) in
  exists sds tail,
    trace (snd (training_request E C u r w))
    = (trace w
       ++ RandomizeDays true
          :: map (GetDataAndStructureDataPoints (F:=F) (tr_stream_type r)) (snd days)
       ++ DendriteQuery (axons C)
            (TrainingForward u sid sds (tr_topic_id r) (tr_feature_ids r)
               (tr_schema_id r) (tr_prediction_size r))
          :: tail)%list /\
    (tail = [] \/ tail = [results_fetch] \/
     exists samples,
       tail = [results_fetch;
               DendriteQuery (axons C)
                 (TrainingBackward u sid samples (tr_topic_id r))]) /\
    ((forall n s ds t,
         get_data_and_structure_data_points E n s ds t <> Raise RuntimeError) ->
     (forall n targets message,
         dendrite_query E n targets message <> Raise RuntimeError) ->
     (forall column vmin vmax, scale_values E column vmin vmax <> Raise RuntimeError) ->
     exists samples,
       tail = [results_fetch;
               DendriteQuery (axons C)
                 (TrainingBackward u sid samples (tr_topic_id r))]).
Proof.
  intros Hok sid days results_fetch.
  remember (training_request E C u r w) as run eqn:Hrun.
  unfold training_request in Hrun.
  unfold bind at 1, ValiUtils_randomize_days in Hrun. fold days in Hrun.
  destruct days as [[start_dt end_dt] ts_ranges] eqn:Hdays.
  cbn [fst snd] in results_fetch |- *.
  unfold bind at 1 in Hrun.
  destruct (fill_calls (tr_stream_type r) ts_ranges (get_standardized_ds E)
              (log (RandomizeDays true) w)) as [k [Hfill Hall]].
  destruct (fill E (tr_stream_type r) ts_ranges (get_standardized_ds E)
              (log (RandomizeDays true) w)) as [[ds | e] w2];
    [| subst run; discriminate Hok].
  cbn [fst snd is_ok] in Hfill, Hall. rewrite (Hall eq_refl) in Hfill. clear Hall k.
  assert (Ht2 : trace w2
                = (trace w ++ RandomizeDays true
                     :: map (GetDataAndStructureDataPoints (F:=F) (tr_stream_type r))
                          ts_ranges)%list).
  { rewrite Hfill. unfold log. cbn [trace]. rewrite <- app_assoc. reflexivity. }
  clear Hfill.
  unfold bind at 1, lift at 1 in Hrun.
  destruct (scale_data_structure E ds) as [[[[vmins vmaxs] dps] sds] | e];
    [| subst run; discriminate Hok].
  fold sid in Hrun.
  set (forward := DendriteQuery (axons C)
                    (TrainingForward u sid sds (tr_topic_id r) (tr_feature_ids r)
                       (tr_schema_id r) (tr_prediction_size r))) in *.
  exists sds.
  (* the outcome of the [try] block decides the rest *)
  assert (Hshape : forall tail (w' : world F),
             snd run = w' ->
             trace w' = (trace w2 ++ forward :: tail)%list ->
             trace (snd run)
             = (trace w
                ++ RandomizeDays true
                   :: map (GetDataAndStructureDataPoints (F:=F) (tr_stream_type r))
                        ts_ranges
                ++ forward :: tail)%list).
  { intros tail w' -> Ht. rewrite Ht, Ht2, <- app_assoc. reflexivity. }
  unfold try_except in Hrun. unfold bind at 1, dendrite_query_axons in Hrun.
  fold forward in Hrun.
  destruct (dendrite_query E (now w2) (axons C) _) as [responses | e] eqn:Hq.
  2:{ exists []. split; [| split; [left; reflexivity |]].
      - apply (Hshape [] (log forward w2)); [| reflexivity].
        subst run. destruct (isinstance_RuntimeError e); reflexivity.
      - intros _ Hquery _. exfalso.
        destruct e; try (subst run; discriminate Hok). exact (Hquery _ _ _ Hq). }
  unfold bind at 1, BinanceData_get in Hrun. fold results_fetch in Hrun.
  set (w4 := log results_fetch (log forward w2)) in *.
  assert (Ht4 : trace w4 = (trace w2 ++ [forward; results_fetch])%list).
  { unfold w4, log. cbn [trace]. rewrite <- app_assoc. reflexivity. }
  assert (Hhalf : forall e,
             run = (if isinstance_RuntimeError e
                    then ret tt w4 else (Raise e, w4)) ->
             e <> RuntimeError ->
             False).
  { intros e -> Hne. destruct e; try discriminate Hok. apply Hne. reflexivity. }
  assert (Hstop : forall e,
             run = (if isinstance_RuntimeError e
                    then ret tt w4 else (Raise e, w4)) ->
             trace (snd run)
             = (trace w
                ++ RandomizeDays true
                   :: map (GetDataAndStructureDataPoints (F:=F) (tr_stream_type r))
                        ts_ranges
                ++ forward :: [results_fetch])%list).
  { intros e ->. apply (Hshape [results_fetch] w4); [| exact Ht4].
    destruct (isinstance_RuntimeError e); reflexivity. }
  destruct (get_data_and_structure_data_points E _ _ _ _) as [results_ds | e] eqn:Hfetch.
  2:{ exists [results_fetch].
      split; [exact (Hstop e Hrun) |]. split; [right; left; reflexivity |].
      intros Hmarket _ _. exfalso. apply (Hhalf e Hrun).
      intros ->. exact (Hmarket _ _ _ _ Hfetch). }
  unfold bind at 1, lift at 1 in Hrun.
  destruct (index results_ds 0) as [column | e] eqn:Hindex.
  2:{ exists [results_fetch].
      split; [exact (Hstop e Hrun) |]. split; [right; left; reflexivity |].
      intros _ _ _. exfalso. apply (Hhalf e Hrun).
      apply index_raises in Hindex. subst e. discriminate. }
  clear Hindex.
  unfold bind at 1, lift at 1 in Hrun.
  destruct (index vmins 0) as [vmin | e] eqn:Hindex.
  2:{ exists [results_fetch].
      split; [exact (Hstop e Hrun) |]. split; [right; left; reflexivity |].
      intros _ _ _. exfalso. apply (Hhalf e Hrun).
      apply index_raises in Hindex. subst e. discriminate. }
  clear Hindex.
  unfold bind at 1, lift at 1 in Hrun.
  destruct (index vmaxs 0) as [vmax | e] eqn:Hindex.
  2:{ exists [results_fetch].
      split; [exact (Hstop e Hrun) |]. split; [right; left; reflexivity |].
      intros _ _ _. exfalso. apply (Hhalf e Hrun).
      apply index_raises in Hindex. subst e. discriminate. }
  clear Hindex.
  unfold bind at 1, lift at 1 in Hrun.
  destruct (scale_values E column vmin vmax) as [[[lo hi] samples] | e] eqn:Hscale.
  2:{ exists [results_fetch].
      split; [exact (Hstop e Hrun) |]. split; [right; left; reflexivity |].
      intros _ _ Hscaling. exfalso. apply (Hhalf e Hrun).
      intros ->. exact (Hscaling _ _ _ Hscale). }
  clear Hhalf Hstop.
  unfold bind at 1, dendrite_query_axons in Hrun.
  set (backward := DendriteQuery (axons C)
                     (TrainingBackward u sid samples (tr_topic_id r))) in *.
  exists [results_fetch; backward].
  split; [| split; [right; right; exists samples; reflexivity
                   | intros _ _ _; exists samples; reflexivity]].
  apply (Hshape [results_fetch; backward] (log backward w4)).
  - subst run. destruct (dendrite_query E (now w4) (axons C) _) as [answers | e];
      [reflexivity |].
    destruct (isinstance_RuntimeError e); reflexivity.
  - unfold log at 1. cbn [trace]. rewrite Ht4, <- app_assoc. reflexivity.
Qed.
End TrainingCalls.

(** X6. The round of a TrainingRequest draws its request uuid, asks for
    historical days, fetches candles and queries the miners with a
    TrainingForward and a TrainingBackward message that both carry the uuid
    drawn; it makes no other call (nothing is scored, stored, removed or
    committed) and leaves the prediction files alone.  A round that ends
    normally has drawn the uuid, asked for historical days, fetched every time
    range of those days and sent the TrainingForward message, in this order;
    after that it has fetched the results window and sent the TrainingBackward
    message, unless one of these steps raised the [RuntimeError] that the
    round swallows. *)
Theorem training_round_ties_its_messages :
  forall (F : Float) (E : Validator.collaborators F) (C : Validator.setup)
         (r : Validator.TrainingRequest) (w : Validator.world F),
    let run := Validator.validate E C (Validator.Training r) w in
    let u := Validator.uuid4 E (Validator.now w) in
    let sid := Validator.stream_hash E C (Validator.tr_stream_type r) in
    let days := Validator.randomize_days E (S (Validator.now w)) true in
    let results_fetch :=
      Validator.GetDataAndStructureDataPoints (F:=F) (Validator.tr_stream_type r)
        (Validator.results_window E (snd (fst days)) (Validator.tr_prediction_size r)) in
    Validator.disk (snd run) = Validator.disk w /\
    (exists calls,
        Validator.trace (snd run) = (Validator.trace w ++ calls)%list /\
        Forall (training_call u) calls) /\
    (fst run = Ok tt ->
     exists sds tail,
       Validator.trace (snd run)
       = (Validator.trace w
          ++ Validator.Uuid4 u
             :: Validator.RandomizeDays true
             :: map (Validator.GetDataAndStructureDataPoints (F:=F)
                       (Validator.tr_stream_type r)) (snd days)
          ++ Validator.DendriteQuery (Validator.axons C)
               (Validator.TrainingForward u sid sds (Validator.tr_topic_id r)
                  (Validator.tr_feature_ids r) (Validator.tr_schema_id r)
                  (Validator.tr_prediction_size r))
             :: tail)%list /\
       (tail = [] \/ tail = [results_fetch] \/
        exists samples,
          tail = [results_fetch;
                  Validator.DendriteQuery (Validator.axons C)
                    (Validator.TrainingBackward u sid samples (Validator.tr_topic_id r))]) /\
       ((forall n s ds t,
            Validator.get_data_and_structure_data_points E n s ds t
            <> Raise RuntimeError) ->
        (forall n targets message,
            Validator.dendrite_query E n targets message <> Raise RuntimeError) ->
        (forall column vmin vmax,
            Validator.scale_values E column vmin vmax <> Raise RuntimeError) ->
        exists samples,
          tail = [results_fetch;
                  Validator.DendriteQuery (Validator.axons C)
                    (Validator.TrainingBackward u sid samples
                       (Validator.tr_topic_id r))])).
Proof.
  intros F E C r w run u sid days results_fetch.
  assert (Hfilter : both (@same_disk F) (emits (training_call u)) w (snd run)).
  { subst run. unfold Validator.validate.
    apply (bind_from (both (@same_disk F) (emits (training_call u)))).
    - apply both_trans; [apply same_disk_trans | apply emits_trans].
    - split; [reflexivity | apply emits_log; reflexivity].
    - intros u' w1 H1. unfold Validator.str_uuid4 in H1. injection H1 as <- _.
      apply training_request_calls. }
  destruct Hfilter as [Hdisk Hcalls].
  split; [exact Hdisk |]. split; [exact Hcalls |].
  intro Hok. subst run. unfold Validator.validate, Validator.bind, Validator.str_uuid4 in *.
  fold u in Hok |- *. cbn [fst snd] in Hok |- *.
  destruct (training_request_made E C u r (Validator.log (Validator.Uuid4 u) w) Hok)
    as [sds [tail [Ht [Hshape Hfull]]]].
  rewrite now_log in Ht, Hshape, Hfull. fold sid days results_fetch in Ht, Hshape, Hfull.
  exists sds, tail. split; [| split; [exact Hshape | exact Hfull]].
  rewrite Ht. unfold Validator.log. cbn [Validator.trace].
  rewrite <- app_assoc. reflexivity.
Qed.

Lemma training_round_ties_its_messages_witness :
  let E := Demo.collab (Ok Demo.candles) None [] [] 0 in
  exists sds samples,
    Validator.trace
      (snd (Validator.validate E (Demo.chain 2)
              (Validator.Training (Validator.generate_standard_training_request E))
              (Demo.world0 2)))
    = [Validator.Uuid4 "uuid-0";
       Validator.RandomizeDays true;
       Validator.GetDataAndStructureDataPoints "BTCUSD" (0, 30)%Z;
       Validator.GetDataAndStructureDataPoints "BTCUSD" (30, 60)%Z;
       Validator.DendriteQuery ["m01"; "m02"]
         (Validator.TrainingForward "uuid-0" 15 sds 1 [1; 2; 3; 4; 5]%Z 1 3);
       Validator.GetDataAndStructureDataPoints "BTCUSD" (60000, 960000)%Z;
       Validator.DendriteQuery ["m01"; "m02"]
         (Validator.TrainingBackward (F:=Demo.Zfloat) "uuid-0" 15 samples 1)].
Proof.
  intro E.
  destruct (@training_round_ties_its_messages Demo.Zfloat E (Demo.chain 2)
              (Validator.generate_standard_training_request E) (Demo.world0 2))
    as [_ [_ Hmade]].
  destruct (Hmade eq_refl) as [sds [tail [Ht [_ Hfull]]]].
  destruct Hfull as [samples Htail];
    [intros n s ds t; simpl; discriminate | intros n targets message; simpl; discriminate
    | intros column vmin vmax; simpl; discriminate |].
  exists sds, samples. rewrite Ht. subst tail. reflexivity.
Defined.

(** X7. A validator whose hotkey is not in the metagraph processes nothing:
    [run_time_series_validation] ends with [SystemExit] before the first
    request, whatever the batch, and the tick that called it has only made the
    calls of the scheduler. *)
Theorem unregistered_validator_processes_nothing :
  forall (F : Float) (E : Validator.collaborators F) (C : Validator.setup)
         (second : nat) (w : Validator.world F),
    ~ In (Validator.ss58_address C) (Validator.hotkeys C) ->
    second mod 5 = 0 ->
    let w' := snd (Validator.main_round E C second w) in
    fst (Validator.main_round E C second w) = Raise SystemExit /\
    Validator.bkp w' = Validator.bkp w /\ Validator.disk w' = Validator.disk w /\
    exists calls,
      Validator.trace w' = (Validator.trace w ++ calls)%list /\
      Forall (@scheduler_call F) calls.
Proof.
  intros F E C second w Hreg Hsec w'. subst w'.
  unfold Validator.main_round. rewrite Hsec. change (Nat.eqb 0 0) with true. cbv iota.
  assert (Hrun : forall l w0,
             Validator.run_time_series_validation E C l w0 = (Raise SystemExit, w0)).
  { intros l w0. unfold Validator.run_time_series_validation.
    destruct (existsb _ _) eqn:Hex; [| reflexivity].
    apply existsb_eqb_In in Hex. contradiction. }
  unfold Validator.bind.
  assert (Hs : exists l w1,
             Validator.scheduled_requests E second w = (Ok l, w1) /\
             Validator.bkp w1 = Validator.bkp w /\ Validator.disk w1 = Validator.disk w /\
             emits (@scheduler_call F) w w1).
  { unfold Validator.scheduled_requests, Validator.bind, Validator.get_all_files_in_dir,
      Validator.ValiUtils_get_predictions_to_complete, Validator.random_randint,
      Validator.ret, Validator.log.
    repeat match goal with
           | |- context [if ?b then _ else _] => destruct b
           end; simpl;
      eexists; eexists; (split; [reflexivity |]); simpl;
      (split; [reflexivity |]); (split; [reflexivity |]);
      eexists; (split; [rewrite <- ?app_assoc; reflexivity |]);
      repeat constructor. }
  destruct Hs as [l [w1 [Hs [Hb [Hd He]]]]]. rewrite Hs, Hrun. simpl.
  repeat split; assumption.
Qed.

Lemma unregistered_validator_processes_nothing_witness :
  fst (Validator.main_round (Demo.collab (Ok Demo.candles) None [] [Demo.scoring 2] 0)
         Demo.stranger 0 (Demo.world0 2))
  = Raise SystemExit.
Proof.
  destruct (@unregistered_validator_processes_nothing Demo.Zfloat
              (Demo.collab (Ok Demo.candles) None [] [Demo.scoring 2] 0)
              Demo.stranger 0 (Demo.world0 2)) as [H _].
  - simpl. intuition discriminate.
  - reflexivity.
  - exact H.
Defined.

Section ClientRound.
Import Validator.
Variables (F : Float) (E : collaborators F) (C : setup).
Variables (drawn : string) (r : ClientRequest).

Let P := client_call E C drawn r.
Let client_uuid : string :=
  match cr_client_uuid r with
  | None => ss58_address C
  | Some c => c
  end.

Lemma store_response_calls output_uuid end_dt vmins vmaxs dps
  (i_resp : nat * option (list F)) :
  keeps (emits P)
    (store_response E C drawn output_uuid client_uuid
       (stream_hash E C (cr_stream_type r)) end_dt vmins vmaxs dps r i_resp).
Proof.
  intro w. destruct i_resp as [i resp]. unfold store_response.
  destruct resp as [numpy |]; [| apply emits_refl].
  destruct (Nat.eqb (List.length numpy) (cr_prediction_size r)) eqn:Hlen;
    [| apply emits_refl].
  unfold bind, lift, index.
  destruct (nth_error (axons C) i) as [hotkey |] eqn:Hnth; [| apply emits_refl].
  unfold ValiUtils_save_predictions_request, log.
  destruct (save_predictions_request E _ _ _ _); simpl;
    apply emits_log; simpl;
    (repeat split; [eapply nth_error_In; exact Hnth | apply Nat.eqb_eq; exact Hlen]).
Qed.

Lemma client_request_calls : keeps (emits P) (client_request E C drawn r).
Proof.
  unfold client_request, fill, register_stream, store_responses.
  pose proof (@emits_refl F P) as Hr.
  pose proof (@emits_trans F P) as Ht.
  fold client_uuid.
  keeps_split;
    try apply store_response_calls;
    one_call; apply emits_log; simpl; repeat split.
Qed.
End ClientRound.

(** X8. In the round of a ClientRequest the only message sent is the
    LiveForward of that request, to all axons, under the uuid drawn for the
    round; every record stored carries that same request uuid, the client of
    the request (the validator's own hotkey when the request names none), the
    stream, the hotkey of an axon of the metagraph and exactly
    [prediction_size] predictions; days are historical only when the config
    says so; nothing is scored, committed or removed. *)
Theorem client_round_stores_what_it_asked_for :
  forall (F : Float) (E : Validator.collaborators F) (C : Validator.setup)
         (r : Validator.ClientRequest) (w : Validator.world F),
    exists calls,
      Validator.trace (snd (Validator.validate E C (Validator.Client r) w))
      = (Validator.trace w ++ calls)%list /\
      Forall (client_call E C (Validator.uuid4 E (Validator.now w)) r) calls.
Proof.
  intros F E C r w. unfold Validator.validate.
  remember (Validator.uuid4 E (Validator.now w)) as drawn eqn:Hdrawn.
  apply (bind_from (emits (client_call E C drawn r))).
  - apply emits_trans.
  - apply emits_log. exact I.
  - intros u w1 H1. unfold Validator.str_uuid4 in H1. injection H1 as Hu _.
    rewrite <- Hdrawn in Hu. subst u.
    apply client_request_calls.
Qed.

Section Prefix.
Import Validator.
Variable F : Float.
Variables R1 R2 : world F -> world F -> Prop.
Hypothesis R1_R2 : forall a b, R1 a b -> R2 a b.
Hypothesis R1_then_R2 : forall a b c, R1 a b -> R2 b c -> R2 a c.

(** A first statement that keeps [R1], a continuation that reaches [R2]. *)
Lemma bind_prefix {A B} (m : M F A) (k : A -> M F B) (w : world F) :
  R1 w (snd (m w)) ->
  (forall a w1, m w = (Ok a, w1) -> R2 w1 (snd (k a w1))) ->
  R2 w (snd (bind m k w)).
Proof.
  unfold bind. destruct (m w) as [[a | e] w1] eqn:Hm; simpl; intros H1 H2.
  - eapply R1_then_R2; [exact H1 | apply H2; reflexivity].
  - apply R1_R2. exact H1.
Qed.
End Prefix.

Section Monotone.
Import Validator.
Variable F : Float.

(** A handler that only logs leaves the world of the body. *)
Lemma try_except_logged {A} (body : M F A) cls (a : A) (w : world F) :
  snd (try_except body cls (fun _ => ret a) w) = snd (body w).
Proof.
  unfold try_except. destruct (body w) as [[x | e] w1]; simpl; [reflexivity |].
  destruct (cls e); reflexivity.
Qed.

Lemma emits_In (P : call F -> Prop) (w w' : world F) (c : call F) :
  emits P w w' -> In c (trace w) -> In c (trace w').
Proof.
  intros [calls [Ht _]] Hin. rewrite Ht. apply in_or_app. left. exact Hin.
Qed.
End Monotone.

Section OutputUuid.
Import Validator.
Variables (F : Float) (E : collaborators F) (C : setup).

Let quiet {A} (m : M F A) : Prop := keeps (emits (@stores_nothing F)) m.
Let under (w w' : world F) : Prop := exists out, emits (stored_under (F:=F) out) w w'.

Lemma stores_nothing_under (a b : world F) : emits (@stores_nothing F) a b -> under a b.
Proof.
  intro H. exists "". eapply emits_impl; [| exact H].
  intros c Hc. destruct c; simpl in *; tauto.
Qed.

Lemma stores_nothing_then_under (a b c : world F) :
  emits (@stores_nothing F) a b -> under b c -> under a c.
Proof.
  intros H [out Hu]. exists out. eapply emits_trans; [| exact Hu].
  eapply emits_impl; [| exact H].
  intros x Hx. destruct x; simpl in *; tauto.
Qed.

Lemma store_responses_under u out cid sid end_dt vmins vmaxs dps r responses :
  keeps (emits (stored_under (F:=F) out))
    (store_responses E C u out cid sid end_dt vmins vmaxs dps r responses).
Proof.
  unfold store_responses.
  apply keeps_for_each; [apply emits_refl | apply emits_trans |].
  intros [i resp] _ w. unfold store_response.
  destruct resp as [numpy |]; [| apply emits_refl].
  destruct (Nat.eqb _ _); [| apply emits_refl].
  unfold bind, lift, index.
  destruct (nth_error (axons C) i); [| apply emits_refl].
  unfold ValiUtils_save_predictions_request, log.
  destruct (save_predictions_request E _ _ _ _); simpl; apply emits_log; reflexivity.
Qed.

Lemma quiet_register cid sid tid :
  quiet (try_except (register_stream E cid sid tid) isinstance_Exception
           (fun _ => ret tt)).
Proof.
  unfold quiet, register_stream.
  pose proof (@emits_refl F (@stores_nothing F)) as Hr.
  pose proof (@emits_trans F (@stores_nothing F)) as Ht.
  keeps_split; one_call; apply emits_log; exact I.
Qed.

Lemma quiet_fill symbol ts_ranges ds : quiet (fill E symbol ts_ranges ds).
Proof.
  unfold quiet, fill.
  apply keeps_for_fold; [apply emits_refl | apply emits_trans |].
  intros s x _. one_call; apply emits_log; exact I.
Qed.

Lemma client_request_under u r (w : world F) :
  under w (snd (client_request E C u r w)).
Proof.
  unfold client_request.
  apply (@bind_prefix F _ _ stores_nothing_under stores_nothing_then_under);
    [unfold ValiUtils_randomize_days; apply emits_log; exact I |].
  intros [[start_dt end_dt] ts_ranges] w1 _.
  apply (@bind_prefix F _ _ stores_nothing_under stores_nothing_then_under);
    [apply quiet_fill |].
  intros ds w2 _.
  apply (@bind_prefix F _ _ stores_nothing_under stores_nothing_then_under);
    [apply emits_refl |].
  intros [[[vmins vmaxs] dps] sds] w3 _.
  apply (@bind_prefix F _ _ stores_nothing_under stores_nothing_then_under);
    [apply quiet_register |].
  intros _ w4 _.
  rewrite try_except_logged.
  apply (@bind_prefix F _ _ stores_nothing_under stores_nothing_then_under);
    [unfold dendrite_query_axons; apply emits_log; exact I |].
  intros responses w5 _.
  apply (@bind_prefix F _ _ stores_nothing_under stores_nothing_then_under);
    [unfold str_uuid4; apply emits_log; exact I |].
  intros out w6 _.
  exists out. apply store_responses_under.
Qed.
End OutputUuid.

(** X9. All the records that the round of a ClientRequest stores go under one
    and the same output uuid, however many miners answered. *)
Theorem client_round_stores_under_one_uuid :
  forall (F : Float) (E : Validator.collaborators F) (C : Validator.setup)
         (r : Validator.ClientRequest) (w : Validator.world F),
    exists output_uuid calls,
      Validator.trace (snd (Validator.validate E C (Validator.Client r) w))
      = (Validator.trace w ++ calls)%list /\
      forall o pdf, In (Validator.SavePredictionsRequest o pdf) calls -> o = output_uuid.
Proof.
  intros F E C r w.
  assert (H : exists out,
             emits (stored_under (F:=F) out) w
               (snd (Validator.validate E C (Validator.Client r) w))).
  { unfold Validator.validate.
    apply (@bind_prefix F _ _ (@stores_nothing_under F) (@stores_nothing_then_under F)).
    - unfold Validator.str_uuid4. apply emits_log. exact I.
    - intros u w1 _. apply client_request_under. }
  destruct H as [out [calls [Ht Hc]]]. exists out, calls. split; [exact Ht |].
  intros o pdf Hin. rewrite Forall_forall in Hc. apply (Hc _ Hin).
Qed.

(** ** validator.py: registering the client and the stream *)

Section Register.
Import Validator.
Variables (F : Float) (E : collaborators F).

Lemma find_snoc {A} (f : A -> bool) (l : list A) (x : A) :
  find f (l ++ [x]) = match find f l with
                      | Some y => Some y
                      | None => if f x then Some x else None
                      end.
Proof.
  induction l as [| y l IH]; simpl; [reflexivity |].
  destruct (f y); [reflexivity | exact IH].
Qed.

(** Looking a client up after the object of the client [cid] was changed
    into [c']. *)
Lemma get_client_put (cid k : string) (c c' : CMWClient F) (l : list (CMWClient F)) :
  find (fun x => String.eqb cid (client_uuid x)) l = Some c ->
  client_uuid c' = cid ->
  find (fun x => String.eqb k (client_uuid x)) (put_client c' l)
  = if String.eqb k cid then Some c'
    else find (fun x => String.eqb k (client_uuid x)) l.
Proof.
  intros Hfind Huid. induction l as [| x l IH]; simpl in *; [discriminate |].
  rewrite Huid.
  destruct (String.eqb_spec cid (client_uuid x)) as [Hx | Hx].
  - simpl. rewrite Huid.
    destruct (String.eqb_spec k cid) as [-> | Hk]; [reflexivity |].
    destruct (String.eqb_spec k (client_uuid x)); [congruence | reflexivity].
  - simpl. rewrite (IH Hfind).
    destruct (String.eqb_spec k (client_uuid x)) as [-> | Hk];
      [| reflexivity].
    destruct (String.eqb_spec (client_uuid x) cid); [congruence | reflexivity].
Qed.

(** What the registration writes, when the ledger can be read and written. *)
Lemma register_stream_writes cid sid tid (w : world F) :
  get_vali_records_fault E (now w) = None ->
  set_vali_memory_and_bkp_fault E (S (now w)) = None ->
  exists vm',
    register_stream E cid sid tid w
    = (Ok tt, mkWorld (trace w ++ [GetValiRecords; SetValiMemoryAndBkp vm']) vm' (disk w)) /\
    vm' = match get_client cid (bkp w) with
          | None => add_client (mkClient cid [mkStream sid tid []]) (bkp w)
          | Some client =>
              match get_stream sid client with
              | None => with_client (add_stream (mkStream sid tid []) client) (bkp w)
              | Some _ => bkp w
              end
          end.
Proof.
  intros Hread Hwrite. eexists. split; [| reflexivity].
  unfold register_stream, bind, ValiUtils_get_vali_records,
    ValiUtils_set_vali_memory_and_bkp.
  rewrite Hread. rewrite now_log, Hwrite. unfold log. simpl.
  rewrite <- app_assoc. reflexivity.
Qed.

(** The written ledger holds the pair, and every stream that could be looked
    up before can still be looked up and is the same. *)
Lemma registered_ledger cid sid tid (vm : CMW F) :
  let vm' := match get_client cid vm with
             | None => add_client (mkClient cid [mkStream sid tid []]) vm
             | Some client =>
                 match get_stream sid client with
                 | None => with_client (add_stream (mkStream sid tid []) client) vm
                 | Some _ => vm
                 end
             end in
  (exists c st, get_client cid vm' = Some c /\ get_stream sid c = Some st) /\
  (forall cid' sid' c0 st0,
      get_client cid' vm = Some c0 -> get_stream sid' c0 = Some st0 ->
      exists c1, get_client cid' vm' = Some c1 /\ get_stream sid' c1 = Some st0).
Proof.
  intro vm'. subst vm'.
  destruct (get_client cid vm) as [client |] eqn:Hc.
  - destruct (get_stream sid client) as [st |] eqn:Hs.
    + split; [exists client, st; auto |].
      intros cid' sid' c0 st0 H0 H1. exists c0. auto.
    + assert (Huid : client_uuid (add_stream (mkStream sid tid []) client) = cid).
      { unfold get_client in Hc. apply find_some in Hc. destruct Hc as [_ Hc].
        apply String.eqb_eq in Hc. simpl. symmetry. exact Hc. }
      unfold get_client in Hc.
      split.
      * exists (add_stream (mkStream sid tid []) client), (mkStream sid tid []).
        split.
        -- unfold get_client, with_client. simpl clients.
           rewrite (@get_client_put cid _ _ _ _ Hc Huid), String.eqb_refl. reflexivity.
        -- unfold get_stream, add_stream. simpl streams. rewrite find_snoc.
           unfold get_stream in Hs. rewrite Hs. simpl. rewrite Z.eqb_refl. reflexivity.
      * intros cid' sid' c0 st0 H0 H1.
        unfold get_client, with_client. simpl clients.
        rewrite (@get_client_put cid _ _ _ _ Hc Huid).
        destruct (String.eqb_spec cid' cid) as [-> | Hne].
        -- unfold get_client in H0. rewrite Hc in H0. injection H0 as <-.
           eexists. split; [reflexivity |].
           unfold get_stream, add_stream in *. simpl streams. rewrite find_snoc, H1.
           reflexivity.
        -- exists c0. split; assumption.
  - split.
    + exists (mkClient cid [mkStream sid tid []]), (mkStream sid tid []).
      split.
      * unfold get_client, add_client in *. simpl clients. rewrite find_snoc, Hc.
        simpl. rewrite String.eqb_refl. reflexivity.
      * unfold get_stream. simpl. rewrite Z.eqb_refl. reflexivity.
    + intros cid' sid' c0 st0 H0 H1. exists c0. split; [| exact H1].
      unfold get_client, add_client in *. simpl clients. rewrite find_snoc, H0.
      reflexivity.
Qed.
End Register.

(** X10. When the ledger can be read and written, the registration step of a
    ClientRequest round leaves a persisted ledger in which the client and its
    stream can be looked up, and in which every stream that could be looked up
    before, with all the miners recorded in it, is still found unchanged. *)
Theorem registration_adds_without_losing :
  forall (F : Float) (E : Validator.collaborators F) (cid : string) (sid tid : Z)
         (w : Validator.world F),
    Validator.get_vali_records_fault E (Validator.now w) = None ->
    Validator.set_vali_memory_and_bkp_fault E (S (Validator.now w)) = None ->
    let run := Validator.register_stream E cid sid tid w in
    fst run = Ok tt /\
    (exists c st, get_client cid (Validator.bkp (snd run)) = Some c /\
                  get_stream sid c = Some st) /\
    (forall cid' sid' c0 st0,
        get_client cid' (Validator.bkp w) = Some c0 -> get_stream sid' c0 = Some st0 ->
        exists c1, get_client cid' (Validator.bkp (snd run)) = Some c1 /\
                   get_stream sid' c1 = Some st0).
Proof.
  intros F E cid sid tid w Hread Hwrite run.
  destruct (register_stream_writes E cid sid tid w Hread Hwrite) as [vm' [Hrun Hvm]].
  subst run. rewrite Hrun. simpl. split; [reflexivity |].
  rewrite Hvm. apply registered_ledger.
Qed.

Lemma registration_adds_without_losing_witness :
  let run := Validator.register_stream (Demo.collab (Ok Demo.candles) None [] [] 0)
               "client-2" 7 1 (Demo.world0 1) in
  exists c st, get_client "client-2" (Validator.bkp (snd run)) = Some c /\
               get_stream 7 c = Some st.
Proof.
  intro run.
  destruct (@registration_adds_without_losing Demo.Zfloat
              (Demo.collab (Ok Demo.candles) None [] [] 0) "client-2" 7 1 (Demo.world0 1)
              eq_refl eq_refl) as [_ [H _]].
  exact H.
Defined.

(** X11. Registering the same client and stream a second time changes
    nothing: the ledger persisted after the second registration is the one
    persisted after the first. *)
Theorem registration_twice_is_once :
  forall (F : Float) (E : Validator.collaborators F) (cid : string) (sid tid tid' : Z)
         (w : Validator.world F),
    (forall n, Validator.get_vali_records_fault E n = None) ->
    (forall n, Validator.set_vali_memory_and_bkp_fault E n = None) ->
    let w1 := snd (Validator.register_stream E cid sid tid w) in
    let w2 := snd (Validator.register_stream E cid sid tid' w1) in
    Validator.bkp w2 = Validator.bkp w1.
Proof.
  intros F E cid sid tid tid' w Hread Hwrite w1 w2.
  destruct (register_stream_writes E cid sid tid' w1 (Hread _) (Hwrite _))
    as [vm2 [Hrun2 Hvm2]].
  destruct (register_stream_writes E cid sid tid w (Hread _) (Hwrite _))
    as [vm1 [Hrun1 Hvm1]].
  destruct (registered_ledger cid sid tid (Validator.bkp w)) as [[c [st [Hc Hs]]] _].
  rewrite <- Hvm1 in Hc.
  assert (Hb1 : Validator.bkp w1 = vm1) by (subst w1; rewrite Hrun1; reflexivity).
  subst w2. rewrite Hrun2. simpl. rewrite Hvm2, Hb1, Hc, Hs. reflexivity.
Qed.

Lemma registration_twice_is_once_witness :
  let E := Demo.collab (Ok Demo.candles) None [] [] 0 in
  let w1 := snd (Validator.register_stream E "client-2" 7 1 (Demo.world0 1)) in
  Validator.bkp (snd (Validator.register_stream E "client-2" 7 2 w1)) = Validator.bkp w1.
Proof.
  intros E w1.
  apply (@registration_twice_is_once Demo.Zfloat E "client-2" 7 1 2 (Demo.world0 1)).
  - intro n. reflexivity.
  - intro n. reflexivity.
Defined.

Section RegistrationFails.
Import Validator.
Variables (F : Float) (E : collaborators F) (C : setup).

Hypothesis fetch_ok :
  forall n s ds t, is_ok (get_data_and_structure_data_points E n s ds t) = true.
Hypothesis scale_ok : forall ds, is_ok (scale_data_structure E ds) = true.
Hypothesis read_fault :
  forall n e, get_vali_records_fault E n = Some e -> isinstance_Exception e = true.
Hypothesis write_fault :
  forall n e, set_vali_memory_and_bkp_fault E n = Some e -> isinstance_Exception e = true.

Lemma fill_ok symbol ts_ranges : forall ds (w : world F),
  is_ok (fst (fill E symbol ts_ranges ds w)) = true.
Proof.
  unfold fill. induction ts_ranges as [| t ts IH]; intros ds w; simpl; [reflexivity |].
  unfold bind, BinanceData_get at 1.
  pose proof (fetch_ok (now w) symbol ds t) as Hf.
  destruct (get_data_and_structure_data_points E (now w) symbol ds t) as [ds' | e];
    [| discriminate].
  apply IH.
Qed.

Lemma registration_never_escapes cid sid tid (w : world F) :
  fst (try_except (register_stream E cid sid tid) isinstance_Exception
         (fun _ => ret tt) w) = Ok tt.
Proof.
  unfold try_except, register_stream, bind, ValiUtils_get_vali_records.
  destruct (get_vali_records_fault E (now w)) as [e |] eqn:Hr.
  - rewrite (read_fault _ Hr). reflexivity.
  - unfold ValiUtils_set_vali_memory_and_bkp.
    destruct (set_vali_memory_and_bkp_fault E _) as [e |] eqn:Hw.
    + rewrite (write_fault _ Hw). reflexivity.
    + reflexivity.
Qed.

Lemma store_responses_grows u out cid sid end_dt vmins vmaxs dps r responses :
  keeps (emits (fun _ : call F => True))
    (store_responses E C u out cid sid end_dt vmins vmaxs dps r responses).
Proof.
  intro w.
  eapply emits_impl; [| apply (store_responses_under E C u out cid sid end_dt vmins
                                 vmaxs dps r responses w)].
  intros c _. exact I.
Qed.

Lemma client_request_sends u r (w : world F) :
  exists sds,
    In (DendriteQuery (axons C)
          (LiveForward u (stream_hash E C (cr_stream_type r)) sds (cr_topic_id r)
             (cr_feature_ids r) (cr_schema_id r) (cr_prediction_size r)))
       (trace (snd (client_request E C u r w))).
Proof.
  unfold client_request, bind at 1, ValiUtils_randomize_days.
  destruct (randomize_days E (now w) _) as [[start_dt end_dt] ts_ranges].
  unfold bind at 1.
  match goal with
  | |- context [fill E ?s ?ts ?ds ?w1] =>
      pose proof (fill_ok s ts ds w1) as Hfill;
      destruct (fill E s ts ds w1) as [[ds1 | e] w2]; [| discriminate]
  end.
  unfold bind at 1, lift.
  pose proof (scale_ok ds1) as Hscale.
  destruct (scale_data_structure E ds1) as [[[[vmins vmaxs] dps] sds] | e];
    [| discriminate].
  exists sds. unfold bind at 1.
  match goal with
  | |- context [try_except (register_stream E ?c ?s ?t) ?cls ?h w2] =>
      pose proof (registration_never_escapes c s t w2) as Hreg;
      destruct (try_except (register_stream E c s t) cls h w2) as [[[] | e] w3];
        [| discriminate]
  end.
  rewrite try_except_logged. unfold bind at 1, dendrite_query_axons.
  destruct (dendrite_query E (now w3) (axons C) _) as [responses | e]; simpl.
  - match goal with
    | |- In ?q (trace (snd (bind _ _ ?w4))) =>
        apply (emits_In (P := fun _ => True) (w := w4))
    end.
    + apply bind_from; [apply emits_trans | apply emits_log; exact I |].
      intros out w5 _. apply store_responses_grows.
    + simpl. apply in_or_app. right. left. reflexivity.
  - apply in_or_app. right. left. reflexivity.
Qed.
End RegistrationFails.

(** X12. The registration in the ledger cannot hold a ClientRequest up: when
    the market data can be fetched and scaled, the LiveForward message goes out
    to all axons whatever exception the reading or the writing of the ledger
    raises. *)
Theorem live_forward_goes_out_without_the_ledger :
  forall (F : Float) (E : Validator.collaborators F) (C : Validator.setup)
         (request_uuid : string) (r : Validator.ClientRequest) (w : Validator.world F),
    (forall n s ds t,
        is_ok (Validator.get_data_and_structure_data_points E n s ds t) = true) ->
    (forall ds, is_ok (Validator.scale_data_structure E ds) = true) ->
    (forall n e, Validator.get_vali_records_fault E n = Some e ->
                 isinstance_Exception e = true) ->
    (forall n e, Validator.set_vali_memory_and_bkp_fault E n = Some e ->
                 isinstance_Exception e = true) ->
    exists sds,
      In (Validator.DendriteQuery (Validator.axons C)
            (Validator.LiveForward request_uuid
               (Validator.stream_hash E C (Validator.cr_stream_type r)) sds
               (Validator.cr_topic_id r) (Validator.cr_feature_ids r)
               (Validator.cr_schema_id r) (Validator.cr_prediction_size r)))
         (Validator.trace (snd (Validator.client_request E C request_uuid r w))).
Proof.
  intros F E C request_uuid r w Hf Hs Hr Hw.
  apply client_request_sends; assumption.
Qed.

Lemma live_forward_goes_out_without_the_ledger_witness :
  let E := Demo.collab (Ok Demo.candles) (Some OSError) [] [] 0 in
  exists sds,
    In (Validator.DendriteQuery ["m01"; "m02"]
          (Validator.LiveForward "uuid-0" 15 sds 1 [1; 2; 3; 4; 5]%Z 1 3))
       (Validator.trace
          (snd (Validator.client_request E (Demo.chain 2) "uuid-0"
                  (Validator.generate_standard_client_request E)
                  (Validator.mkWorld [] Demo.ledger0 [])))).
Proof.
  intro E.
  apply (@live_forward_goes_out_without_the_ledger Demo.Zfloat E (Demo.chain 2) "uuid-0"
           (Validator.generate_standard_client_request E)
           (Validator.mkWorld [] Demo.ledger0 [])).
  - intros n s ds t. reflexivity.
  - intro ds. reflexivity.
  - intros n e H. discriminate.
  - intros n e H. injection H as <-. reflexivity.
Defined.

(** ** validator.py: the round of a PredictionRequest *)

Section Commit.
Import Validator.
Variables (F : Float) (E : collaborators F) (C : setup).

Lemma convert_uids_shape (l : list (string * F)) : forall us,
  @convert_uids F C l = Ok us -> List.length us = List.length l /\ incl us (uids C).
Proof.
  induction l as [| h l IH]; intros us H; simpl in H.
  - injection H as <-. split; [reflexivity | intros x []].
  - destruct (list_index (fst h) (hotkeys C)) as [i |]; [| discriminate].
    unfold index in H.
    destruct (nth_error (uids C) i) as [uid |] eqn:Hn; [| discriminate].
    destruct (@convert_uids F C l) as [us' |]; [| discriminate].
    injection H as <-. destruct (IH us' eq_refl) as [Hlen Hincl].
    split; [simpl; congruence |].
    intros x [<- | Hx]; [eapply nth_error_In; exact Hn | apply Hincl; exact Hx].
Qed.

Lemma prediction_request_commits u (r : PredictionRequest F) (w : world F) :
  emits (commit_call C (bkp w) r) w (snd (prediction_request E C u r w)).
Proof.
  remember (bkp w) as vm0 eqn:Hvm0.
  pose proof (@emits_refl F (commit_call C vm0 r)) as Hr.
  pose proof (@emits_trans F (commit_call C vm0 r)) as Ht.
  unfold prediction_request.
  apply (@try_except_else_from F _ Ht).
  - unfold prediction_try.
    apply (@bind_from F _ Ht);
      [unfold ValiUtils_get_vali_records, log;
        destruct (get_vali_records_fault E (now w)); simpl; apply emits_log; exact I |].
    intros vm w1 H1.
    assert (Hvm : vm = vm0).
    { unfold ValiUtils_get_vali_records in H1.
      destruct (get_vali_records_fault E (now w)); [discriminate |].
      injection H1 as <- _. symmetry. exact Hvm0. }
    subst vm. clear H1 Hvm0. revert w1.
    match goal with
    | |- forall w1, emits ?P w1 (snd (?m w1)) => change (keeps (emits P) m)
    end.
    unfold score_predictions, store_results.
    keeps_split; try (one_call; apply emits_log; exact I).
    match goal with
    | Hc : @convert_uids F C _ = Ok _ |- _ => apply convert_uids_shape in Hc; destruct Hc
    end.
    intro w0. unfold subtensor_set_weights, log.
    destruct (set_weights_fault E (now w0)); cbn [snd]; apply emits_log;
      unfold commit_call; (repeat split; [| rewrite length_map; assumption
                                           | rewrite length_map; apply firstn_le_length
                                           | assumption]);
      match goal with
      | Hg : match get_client _ _ with _ => _ end = Ok _ |- _ =>
          destruct (get_client _ _); [discriminate | discriminate Hg]
      end.
  - intro e. apply keeps_ret. apply emits_refl.
  - intros _. apply keeps_for_each; [apply emits_refl | apply emits_trans |].
    intros file Hin. one_call; apply emits_log; exact Hin.
Qed.
End Commit.

(** X13. In the round that grades a PredictionRequest, weights are committed
    only when the client of the record is in the ledger the round read, always
    as at most ten weights with one uid of the metagraph for each; the only
    files the round removes are files of the request; it stores no prediction
    and draws no days. *)
Theorem grading_round_commits_at_most_ten_weights :
  forall (F : Float) (E : Validator.collaborators F) (C : Validator.setup)
         (request_uuid : string) (r : Validator.PredictionRequest F)
         (w : Validator.world F),
    exists calls,
      Validator.trace (snd (Validator.prediction_request E C request_uuid r w))
      = (Validator.trace w ++ calls)%list /\
      Forall (commit_call C (Validator.bkp w) r) calls.
Proof. intros. apply prediction_request_commits. Qed.

Section FilesOfOthers.
Import Validator.
Variables (F : Float) (E : collaborators F) (C : setup).
Variable files : list string.

Lemma only_removes_refl (w : world F) : only_removes files w w.
Proof. split; [intros x Hx; exact Hx | intros f Hf _; exact Hf]. Qed.

Lemma only_removes_same_disk (w w' : world F) :
  disk w' = disk w -> only_removes files w w'.
Proof.
  intro H. unfold only_removes. rewrite H.
  split; [intros x Hx; exact Hx | intros f Hf _; exact Hf].
Qed.

Lemma only_removes_trans (a b c : world F) :
  only_removes files a b -> only_removes files b c -> only_removes files a c.
Proof.
  intros [I1 K1] [I2 K2]. split.
  - intros x Hx. apply I1, I2, Hx.
  - intros f Hf Hn. apply K2; [apply K1; assumption | exact Hn].
Qed.

Lemma remove_file_incl (f : string) (d : list string) : incl (remove_file f d) d.
Proof.
  induction d as [| x d IH]; simpl; [intros y [] |].
  destruct (String.eqb f x).
  - intros y Hy. right. exact Hy.
  - intros y [<- | Hy]; [left; reflexivity | right; apply IH; exact Hy].
Qed.

Lemma remove_file_keeps (f g : string) (d : list string) :
  In g d -> g <> f -> In g (remove_file f d).
Proof.
  induction d as [| x d IH]; simpl; [tauto |].
  intros [<- | Hg] Hne.
  - destruct (String.eqb_spec f x); [congruence | left; reflexivity].
  - destruct (String.eqb f x); [exact Hg | right; apply IH; assumption].
Qed.

Lemma os_remove_only_removes file :
  In file files -> keeps (only_removes files) (os_remove E file).
Proof.
  intros Hin w. unfold os_remove.
  destruct (existsb _ _); simpl; [| apply only_removes_same_disk; reflexivity].
  destruct (os_remove_refused E (now w) file); simpl;
    [apply only_removes_same_disk; reflexivity |].
  split; simpl.
  - apply remove_file_incl.
  - intros g Hg Hn. apply remove_file_keeps; [exact Hg |]. intros ->. contradiction.
Qed.

(** What a removal can end the round with. *)
Lemma remove_raises (l : list string) : forall (w : world F) e,
  fst (for_each l (os_remove E) w) = Raise e ->
  exists file,
    In file l /\
    (e = FileNotFoundError \/
     exists n r, os_remove_refused E n file = Some r /\ e = refusal_exn r).
Proof.
  induction l as [| f l IH]; intros w e; simpl; [discriminate |].
  unfold bind, os_remove at 1.
  destruct (existsb _ _); simpl.
  - destruct (os_remove_refused E (now w) f) as [r |] eqn:Hr; simpl.
    + intro H. injection H as <-. exists f. split; [left; reflexivity |].
      right. exists (now w), r. split; [exact Hr | reflexivity].
    + intro H. destruct (IH _ _ H) as [file [Hin Hwhy]].
      exists file. split; [right; exact Hin | exact Hwhy].
  - intro H. injection H as <-. exists f. split; [left; reflexivity |].
    left. reflexivity.
Qed.
End FilesOfOthers.

(** X14. The round that grades a PredictionRequest creates no file and
    removes none but those of its own request: every file of the predictions
    directory that is not listed in the request is still there afterwards,
    however the round ends. *)
Theorem grading_round_leaves_other_files :
  forall (F : Float) (E : Validator.collaborators F) (C : Validator.setup)
         (request_uuid : string) (r : Validator.PredictionRequest F)
         (w : Validator.world F),
    let w' := snd (Validator.prediction_request E C request_uuid r w) in
    incl (Validator.disk w') (Validator.disk w) /\
    forall file, In file (Validator.disk w) -> ~ In file (Validator.pr_files r) ->
                 In file (Validator.disk w').
Proof.
  intros F E C request_uuid r w.
  change (only_removes (Validator.pr_files r) w
            (snd (Validator.prediction_request E C request_uuid r w))).
  generalize w. change (keeps (only_removes (Validator.pr_files r))
                          (Validator.prediction_request E C request_uuid r)).
  unfold Validator.prediction_request, Validator.prediction_try,
    Validator.score_predictions, Validator.store_results.
  pose proof (@only_removes_refl F (Validator.pr_files r)) as Hr.
  pose proof (@only_removes_trans F (Validator.pr_files r)) as Ht.
  keeps_split;
    try (apply os_remove_only_removes; assumption);
    one_call; apply only_removes_same_disk; reflexivity.
Qed.

(** X15. The round that grades a PredictionRequest never ends in
    [RuntimeError]: an exception that leaves it either left the grading block,
    which lets no [RuntimeError] through, or is the [OSError] of the removal of
    one of the files of the request after the block had completed: the file
    was not there, or the operating system refused to remove it. *)
Theorem grading_round_never_ends_in_runtime_error :
  forall (F : Float) (E : Validator.collaborators F) (C : Validator.setup)
         (request_uuid : string) (r : Validator.PredictionRequest F)
         (w : Validator.world F) (e : exn),
    fst (Validator.prediction_request E C request_uuid r w) = Raise e ->
    let block :=
      Validator.prediction_try E C request_uuid
        (Validator.stream_hash E C (Validator.pdf_stream_type (Validator.pr_df r))) r w in
    isinstance_RuntimeError e = false /\
    (fst block = Raise e \/
     (fst block = Ok tt /\ isinstance_OSError e = true /\
      exists file,
        In file (Validator.pr_files r) /\
        (e = FileNotFoundError \/
         exists n why, Validator.os_remove_refused E n file = Some why /\
                       e = refusal_exn why))).
Proof.
  intros F E C request_uuid r w e. unfold Validator.prediction_request,
    Validator.try_except_else.
  destruct (Validator.prediction_try E C request_uuid _ r w) as [[[] | e0] w1]; simpl.
  - intro H. apply remove_raises in H. destruct H as [file [Hin Hwhy]].
    assert (Hos : isinstance_OSError e = true).
    { destruct Hwhy as [-> | [n [why [_ ->]]]]; [reflexivity |]. destruct why; reflexivity. }
    split; [destruct e; try reflexivity; discriminate Hos |].
    right. split; [reflexivity |]. split; [exact Hos |].
    exists file. split; assumption.
  - destruct (isinstance_RuntimeError e0) eqn:Hc; simpl; [discriminate |].
    intro H. injection H as <-. split; [exact Hc | left; reflexivity].
Qed.

Lemma grading_round_never_ends_in_runtime_error_witness :
  let E := Demo.tuned (Demo.collab (Ok Demo.candles) None [] [] 0)
             Demo.candles_fetch Demo.named_by_miner (Demo.is_directory "uuid-7-m02") in
  fst (Validator.prediction_request E (Demo.chain 2) "uuid-0" (Demo.scoring 2)
         (Demo.world0 2))
  = Raise IsADirectoryError /\
  fst (Validator.prediction_try E (Demo.chain 2) "uuid-0"
         (Validator.stream_hash E (Demo.chain 2) "BTCUSD") (Demo.scoring 2) (Demo.world0 2))
  = Ok tt /\
  isinstance_RuntimeError IsADirectoryError = false.
Proof.
  intro E.
  destruct (@grading_round_never_ends_in_runtime_error Demo.Zfloat E (Demo.chain 2)
              "uuid-0" (Demo.scoring 2) (Demo.world0 2) IsADirectoryError eq_refl)
    as [Hn [H | [H _]]].
  - discriminate H.
  - split; [reflexivity |]. split; [exact H | exact Hn].
Defined.

(** ** validator.py: the loop that adds the results to the ledger *)

Section Credit.
Import Validator.
Variable F : Float.
Implicit Types (W : dict F) (st : CMWStreamType F) (m : CMWMiner F).

Lemma dict_get_absent {V} (k : string) (d : dict V) :
  ~ In k (keys d) -> dict_get k d = None.
Proof.
  induction d as [| [k' v] d IH]; simpl; [reflexivity |].
  intro H. destruct (String.eqb_spec k k') as [-> | Hne]; [tauto |].
  apply IH. tauto.
Qed.

Lemma dict_get_present {V} (k : string) (d : dict V) :
  In k (keys d) -> exists v, dict_get k d = Some v.
Proof.
  induction d as [| [k' v] d IH]; simpl; [tauto |].
  intro H. destruct (String.eqb_spec k k') as [-> | Hne]; [eexists; reflexivity |].
  apply IH. destruct H as [H | H]; [congruence | exact H].
Qed.

(** Looking a miner up after a method call on the entry of [uid]. *)
Lemma find_on_first (uid k : string) (f : CMWMiner F -> CMWMiner F)
  (l : list (CMWMiner F)) :
  (forall m, miner_id (f m) = miner_id m) ->
  find (fun m => String.eqb k (miner_id m)) (on_first uid f l)
  = if String.eqb k uid
    then option_map f (find (fun m => String.eqb uid (miner_id m)) l)
    else find (fun m => String.eqb k (miner_id m)) l.
Proof.
  intro Hid. induction l as [| x l IH]; simpl.
  - destruct (String.eqb k uid); reflexivity.
  - destruct (String.eqb_spec uid (miner_id x)) as [Hx | Hx]; simpl.
    + rewrite Hid. destruct (String.eqb_spec k uid) as [-> | Hk].
      * rewrite Hx, String.eqb_refl. reflexivity.
      * destruct (String.eqb_spec k (miner_id x)); [congruence | reflexivity].
    + rewrite IH. destruct (String.eqb_spec k (miner_id x)) as [-> | Hk].
      * destruct (String.eqb_spec (miner_id x) uid); [congruence | reflexivity].
      * reflexivity.
Qed.

Lemma get_miner_on_miner uid k f st :
  (forall m, miner_id (f m) = miner_id m) ->
  get_miner k (on_miner uid f st)
  = if String.eqb k uid then option_map f (get_miner uid st) else get_miner k st.
Proof. intro Hid. unfold get_miner, on_miner. simpl. apply find_on_first. exact Hid. Qed.

(** One round of the loop, for a miner that has a weight. *)
Lemma add_result_credits W st uid scaled_score weight :
  dict_get uid W = Some weight ->
  exists st',
    add_result W (Some st) (uid, scaled_score) = Ok (Some st') /\
    forall k, get_miner k st'
              = if String.eqb k uid
                then Some (credited scaled_score weight (entry_of uid st))
                else get_miner k st.
Proof.
  intro Hw. unfold add_result, dict_index. rewrite Hw.
  set (st0 := match get_miner uid st with
              | Some _ => st
              | None => add_miner (mkMiner F uid 0 (float_zero F) []) st
              end).
  assert (H0 : forall k, get_miner k st0
                         = if String.eqb k uid then Some (entry_of uid st)
                           else get_miner k st).
  { intro k. subst st0. unfold entry_of.
    destruct (get_miner uid st) as [m |] eqn:Hm.
    - destruct (String.eqb_spec k uid) as [-> | Hk]; [exact Hm | reflexivity].
    - unfold get_miner, add_miner in *. simpl. rewrite find_snoc. simpl.
      destruct (String.eqb_spec k uid) as [-> | Hk].
      + rewrite Hm. reflexivity.
      + destruct (find (fun m => String.eqb k (miner_id m)) (miners st)); reflexivity. }
  unfold credited.
  destruct (float_ne F weight (float_zero F)); eexists; (split; [reflexivity |]);
    intro k; rewrite ?get_miner_on_miner by (intro m; reflexivity);
    rewrite !H0, ?String.eqb_refl;
    destruct (String.eqb k uid); reflexivity.
Qed.

(** The whole loop, when every scored miner has a weight. *)
Lemma add_results_credit W (items : dict F) : forall st,
  NoDup (keys items) ->
  incl (keys items) (keys W) ->
  exists st',
    add_results W (Some st) items = Ok (Some st') /\
    forall k, get_miner k st'
              = match dict_get k items, dict_get k W with
                | Some scaled_score, Some weight =>
                    Some (credited scaled_score weight (entry_of k st))
                | _, _ => get_miner k st
                end.
Proof.
  induction items as [| [uid s] items IH]; intros st Hnd Hincl.
  - exists st. split; reflexivity.
  - simpl in Hnd. inversion Hnd as [| ? ? Hfresh Hrest]; subst.
    destruct (@dict_get_present F uid W) as [weight Hw];
      [apply Hincl; left; reflexivity |].
    destruct (@add_result_credits W st uid s weight Hw) as [st1 [H1 G1]].
    destruct (IH st1 Hrest) as [st' [H' G']];
      [intros k Hk; apply Hincl; right; exact Hk |].
    exists st'. split.
    { change (match add_result W (Some st) (uid, s) with
              | Ok stream_type' => add_results W stream_type' items
              | Raise e => Raise e
              end = Ok (Some st')).
      rewrite H1. exact H'. }
    intro k. rewrite G'. simpl dict_get.
    destruct (String.eqb_spec k uid) as [-> | Hk].
    + rewrite (dict_get_absent _ _ Hfresh), Hw, G1, String.eqb_refl. reflexivity.
    + assert (He : entry_of k st1 = entry_of k st).
      { unfold entry_of. rewrite G1.
        destruct (String.eqb_spec k uid); [congruence | reflexivity]. }
      rewrite He, G1.
      destruct (String.eqb_spec k uid); [congruence | reflexivity].
Qed.
End Credit.

(** X16. When every scored miner has a weight, the loop that adds the results
    to a stream runs to its end, and afterwards the entry of each scored miner
    is its former entry (a fresh one with no win when it had none) with the
    scaled score appended once and, exactly when its weight is not 0, one more
    win and the weight added to its win value; the entries of all other miners
    are what they were. *)
Theorem ledger_loop_credits_each_scored_miner :
  forall (F : Float) (weighed_winning_scores_dict scaled_scores : dict F)
         (stream_type : CMWStreamType F),
    NoDup (keys scaled_scores) ->
    incl (keys scaled_scores) (keys weighed_winning_scores_dict) ->
    exists stream_type',
      Validator.add_results weighed_winning_scores_dict (Some stream_type) scaled_scores
      = Ok (Some stream_type') /\
      forall miner_uid,
        get_miner miner_uid stream_type'
        = match dict_get miner_uid scaled_scores,
                dict_get miner_uid weighed_winning_scores_dict with
          | Some scaled_score, Some weight =>
              Some (credited scaled_score weight (entry_of miner_uid stream_type))
          | _, _ => get_miner miner_uid stream_type
          end.
Proof. intros. apply add_results_credit; assumption. Qed.

Lemma ledger_loop_credits_each_scored_miner_witness :
  exists st',
    Validator.add_results (F:=Demo.Zfloat) [("m01", 0%Z); ("m02", 7%Z)]
      (Some (mkStream 15 1 [mkMiner Demo.Zfloat "m02" 2 5%Z [40%Z]]))
      [("m02", 60%Z); ("m01", 50%Z)]
    = Ok (Some st') /\
    get_miner "m02" st' = Some (mkMiner Demo.Zfloat "m02" 3 12%Z [40; 60]%Z) /\
    get_miner "m01" st' = Some (mkMiner Demo.Zfloat "m01" 0 0%Z [50]%Z).
Proof.
  destruct (@ledger_loop_credits_each_scored_miner Demo.Zfloat
              [("m01", 0%Z); ("m02", 7%Z)] [("m02", 60%Z); ("m01", 50%Z)]
              (mkStream 15 1 [mkMiner Demo.Zfloat "m02" 2 5%Z [40%Z]]))
    as [st' [Hrun Hget]].
  - repeat constructor; simpl; intuition discriminate.
  - intros k [<- | [<- | []]]; simpl; auto.
  - exists st'. split; [exact Hrun |].
    split; rewrite Hget; reflexivity.
Defined.

(** ** validator.py: the main loop *)

Section Schedule.
Import Validator.
Variables (F : Float) (E : collaborators F).

(** The calls of one scheduling, with the batch it yields. *)
Lemma scheduled_requests_run second (w : world F) :
  let listing := Nat.eqb (second mod 59) 0 in
  let at_ready := if listing then S (now w) else now w in
  let opening :=
    if listing && Nat.eqb (List.length (disk w)) 0
    then [Client (generate_standard_client_request E)] else [] in
  let ready := get_predictions_to_complete E at_ready in
  let idle := Nat.eqb (List.length (opening ++ map (@Prediction F) ready)) 0 in
  let closing :=
    if idle && Z.eqb (randint E (S at_ready)) 1
    then [Training (generate_standard_training_request E)] else [] in
  scheduled_requests E second w
  = (Ok (opening ++ map (@Prediction F) ready ++ closing)%list,
     mkWorld (trace w ++ (if listing then [GetAllFilesInDir] else [])
                      ++ [GetPredictionsToComplete]
                      ++ (if idle then [RandInt 0 10] else []))%list
       (bkp w) (disk w)).
Proof.
  unfold scheduled_requests, bind, get_all_files_in_dir,
    ValiUtils_get_predictions_to_complete, random_randint, ret, now, log.
  destruct (Nat.eqb (second mod 59) 0); simpl.
  - destruct (Nat.eqb (List.length (disk w)) 0); simpl;
      rewrite ?length_app; simpl; rewrite ?Nat.add_1_r;
      destruct (get_predictions_to_complete E (S (List.length (trace w)))); simpl;
      rewrite ?length_app; simpl; rewrite ?Nat.add_1_r;
      try destruct (Z.eqb _ 1); simpl; rewrite <- ?app_assoc; simpl;
      rewrite ?app_nil_r; destruct w; reflexivity.
  - destruct (get_predictions_to_complete E (List.length (trace w))); simpl;
      rewrite ?length_app; simpl; rewrite ?Nat.add_1_r;
      try destruct (Z.eqb _ 1); simpl; rewrite <- ?app_assoc; simpl;
      rewrite ?app_nil_r; destruct w; reflexivity.
Qed.
End Schedule.

(** X17. The batch of a round is, in this order, at most one ClientRequest
    (only at a second that is a multiple of 59, with an empty predictions
    directory), one PredictionRequest for everything that is ready to be
    scored, and at most one TrainingRequest; a TrainingRequest is never
    scheduled together with any other request. *)
Theorem batch_is_client_then_predictions_or_training :
  forall (F : Float) (E : Validator.collaborators F) (second : nat)
         (w : Validator.world F),
    exists opening ready closing,
      fst (Validator.scheduled_requests E second w)
      = Ok (opening ++ map (@Validator.Prediction F) ready ++ closing)%list /\
      (opening = [] \/
       opening = [Validator.Client (Validator.generate_standard_client_request E)] /\
       second mod 59 = 0 /\ Validator.disk w = []) /\
      (ready = Validator.get_predictions_to_complete E (Validator.now w) \/
       ready = Validator.get_predictions_to_complete E (S (Validator.now w))) /\
      (closing = [] \/
       closing = [Validator.Training (Validator.generate_standard_training_request E)] /\
       opening = [] /\ ready = []).
Proof.
  intros F E second w.
  pose proof (scheduled_requests_run E second w) as H. cbv zeta in H.
  rewrite H. clear H. cbn [fst].
  remember (second mod 59) as m eqn:Hm.
  do 3 eexists. split; [reflexivity |].
  split; [| split].
  - destruct (Nat.eqb_spec m 0) as [Hs | Hs]; cbn [andb]; [| left; reflexivity].
    destruct (Validator.disk w) as [| f d] eqn:Hd; simpl; [| left; reflexivity].
    right. auto.
  - destruct (Nat.eqb m 0); [right | left]; reflexivity.
  - match goal with
    | |- context [Nat.eqb (List.length ?l) 0 && _] => destruct l as [| x l'] eqn:Hl
    end; simpl; [| left; reflexivity].
    destruct (Z.eqb _ 1); [| left; reflexivity].
    right. apply app_eq_nil in Hl. destruct Hl as [Ho Hr].
    apply map_eq_nil in Hr. auto.
Qed.

(** X18. One scheduling lists the predictions directory only at a second that
    is a multiple of 59, always asks which predictions are ready, and throws
    the dice only when the batch is empty up to then; it changes neither the
    ledger nor the files and never fails. *)
Theorem scheduling_throws_dice_only_when_idle :
  forall (F : Float) (E : Validator.collaborators F) (second : nat)
         (w : Validator.world F),
    let run := Validator.scheduled_requests E second w in
    exists requests listed thrown,
      run = (Ok requests,
             Validator.mkWorld
               (Validator.trace w
                ++ (if listed : bool then [Validator.GetAllFilesInDir] else [])
                ++ [Validator.GetPredictionsToComplete]
                ++ (if thrown : bool then [Validator.RandInt 0 10] else []))%list
               (Validator.bkp w) (Validator.disk w)) /\
      (listed = true <-> second mod 59 = 0) /\
      (thrown = true <->
       forall r, In r requests ->
                 r = Validator.Training (Validator.generate_standard_training_request E)).
Proof.
  intros F E second w run.
  pose proof (scheduled_requests_run E second w) as H. cbv zeta in H.
  subst run. rewrite H. clear H.
  remember (second mod 59) as m eqn:Hm.
  do 3 eexists. split; [reflexivity |].
  split; [apply Nat.eqb_eq |].
  match goal with
  | |- context [Nat.eqb (List.length ?l) 0 && _] => destruct l as [| x l'] eqn:Hl
  end; cbn [List.length Nat.eqb andb].
  - apply app_eq_nil in Hl. destruct Hl as [Ho Hr]. rewrite Ho, Hr.
    split; [| reflexivity]. intros _ r0. cbn [app].
    destruct (Z.eqb _ 1); [intros [<- | []]; reflexivity | intros []].
  - split; [discriminate |]. intro Hall. exfalso.
    assert (Hin : In x (x :: l')) by (left; reflexivity).
    rewrite <- Hl in Hin.
    assert (Hx : x = Validator.Training (Validator.generate_standard_training_request E)).
    { apply Hall. rewrite app_assoc. apply in_or_app. left. exact Hin. }
    apply in_app_or in Hin. destruct Hin as [Hin | Hin].
    + destruct (_ && _) in Hin; [| destruct Hin].
      destruct Hin as [Hin | []]. rewrite Hx in Hin. discriminate.
    + apply in_map_iff in Hin. destruct Hin as [p [Hp _]]. rewrite Hx in Hp.
      discriminate.
Qed.

(** ** validator.py: what the rounds leave of the ledger *)

(** As [keeps_split], with a tactic for the statements that are not to be
    opened. *)
Ltac keeps_split_but known :=
  repeat first
    [ known
    | apply keeps_ret; assumption
    | apply keeps_lift; assumption
    | apply keeps_raise; assumption
    | apply keeps_bind_lift; [assumption .. | intros ? ?]
    | apply keeps_bind; [assumption .. | idtac | intros ?]
    | apply keeps_try_except; [assumption .. | idtac | intros ?]
    | apply keeps_try_except_else; [assumption .. | idtac | intros ? | intros ?]
    | apply keeps_for_each; [assumption .. | intros ? ?]
    | apply keeps_for_fold; [assumption .. | intros ? ? ?]
    | match goal with
      | |- keeps _ (match ?x with _ => _ end) => destruct x
      | |- keeps _ (if ?b then _ else _) => destruct b
      end ].

Section ClientLedger.
Import Validator.
Variables (F : Float) (E : collaborators F) (C : setup).

Lemma keeps_streams_refl (w : world F) : keeps_streams w w.
Proof. intros cid sid st H. exact H. Qed.

Lemma keeps_streams_trans (a b c : world F) :
  keeps_streams a b -> keeps_streams b c -> keeps_streams a c.
Proof. intros H1 H2 cid sid st H. apply H2, H1, H. Qed.

Lemma keeps_streams_same_bkp (w w' : world F) : bkp w' = bkp w -> keeps_streams w w'.
Proof. intros H cid sid st. rewrite H. auto. Qed.

Lemma register_stream_keeps_streams cid sid tid :
  keeps (@keeps_streams F) (register_stream E cid sid tid).
Proof.
  intro w. unfold register_stream, bind, ValiUtils_get_vali_records.
  destruct (get_vali_records_fault E (now w));
    [apply keeps_streams_same_bkp; reflexivity |].
  unfold ValiUtils_set_vali_memory_and_bkp.
  destruct (set_vali_memory_and_bkp_fault E _);
    [apply keeps_streams_same_bkp; reflexivity |].
  simpl. intros cid' sid' st0 H. simpl in *. unfold lookup_stream in *.
  destruct (get_client cid' (bkp w)) as [c0 |] eqn:Hc0; [| discriminate].
  destruct (registered_ledger cid sid tid (bkp w)) as [_ Hkeep].
  destruct (Hkeep cid' sid' c0 st0 Hc0 H) as [c1 [Hc1 Hs1]].
  match goal with
  | |- match ?x with _ => _ end = _ =>
      replace x with (Some c1) by (symmetry; exact Hc1)
  end.
  exact Hs1.
Qed.

Lemma store_response_keeps_streams u out cid sid end_dt vmins vmaxs dps r i_resp :
  keeps (@keeps_streams F)
    (store_response E C u out cid sid end_dt vmins vmaxs dps r i_resp).
Proof.
  intro w. destruct i_resp as [i resp]. unfold store_response.
  destruct resp as [numpy |]; [| apply keeps_streams_refl].
  destruct (Nat.eqb _ _); [| apply keeps_streams_refl].
  unfold bind, lift, index.
  destruct (nth_error (axons C) i); [| apply keeps_streams_refl].
  unfold ValiUtils_save_predictions_request, log.
  destruct (save_predictions_request E _ _ _ _); simpl;
    apply keeps_streams_same_bkp; reflexivity.
Qed.

Lemma client_request_keeps_streams u r :
  keeps (@keeps_streams F) (client_request E C u r).
Proof.
  unfold client_request, fill, store_responses.
  pose proof (@keeps_streams_refl) as Hr.
  pose proof (@keeps_streams_trans) as Ht.
  keeps_split_but
    ltac:(first [ apply register_stream_keeps_streams
                | apply store_response_keeps_streams ]);
    one_call; apply keeps_streams_same_bkp; reflexivity.
Qed.
End ClientLedger.

(** X19. The round of a ClientRequest never loses or alters what is recorded:
    every stream that could be looked up in the persisted ledger before the
    round, with all the miners, scores and wins in it, is looked up unchanged
    afterwards, whatever fails during the round. *)
Theorem client_round_keeps_recorded_streams :
  forall (F : Float) (E : Validator.collaborators F) (C : Validator.setup)
         (request_uuid : string) (r : Validator.ClientRequest) (w : Validator.world F)
         (cid : string) (sid : Z) (st : CMWStreamType F),
    lookup_stream cid sid (Validator.bkp w) = Some st ->
    lookup_stream cid sid
      (Validator.bkp (snd (Validator.client_request E C request_uuid r w)))
    = Some st.
Proof.
  intros F E C request_uuid r w cid sid st.
  apply (client_request_keeps_streams E C request_uuid r w).
Qed.

Lemma client_round_keeps_recorded_streams_witness :
  let E := Demo.collab (Ok Demo.candles) None [Some [1; 2; 3]%Z] [] 0 in
  lookup_stream "validator" 15
    (Validator.bkp (snd (Validator.client_request E (Demo.chain 1) "uuid-0"
                           (Validator.mkClientRequest (Some "client-2") "ETHUSD" 2
                              [1; 2; 3; 4; 5]%Z 1 3)
                           (Demo.world0 1))))
  = Some (mkStream 15 1 []).
Proof.
  intro E.
  apply (@client_round_keeps_recorded_streams Demo.Zfloat E (Demo.chain 1) "uuid-0").
  reflexivity.
Defined.

Section GradingLedger.
Import Validator.
Variables (F : Float) (E : collaborators F) (C : setup).

Lemma find_put_stream_other (s : Z) (st : CMWStreamType F) (l : list (CMWStreamType F)) :
  s <> stream_id st ->
  find (fun x => Z.eqb s (stream_id x)) (put_stream st l)
  = find (fun x => Z.eqb s (stream_id x)) l.
Proof.
  intro Hs. induction l as [| x l IH]; simpl; [reflexivity |].
  destruct (Z.eqb_spec (stream_id st) (stream_id x)) as [Hx | Hx]; simpl.
  - rewrite <- Hx. destruct (Z.eqb_spec s (stream_id st)); [contradiction | reflexivity].
  - rewrite IH. reflexivity.
Qed.

(** Mutating the stream object of one client shows in no other lookup. *)
Lemma lookup_with_stream cid (st : CMWStreamType F) (vm : CMW F) k s :
  k <> cid \/ s <> stream_id st ->
  lookup_stream k s (with_stream cid st vm) = lookup_stream k s vm.
Proof.
  intro Hks. unfold with_stream.
  destruct (get_client cid vm) as [c |] eqn:Hc; [| reflexivity].
  assert (Huid : client_uuid c = cid).
  { unfold get_client in Hc. apply find_some in Hc. destruct Hc as [_ Hc].
    apply String.eqb_eq in Hc. symmetry. exact Hc. }
  unfold lookup_stream, get_client in *. cbn [clients].
  rewrite (@get_client_put F cid k c
             (mkClient (client_uuid c) (put_stream st (streams c))) _ Hc Huid).
  destruct (String.eqb_spec k cid) as [-> | Hk].
  - rewrite Hc. unfold get_stream. cbn [streams].
    destruct Hks as [Hks | Hks]; [contradiction |].
    apply find_put_stream_other. exact Hks.
  - reflexivity.
Qed.

Lemma add_result_stream_id W (o : option (CMWStreamType F)) item st' :
  add_result W o item = Ok (Some st') ->
  exists st, o = Some st /\ stream_id st' = stream_id st.
Proof.
  destruct item as [uid score]. unfold add_result.
  destruct o as [st |]; [| discriminate].
  intro H. exists st. split; [reflexivity |].
  destruct (dict_index uid W) as [weight | e]; [| discriminate].
  destruct (float_ne F weight (float_zero F));
    injection H as <-; destruct (get_miner uid st); reflexivity.
Qed.

Lemma add_result_some W (o : option (CMWStreamType F)) item o' :
  add_result W o item = Ok o' -> exists st', o' = Some st'.
Proof.
  destruct item as [uid score]. unfold add_result.
  destruct o as [st |]; [| discriminate].
  destruct (dict_index uid W) as [weight | e]; [| discriminate].
  destruct (float_ne F weight (float_zero F)); intro H; injection H as <-; eauto.
Qed.

Lemma add_results_stream_id W items : forall (o : option (CMWStreamType F)) st',
  add_results W o items = Ok (Some st') ->
  exists st, o = Some st /\ stream_id st' = stream_id st.
Proof.
  induction items as [| item items IH]; intros o st' H; simpl in H.
  - injection H as ->. exists st'. auto.
  - destruct (add_result W o item) as [o1 |] eqn:H1; [| discriminate].
    destruct (IH _ _ H) as [st1 [-> Hid1]].
    destruct (add_result_stream_id _ _ _ H1) as [st [-> Hid]].
    exists st. split; [reflexivity | congruence].
Qed.

Lemma get_stream_id sid (c : CMWClient F) st :
  get_stream sid c = Some st -> stream_id st = sid.
Proof.
  unfold get_stream. intro H. apply find_some in H. destruct H as [_ H].
  apply Z.eqb_eq in H. symmetry. exact H.
Qed.

Lemma stays_elsewhere_refl cid sid vm (w : world F) : stays_elsewhere cid sid vm w w.
Proof. intro H. exact H. Qed.

Lemma stays_elsewhere_trans cid sid vm (a b c : world F) :
  stays_elsewhere cid sid vm a b -> stays_elsewhere cid sid vm b c ->
  stays_elsewhere cid sid vm a c.
Proof. intros H1 H2 H. apply H2, H1, H. Qed.

Lemma stays_elsewhere_same_bkp cid sid vm (w w' : world F) :
  bkp w' = bkp w -> stays_elsewhere cid sid vm w w'.
Proof. intros H H0 k s Hks. rewrite H. apply H0, Hks. Qed.

Lemma prediction_request_elsewhere u (r : PredictionRequest F) (w : world F) :
  elsewhere_as (pdf_client_uuid (pr_df r)) (pdf_stream_id (pr_df r)) (bkp w)
    (snd (prediction_request E C u r w)).
Proof.
  remember (bkp w) as vm0 eqn:Hvm0.
  set (cid := pdf_client_uuid (pr_df r)). set (sid := pdf_stream_id (pr_df r)).
  pose proof (@stays_elsewhere_refl cid sid vm0) as Hr.
  pose proof (@stays_elsewhere_trans cid sid vm0) as Ht.
  assert (H0 : elsewhere_as cid sid vm0 w).
  { intros k s _. rewrite Hvm0. reflexivity. }
  revert H0. change (stays_elsewhere cid sid vm0 w (snd (prediction_request E C u r w))).
  unfold prediction_request.
  apply (@try_except_else_from F _ Ht).
  - unfold prediction_try.
    apply (@bind_from F _ Ht);
      [unfold ValiUtils_get_vali_records, log;
        destruct (get_vali_records_fault E (now w)); simpl;
        apply stays_elsewhere_same_bkp; reflexivity |].
    intros vm w1 H1.
    assert (Hvm : vm = vm0).
    { unfold ValiUtils_get_vali_records in H1.
      destruct (get_vali_records_fault E (now w)); [discriminate |].
      injection H1 as <- _. symmetry. exact Hvm0. }
    subst vm. clear H1 Hvm0. revert w1.
    match goal with
    | |- forall w1, stays_elsewhere ?c ?s ?v w1 (snd (?m w1)) =>
        change (keeps (stays_elsewhere c s v) m)
    end.
    unfold score_predictions, store_results.
    keeps_split; try (one_call; apply stays_elsewhere_same_bkp; reflexivity).
    intro w0. unfold ValiUtils_set_vali_memory_and_bkp, log.
    destruct (set_vali_memory_and_bkp_fault E (now w0)); cbn [snd];
      [apply stays_elsewhere_same_bkp; reflexivity |].
    intros _ k s Hks. cbn [bkp].
    match goal with
    | |- lookup_stream _ _ (match ?o with _ => _ end) = _ =>
        destruct o as [st' |] eqn:Ho; [| reflexivity]
    end.
    apply lookup_with_stream.
    match goal with
    | Ha : add_results _ _ _ = Ok _ |- _ =>
        apply add_results_stream_id in Ha; destruct Ha as [st [Hget Hid]]
    end.
    apply get_stream_id in Hget. fold sid in Hget.
    destruct Hks as [Hk | Hs]; [left; exact Hk | right; congruence].
  - intro e. apply keeps_ret. apply stays_elsewhere_refl.
  - intros _. apply keeps_for_each;
      [apply stays_elsewhere_refl | apply stays_elsewhere_trans |].
    intros file Hin. one_call; apply stays_elsewhere_same_bkp; reflexivity.
Qed.
End GradingLedger.

(** X20. The round that grades a PredictionRequest alters at most one stream
    of the persisted ledger, the stream of the request's record under the
    client of the record: looking up any other client, or any other stream of
    that client, gives after the round what it gave before, however the round
    ends. *)
Theorem grading_round_alters_one_stream :
  forall (F : Float) (E : Validator.collaborators F) (C : Validator.setup)
         (request_uuid : string) (r : Validator.PredictionRequest F)
         (w : Validator.world F) (cid : string) (sid : Z),
    cid <> Validator.pdf_client_uuid (Validator.pr_df r) \/
    sid <> Validator.pdf_stream_id (Validator.pr_df r) ->
    lookup_stream cid sid
      (Validator.bkp (snd (Validator.prediction_request E C request_uuid r w)))
    = lookup_stream cid sid (Validator.bkp w).
Proof.
  intros F E C request_uuid r w cid sid H.
  apply (prediction_request_elsewhere E C request_uuid r w). exact H.
Qed.

Lemma grading_round_alters_one_stream_witness :
  let E := Demo.collab (Ok Demo.candles) None [] [] 0 in
  lookup_stream "validator" 16
    (Validator.bkp (snd (Validator.prediction_request E (Demo.chain 2) "uuid-0"
                           (Demo.scoring 2) (Demo.busy_world 2))))
  = lookup_stream "validator" 16 Demo.busy_ledger.
Proof.
  intro E.
  apply (@grading_round_alters_one_stream Demo.Zfloat E (Demo.chain 2) "uuid-0"
           (Demo.scoring 2) (Demo.busy_world 2) "validator" 16%Z).
  right. simpl. lia.
Defined.
